(** * Cash-flow aggregation (cashflow/cashflow_service.py): model and properties

    The development embeds [CashFlowService] together with the parts of the
    Python runtime it leans on ([decimal.Decimal] under the default context,
    [datetime.isoformat], the value tree produced by [json.loads]) and the
    query layer it is written against (filter, inner join, ORDER BY ... DESC,
    primary-key lookup over in-memory tables). *)

From Stdlib Require Import ZArith NArith QArith Qpower Qabs List Ascii String Bool
  Lia Lqa.
From Stdlib Require Import Sorting.Sorted Sorting.Permutation.
Import ListNotations.

Local Open Scope string_scope.
Local Open Scope list_scope.
Local Open Scope Z_scope.

Set Implicit Arguments.
Set Warnings "-register-all".

(* ================================================================== *)
(** ** Python text, restricted to the ASCII range *)

Definition text := list ascii.

Definition txt (s : string) : text := list_ascii_of_string s.

Fixpoint text_eqb (a b : text) : bool :=
  match a, b with
  | [], [] => true
  | x :: a', y :: b' => Ascii.eqb x y && text_eqb a' b'
  | _, _ => false
  end.

(* ================================================================== *)
(** ** Exceptions and the result of a call *)

(** The exception classes that can travel through the service.  [Exception]
    is what the outer handlers build: [Exception(f"<prefix>: {str(e)}")]. *)
Inductive exn : Type :=
| JSONDecodeError
| ValueError
| InvalidOperation
| Overflow
| AttributeError
| TypeError
| ImportError
| Exception (prefix : text) (cause : exn).

Inductive result (A : Type) : Type :=
| Ok (a : A)
| Raise (e : exn).

Arguments Ok {A} a.
Arguments Raise {A} e.

Definition bind {A B : Type} (c : result A) (k : A -> result B) : result B :=
  match c with
  | Ok a => k a
  | Raise e => Raise e
  end.

Notation "x <- c ;; k" := (bind c (fun x => k))
  (at level 61, c at next level, right associativity).
Notation "' p <- c ;; k" := (bind c (fun p => k))
  (at level 61, p pattern, c at next level, right associativity).

(** [try: body except Exception as e: handler e] *)
Definition try_except {A : Type} (body : result A) (handler : exn -> result A)
  : result A :=
  match body with
  | Ok a => Ok a
  | Raise e => handler e
  end.

(** [except (json.JSONDecodeError, ValueError)]: JSONDecodeError is a subclass
    of ValueError; decimal.InvalidOperation and decimal.Overflow derive from
    ArithmeticError and are not caught by it. *)
Definition is_ValueError (e : exn) : bool :=
  match e with
  | JSONDecodeError | ValueError => true
  | _ => false
  end.

(* ================================================================== *)
(** ** Decimal digits: [str(int)] and [int(str)] *)

Definition digit_char (d : N) : ascii := ascii_of_N (48 + d).

Definition is_digit (c : ascii) : bool :=
  let n := N_of_ascii c in ((48 <=? n) && (n <=? 57))%N.

Definition digit_val (c : ascii) : N := (N_of_ascii c - 48)%N.

Fixpoint str_N_fuel (fuel : nat) (n : N) : text :=
  match fuel with
  | O => []
  | S f =>
      if (n <? 10)%N then [digit_char n]
      else str_N_fuel f (n / 10)%N ++ [digit_char (n mod 10)%N]
  end.

(** [str(n)] for a non-negative int. *)
Definition str_N (n : N) : text := str_N_fuel (S (N.to_nat (N.log2 n))) n.

(** [str(z)] for an int. *)
Definition str_Z (z : Z) : text :=
  if z <? 0 then txt "-" ++ str_N (Z.abs_N z) else str_N (Z.abs_N z).

(** ["%+d" % z] *)
Definition fmt_plus_d (z : Z) : text :=
  (if z <? 0 then txt "-" else txt "+") ++ str_N (Z.abs_N z).

(** [int(s)] for a string of decimal digits (leading zeros allowed). *)
Definition int_of_digits (s : text) : N :=
  fold_left (fun acc c => (10 * acc + digit_val c)%N) s 0%N.

Definition zeros (k : Z) : text := repeat "0"%char (Z.to_nat k).

(** [len(s)] as a Python int. *)
Definition len {A : Type} (l : list A) : Z := Z.of_nat (List.length l).

(** [s[:k]] and [s[k:]] for [0 <= k]. *)
Definition take {A : Type} (k : Z) (l : list A) : list A := firstn (Z.to_nat k) l.
Definition drop {A : Type} (k : Z) (l : list A) : list A := skipn (Z.to_nat k) l.

Fixpoint span (p : ascii -> bool) (s : text) : text * text :=
  match s with
  | [] => ([], [])
  | c :: r => if p c then let (a, b) := span p r in (c :: a, b) else ([], s)
  end.

(* ================================================================== *)
(** ** decimal.Decimal under the default context

    [getcontext()] is never changed by the service, so every operation runs
    with prec=28, rounding=ROUND_HALF_EVEN, Emin=-999999, Emax=999999,
    clamp=0 and the traps InvalidOperation, DivisionByZero and Overflow. *)

Definition prec : Z := 28.
Definition Emax : Z := 999999.
Definition Emin : Z := -999999.
Definition Etiny : Z := Emin - prec + 1.
Definition Etop : Z := Emax - prec + 1.

(** A finite decimal: (-1)^sign * int * 10^exp.  This is also what a NUMERIC
    column of the store yields. *)
Record finite : Type := mkfinite {
  d_sign : bool;
  d_int : N;
  d_exp : Z
}.

Inductive Decimal : Type :=
| Finite (f : finite)
| Infinity (sign : bool)
| NaN (sign : bool) (signaling : bool) (diag : N).

Definition pow10 (k : Z) : N := (10 ^ Z.to_N k)%N.

(** [len(self._int)] *)
Definition ndigits (c : N) : Z := len (str_N c).

Definition is_zero (d : finite) : bool := (d_int d =? 0)%N.

(** Drop the [k] low digits of [c], rounding half to even; the flag tells
    whether the coefficient was rounded up. *)
Definition round_half_even (c : N) (k : Z) : N * bool :=
  let p := pow10 k in
  let q := (c / p)%N in
  let r := (c mod p)%N in
  let up := ((p <? 2 * r) || ((p =? 2 * r) && N.odd q))%N in
  (if up then (q + 1)%N else q, up).

(** [Decimal._fix]: round to the context precision and keep the exponent in
    range.  Only Overflow is trapped; Rounded, Inexact, Subnormal, Underflow
    and Clamped are raised as flags only. *)
Definition _fix (d : finite) : result finite :=
  if is_zero d then
    Ok (mkfinite (d_sign d) 0 (Z.min (Z.max (d_exp d) Etiny) Emax))
  else
    let exp_min := ndigits (d_int d) + d_exp d - prec in
    if Etop <? exp_min then Raise Overflow
    else
      let exp_min := Z.max exp_min Etiny in
      if d_exp d <? exp_min then
        let (coeff, changed) := round_half_even (d_int d) (exp_min - d_exp d) in
        let (coeff, exp_min) :=
          if changed && (prec <? ndigits coeff)
          then ((coeff / 10)%N, exp_min + 1) else (coeff, exp_min) in
        if Etop <? exp_min then Raise Overflow
        else Ok (mkfinite (d_sign d) coeff exp_min)
      else Ok d.

(** [Decimal._rescale(exp, ROUND_HALF_EVEN)] on a finite number: no context
    precision is applied. *)
Definition _rescale (d : finite) (exp : Z) : finite :=
  if is_zero d then mkfinite (d_sign d) 0 exp
  else if exp <=? d_exp d then
    mkfinite (d_sign d) (d_int d * pow10 (d_exp d - exp))%N exp
  else mkfinite (d_sign d) (fst (round_half_even (d_int d) (exp - d_exp d))) exp.

(** [Decimal.__add__] on finite operands: the exact sum at the smaller
    exponent, then [_fix]. *)
Definition finite_add (a b : finite) : result finite :=
  let exp := Z.min (d_exp a) (d_exp b) in
  if is_zero a && is_zero b then
    _fix (mkfinite (d_sign a && d_sign b) 0 exp)
  else if is_zero a then
    _fix (_rescale b (Z.max exp (d_exp b - prec - 1)))
  else if is_zero b then
    _fix (_rescale a (Z.max exp (d_exp a - prec - 1)))
  else
    let ia := (d_int a * pow10 (d_exp a - exp))%N in
    let ib := (d_int b * pow10 (d_exp b - exp))%N in
    if Bool.eqb (d_sign a) (d_sign b) then
      _fix (mkfinite (d_sign a) (ia + ib)%N exp)
    else if (ia =? ib)%N then _fix (mkfinite false 0 exp)
    else if (ib <? ia)%N then _fix (mkfinite (d_sign a) (ia - ib)%N exp)
    else _fix (mkfinite (d_sign b) (ib - ia)%N exp).

(** [Decimal._fix_nan]: a payload longer than the precision keeps its last
    [prec] digits. *)
Definition _fix_nan (sign : bool) (diag : N) : Decimal :=
  if prec <? ndigits diag then NaN sign false (diag mod pow10 prec)%N
  else NaN sign false diag.

(** [Decimal._check_nans]: a signaling NaN raises, a quiet one is the
    answer. *)
Definition _check_nans (a b : Decimal) : option (result Decimal) :=
  match a, b with
  | NaN _ true _, _ => Some (Raise InvalidOperation)
  | _, NaN _ true _ => Some (Raise InvalidOperation)
  | NaN s false p, _ => Some (Ok (_fix_nan s p))
  | _, NaN s false p => Some (Ok (_fix_nan s p))
  | _, _ => None
  end.

Definition Decimal_add (a b : Decimal) : result Decimal :=
  match _check_nans a b with
  | Some ans => ans
  | None =>
      match a, b with
      | Infinity sa, Infinity sb =>
          if Bool.eqb sa sb then Ok a else Raise InvalidOperation
      | Infinity _, _ => Ok a
      | _, Infinity _ => Ok b
      | Finite x, Finite y => r <- finite_add x y ;; Ok (Finite r)
      | _, _ => Raise InvalidOperation
      end
  end.

Definition copy_negate (d : Decimal) : Decimal :=
  match d with
  | Finite f => Finite (mkfinite (negb (d_sign f)) (d_int f) (d_exp f))
  | Infinity s => Infinity (negb s)
  | NaN s g p => NaN (negb s) g p
  end.

(** [Decimal.__sub__]: NaNs are checked first, then [self + (-other)]. *)
Definition Decimal_sub (a b : Decimal) : result Decimal :=
  match _check_nans a b with
  | Some ans => ans
  | None => Decimal_add a (copy_negate b)
  end.

(** [d > 0] and [d < 0]: an ordering comparison with a NaN signals
    InvalidOperation. *)
Definition Decimal_gt0 (d : Decimal) : result bool :=
  match d with
  | Finite f => Ok (negb (d_sign f) && negb (is_zero f))
  | Infinity s => Ok (negb s)
  | NaN _ _ _ => Raise InvalidOperation
  end.

Definition Decimal_lt0 (d : Decimal) : result bool :=
  match d with
  | Finite f => Ok (d_sign f && negb (is_zero f))
  | Infinity s => Ok s
  | NaN _ _ _ => Raise InvalidOperation
  end.

Definition sign_str (s : bool) : text := if s then txt "-" else [].

(** [Decimal.__str__] (scientific notation when the exponent is positive or
    the number has more than six leading fractional zeros). *)
Definition Decimal_str (d : Decimal) : text :=
  match d with
  | Infinity s => sign_str s ++ txt "Infinity"
  | NaN s g p =>
      sign_str s ++ (if g then txt "sNaN" else txt "NaN")
      ++ (if (p =? 0)%N then [] else str_N p)
  | Finite f =>
      let _int := str_N (d_int f) in
      let leftdigits := d_exp f + len _int in
      let dotplace :=
        if (d_exp f <=? 0) && (-6 <? leftdigits) then leftdigits else 1 in
      let (intpart, fracpart) :=
        if dotplace <=? 0 then
          (txt "0", txt "." ++ zeros (- dotplace) ++ _int)
        else if len _int <=? dotplace then
          (_int ++ zeros (dotplace - len _int), [])
        else (take dotplace _int, txt "." ++ drop dotplace _int) in
      let exp :=
        if leftdigits =? dotplace then []
        else txt "E" ++ fmt_plus_d (leftdigits - dotplace) in
      sign_str (d_sign f) ++ intpart ++ fracpart ++ exp
  end.

(** [str.isspace] on the ASCII range. *)
Definition is_space (c : ascii) : bool :=
  let n := N_of_ascii c in
  (((9 <=? n) && (n <=? 13)) || ((28 <=? n) && (n <=? 32)))%N.

Fixpoint lstrip (s : text) : text :=
  match s with
  | c :: r => if is_space c then lstrip r else s
  | [] => []
  end.

(** [s.strip()] *)
Definition strip (s : text) : text := rev (lstrip (rev (lstrip s))).

(** [s.replace] of every underscore by nothing. *)
Definition remove_underscores (s : text) : text :=
  filter (fun c => negb (Ascii.eqb c "_")) s.

Definition lower (c : ascii) : ascii :=
  let n := N_of_ascii c in
  if ((65 <=? n) && (n <=? 90))%N then ascii_of_N (n + 32) else c.

Definition all_digits (s : text) : bool := forallb is_digit s.

(** An optional leading sign. *)
Definition split_sign (s : text) : bool * text :=
  match s with
  | "-"%char :: r => (true, r)
  | "+"%char :: r => (false, r)
  | _ => (false, s)
  end.

(** An optional fraction: a point followed by digits. *)
Definition split_fraction (s : text) : text * text :=
  match s with
  | "."%char :: r => span is_digit r
  | _ => ([], s)
  end.

(** The numeric alternative of the constructor's pattern: digits with an
    optional fraction and an optional exponent, at least one digit. *)
Definition parse_number (body : text) : option (N * Z) :=
  let (intpart, r1) := span is_digit body in
  let (fracpart, r2) := split_fraction r1 in
  match intpart ++ fracpart with
  | [] => None
  | digits =>
      match r2 with
      | [] => Some (int_of_digits digits, - len fracpart)
      | e :: r3 =>
          if Ascii.eqb (lower e) "e" then
            let (neg, ds) := split_sign r3 in
            match ds with
            | [] => None
            | _ =>
                if all_digits ds then
                  let ex := Z.of_N (int_of_digits ds) in
                  Some (int_of_digits digits,
                        (if neg then - ex else ex) - len fracpart)
                else None
            end
          else None
      end
  end.

(** The other alternatives: [Inf(inity)?] and [s?NaN\d*], case-insensitive. *)
Definition parse_special (sign : bool) (body : text) : option Decimal :=
  let l := map lower body in
  if text_eqb l (txt "inf") || text_eqb l (txt "infinity") then
    Some (Infinity sign)
  else
    match l with
    | "n"%char :: "a"%char :: "n"%char :: diag =>
        if all_digits diag then Some (NaN sign false (int_of_digits diag))
        else None
    | "s"%char :: "n"%char :: "a"%char :: "n"%char :: diag =>
        if all_digits diag then Some (NaN sign true (int_of_digits diag))
        else None
    | _ => None
    end.

(** [Decimal(value)] for a [str]: exact, independent of the context; a
    string that is not a number raises InvalidOperation (ConversionSyntax). *)
Definition Decimal_of_text (value : text) : result Decimal :=
  let s := remove_underscores (strip value) in
  let (sign, body) := split_sign s in
  match parse_number body with
  | Some (c, e) => Ok (Finite (mkfinite sign c e))
  | None =>
      match parse_special sign body with
      | Some d => Ok d
      | None => Raise InvalidOperation
      end
  end.

(** [format(d, ".2f")]: rescale to two fractional digits with the context
    rounding, then lay the digits out around the point. *)
Definition format_2f (d : Decimal) : text :=
  match d with
  | Infinity s => sign_str s ++ txt "Infinity"
  | NaN s g p =>
      sign_str s ++ (if g then txt "sNaN" else txt "NaN")
      ++ (if (p =? 0)%N then [] else str_N p)
  | Finite f =>
      let f := _rescale f (-2) in
      let _int := str_N (d_int f) in
      let dotplace := d_exp f + len _int in
      let (intpart, fracpart) :=
        if dotplace <? 0 then (txt "0", zeros (- dotplace) ++ _int)
        else
          (match take dotplace _int with [] => txt "0" | i => i end,
           drop dotplace _int) in
      sign_str (d_sign f) ++ intpart ++ txt "." ++ fracpart
  end.

(* ================================================================== *)
(** ** datetime (naive) *)

Record datetime : Type := mkdatetime {
  year : N; month : N; day : N;
  hour : N; minute : N; second : N; microsecond : N
}.

Definition then_compare (c : comparison) (k : comparison) : comparison :=
  match c with Eq => k | _ => c end.

(** Ordering of naive datetimes: field by field, most significant first. *)
Definition datetime_compare (a b : datetime) : comparison :=
  then_compare (N.compare (year a) (year b))
  (then_compare (N.compare (month a) (month b))
  (then_compare (N.compare (day a) (day b))
  (then_compare (N.compare (hour a) (hour b))
  (then_compare (N.compare (minute a) (minute b))
  (then_compare (N.compare (second a) (second b))
                (N.compare (microsecond a) (microsecond b))))))).

Definition datetime_leb (a b : datetime) : bool :=
  match datetime_compare a b with Gt => false | _ => true end.

(** ["%0<w>d" % n] *)
Definition pad (w : Z) (n : N) : text := zeros (w - len (str_N n)) ++ str_N n.

(** [datetime.isoformat()]: the microseconds are printed only when non-zero. *)
Definition isoformat (d : datetime) : text :=
  pad 4 (year d) ++ txt "-" ++ pad 2 (month d) ++ txt "-" ++ pad 2 (day d)
  ++ txt "T" ++ pad 2 (hour d) ++ txt ":" ++ pad 2 (minute d)
  ++ txt ":" ++ pad 2 (second d)
  ++ (if (microsecond d =? 0)%N then [] else txt "." ++ pad 6 (microsecond d)).

(* ================================================================== *)
(** ** Values produced by [json.loads] *)

(** A float is carried as the exact decimal expansion that [Decimal(float)]
    gives for it (every binary float has a finite one; nan and inf map to
    the special values). *)
Inductive json : Type :=
| JNull
| JBool (b : bool)
| JInt (z : Z)
| JFloat (d : Decimal)
| JStr (s : text)
| JList (l : list json)
| JDict (kv : list (text * json)).

(** [d.get(key, default)] on a dict. *)
Fixpoint dict_get (kv : list (text * json)) (key : text) (default : json) : json :=
  match kv with
  | [] => default
  | (k, v) :: r => if text_eqb k key then v else dict_get r key default
  end.

(** [v.get(key, default)] on any value: only a dict has the attribute. *)
Definition py_get (v : json) (key : text) (default : json) : result json :=
  match v with
  | JDict kv => Ok (dict_get kv key default)
  | _ => Raise AttributeError
  end.

(** [bool(v)] *)
Definition truthy (v : json) : bool :=
  match v with
  | JNull => false
  | JBool b => b
  | JInt z => negb (z =? 0)
  | JFloat (Finite f) => negb (is_zero f)
  | JFloat _ => true
  | JStr s => match s with [] => false | _ => true end
  | JList l => match l with [] => false | _ => true end
  | JDict kv => match kv with [] => false | _ => true end
  end.

(* ================================================================== *)
(** ** The store: tables and rows *)

(** The model classes (customers/customer.py, suppliers/supplier.py,
    products/product.py, payments/payment.py, returns/product_return.py,
    stock_transactions/stock_transaction.py, damage/supplier_return.py) are
    not among the sources at hand.  Each record below lists the columns the
    service reads: keys are ints, monetary columns are nullable fixed-point
    values, text columns are text, the timestamp a query sorts on is
    present, optional links are nullable. *)

Module Customer.
(** Modelled from the spec: Customer, a reference entity giving the contact
    person and business name. *)
Record row : Type := mk {
  id : Z; contact_person : text; business_name : text
}.
End Customer.

Module Supplier.
(** Modelled from the spec: Supplier, a reference entity giving the contact
    person and name. *)
Record row : Type := mk {
  id : Z; contact_person : text; name : text
}.
End Supplier.

Module Product.
(** Modelled from the spec: Product, a reference entity giving the product
    name. *)
Record row : Type := mk { id : Z; product_name : text }.
End Product.

Module Payment.
(** Modelled from the spec: Payment, a transfer of money from a customer. *)
Record row : Type := mk {
  id : Z;
  invoice_id : option Z;
  customer_id : Z;
  amount_paid : option finite;
  payment_method : text;
  payment_status : text;
  payment_date : datetime;
  transaction_reference : text
}.
End Payment.

Module ProductReturn.
(** Modelled from the spec: ProductReturn, a return or an exchange, with the
    money owed to the customer ([refund_amount]) and by the customer
    ([exchange_price_difference]). *)
Record row : Type := mk {
  id : Z;
  return_number : text;
  customer_id : Z;
  product_id : Z;
  original_invoice_id : option Z;
  return_type : text;
  refund_amount : option finite;
  exchange_price_difference : option finite;
  status : text;
  reason : text;
  quantity_returned : Z;
  exchange_product_id : option Z;
  return_date : datetime
}.
End ProductReturn.

Module DamagedProduct.
(** Modelled from the spec: DamagedProduct, the link from a supplier return
    to its product. *)
Record row : Type := mk { id : Z; product_id : option Z }.
End DamagedProduct.

Module StockTransaction.
(** Modelled from the spec: StockTransaction, an inbound stock movement with
    a free-form note that may embed a payment record. *)
Record row : Type := mk {
  id : Z;
  transaction_type : text;
  supplier_id : Z;
  product_id : option Z;
  quantity : Z;
  transaction_date : datetime;
  reference_number : text;
  notes : option text
}.
End StockTransaction.

Module SupplierReturn.
(** Modelled from the spec: SupplierReturn, a refund received from a
    supplier. *)
Record row : Type := mk {
  id : Z;
  return_number : text;
  supplier_id : Z;
  damaged_product_id : option Z;
  refund_amount : option finite;
  return_type : text;
  status : text;
  quantity_returned : Z;
  return_date : datetime
}.
End SupplierReturn.

(** Modelled from the spec: the state of the store behind [db.session], one
    list of rows per table.  [supplier_returns] is [None] when the
    supplier-returns feature (module damage.supplier_return and its table)
    is not available: importing or querying it raises.  The other tables
    answer every query: a failure of the connection or of the driver while
    a query runs has no counterpart in this state.  Statements about the
    failures of an operation are therefore given in terms of what the
    operations it calls raised, whatever that is, and name a particular
    exception only for the arithmetic of the operation itself. *)
Record Database : Type := mkDatabase {
  customers : list Customer.row;
  suppliers : list Supplier.row;
  products : list Product.row;
  payments : list Payment.row;
  product_returns : list ProductReturn.row;
  damaged_products : list DamagedProduct.row;
  stock_transactions : list StockTransaction.row;
  supplier_returns : option (list SupplierReturn.row)
}.

(* ================================================================== *)
(** ** The query layer *)

(** [query(A, B).join(B, on)] *)
Definition inner_join {A B : Type} (on : A -> B -> bool)
  (l : list A) (r : list B) : list (A * B) :=
  flat_map (fun a => map (pair a) (filter (on a) r)) l.

Fixpoint insert_desc {A : Type} (key : A -> datetime) (x : A) (l : list A)
  : list A :=
  match l with
  | [] => [x]
  | y :: r =>
      if datetime_leb (key y) (key x) then x :: y :: r
      else y :: insert_desc key x r
  end.

(** [.order_by(key.desc())]: rows with equal keys keep the order in which
    the query produced them. *)
Definition order_by_desc {A : Type} (key : A -> datetime) (l : list A)
  : list A :=
  fold_right (insert_desc key) [] l.

(** [Model.query.get(pk)] *)
Definition query_get {A : Type} (id : A -> Z) (table : list A) (pk : option Z)
  : option A :=
  match pk with
  | None => None
  | Some k => find (fun a => id a =? k) table
  end.

(** [column.in_([...])] *)
Definition in_ (column : text) (values : list text) : bool :=
  existsb (text_eqb column) values.

(** [column > 0] and [column == 0] on a nullable NUMERIC column: a NULL
    satisfies neither. *)
Definition sql_gt0 (x : option finite) : bool :=
  match x with
  | Some f => negb (d_sign f) && negb (is_zero f)
  | None => false
  end.

Definition sql_eq0 (x : option finite) : bool :=
  match x with
  | Some f => is_zero f
  | None => false
  end.

(** [Decimal(x or 0)] for a value read from a NUMERIC column. *)
Definition Decimal_or_0 (x : option finite) : Decimal :=
  match x with
  | Some f => if is_zero f then Finite (mkfinite false 0 0) else Finite f
  | None => Finite (mkfinite false 0 0)
  end.

(** [for x in l: st = body(st, x)] with exceptions. *)
Fixpoint for_each {A S : Type} (l : list A) (st : S) (body : S -> A -> result S)
  : result S :=
  match l with
  | [] => Ok st
  | x :: r => st' <- body st x ;; for_each r st' body
  end.

(* ================================================================== *)
(** ** What the operations return *)

Module PaymentItem.
Record item : Type := mk {
  payment_id : json;
  invoice_id : option Z;
  customer_id : Z;
  customer_name : text;
  business_name : text;
  amount_paid : text;
  payment_method : text;
  payment_date : text;
  transaction_reference : text;
  payment_type : text;
  status : text;
  adjustment_details : option text
}.
End PaymentItem.

Module CustomerPayments.
Record t : Type := mk {
  customer_payments : list PaymentItem.item;
  total_received : text;
  count : Z
}.
End CustomerPayments.

Module RefundItem.
Record item : Type := mk {
  return_id : Z;
  return_number : text;
  customer_id : Z;
  customer_name : text;
  business_name : text;
  product_name : text;
  refund_amount : text;
  refund_type : text;
  reason : text;
  return_date : text;
  quantity_returned : Z;
  exchange_product : option text
}.
End RefundItem.

Module CustomerRefunds.
Record t : Type := mk {
  customer_refunds : list RefundItem.item;
  total_refunded : text;
  count : Z
}.
End CustomerRefunds.

Module SupplierPaymentItem.
Record item : Type := mk {
  transaction_id : Z;
  supplier_id : Z;
  supplier_name : text;
  business_name : text;
  products : list json;
  quantity : Z;
  amount_paid : text;
  payment_method : json;
  payment_status : json;
  transaction_date : text;
  reference_number : text;
  transaction_reference : json
}.
End SupplierPaymentItem.

Module SupplierPayments.
Record t : Type := mk {
  supplier_payments : list SupplierPaymentItem.item;
  total_paid : text;
  count : Z
}.
End SupplierPayments.

Module ReceiptItem.
Record item : Type := mk {
  return_id : Z;
  return_number : text;
  supplier_id : Z;
  supplier_name : text;
  business_name : text;
  product_name : text;
  refund_amount : text;
  return_type : text;
  return_date : text;
  quantity_returned : Z;
  status : text
}.
End ReceiptItem.

Module SupplierReceipts.
Record t : Type := mk {
  supplier_receipts : list ReceiptItem.item;
  total_received : text;
  count : Z
}.
End SupplierReceipts.

Module Summary.
Record cash_inflow_t : Type := mk_inflow {
  customer_payments : text;
  supplier_refunds : text;
  total_inflow : text
}.
Record cash_outflow_t : Type := mk_outflow {
  customer_refunds : text;
  supplier_payments : text;
  total_outflow : text
}.
Record entry (T : Type) : Type := mk_entry {
  amount : text;
  count : Z;
  transactions : list T
}.
Record customer_transactions_t : Type := mk_customer {
  payments_received : entry PaymentItem.item;
  refunds_given : entry RefundItem.item
}.
Record supplier_transactions_t : Type := mk_supplier {
  payments_made : entry SupplierPaymentItem.item;
  refunds_received : entry ReceiptItem.item
}.
Record detailed_breakdown_t : Type := mk_breakdown {
  customer_transactions : customer_transactions_t;
  supplier_transactions : supplier_transactions_t
}.
Record summary_t : Type := mk_summary {
  total_customer_transactions : Z;
  total_supplier_transactions : Z;
  cash_position : text
}.
Record t : Type := mk {
  cash_inflow : cash_inflow_t;
  cash_outflow : cash_outflow_t;
  net_cashflow : text;
  detailed_breakdown : detailed_breakdown_t;
  summary : summary_t
}.
End Summary.

(* ================================================================== *)
(** ** CashFlowService *)

Definition Decimal_0 : Decimal := Finite (mkfinite false 0 0).

(** [str(value)] for the two kinds of argument [format_decimal] receives. *)
Definition str (value : Decimal + text) : text :=
  match value with
  | inl d => Decimal_str d
  | inr s => s
  end.

(** [format_decimal]: [f"{Decimal(str(value)):.2f}"] *)
Definition format_decimal (value : Decimal + text) : result text :=
  d <- Decimal_of_text (str value) ;;
  Ok (format_2f d).

(** The first query of [get_customer_payments]. *)
Definition query_payments (db : Database) : list (Payment.row * Customer.row) :=
  order_by_desc (fun pc => Payment.payment_date (fst pc))
    (filter
       (fun pc =>
          in_ (Payment.payment_status (fst pc))
              [txt "Successful"; txt "Partially Paid"]
          && sql_gt0 (Payment.amount_paid (fst pc)))
       (inner_join (fun p c => Payment.customer_id p =? Customer.id c)
          (payments db) (customers db))).

(** The join shared by the two queries over ProductReturn. *)
Definition join_returns (db : Database)
  : list (ProductReturn.row * Customer.row * Product.row) :=
  inner_join (fun rc p => ProductReturn.product_id (fst rc) =? Product.id p)
    (inner_join (fun r c => ProductReturn.customer_id r =? Customer.id c)
       (product_returns db) (customers db))
    (products db).

Definition return_of (x : ProductReturn.row * Customer.row * Product.row)
  : ProductReturn.row := fst (fst x).

(** The second query of [get_customer_payments]. *)
Definition query_adjustments (db : Database)
  : list (ProductReturn.row * Customer.row * Product.row) :=
  order_by_desc (fun x => ProductReturn.return_date (return_of x))
    (filter
       (fun x =>
          text_eqb (ProductReturn.return_type (return_of x)) (txt "exchange")
          && sql_gt0 (ProductReturn.exchange_price_difference (return_of x))
          && sql_eq0 (ProductReturn.refund_amount (return_of x)))
       (join_returns db)).

(** [adjustment.exchange_product]: the row the exchange link points to. *)
Definition exchange_product (db : Database) (r : ProductReturn.row)
  : option Product.row :=
  query_get Product.id (products db) (ProductReturn.exchange_product_id r).

(** The dict appended for a regular payment. *)
Definition regular_payment_item (payment : Payment.row) (customer : Customer.row)
  (amount_paid : text) : PaymentItem.item :=
  PaymentItem.mk
    (JInt (Payment.id payment))
    (Payment.invoice_id payment)
    (Customer.id customer)
    (Customer.contact_person customer)
    (Customer.business_name customer)
    amount_paid
    (Payment.payment_method payment)
    (isoformat (Payment.payment_date payment))
    (Payment.transaction_reference payment)
    (txt "regular_payment")
    (Payment.payment_status payment)
    None.

Definition regular_payment_step
  (st : list PaymentItem.item * Decimal) (pc : Payment.row * Customer.row)
  : result (list PaymentItem.item * Decimal) :=
  let (customer_payments, total_received) := st in
  let (payment, customer) := pc in
  let amount := Decimal_or_0 (Payment.amount_paid payment) in
  total_received <- Decimal_add total_received amount ;;
  amount_paid <- format_decimal (inl amount) ;;
  Ok (customer_payments ++ [regular_payment_item payment customer amount_paid],
      total_received).

(** The dict appended for an adjustment payment. *)
Definition adjustment_payment_item (db : Database)
  (adjustment : ProductReturn.row) (customer : Customer.row)
  (product : Product.row) (amount_paid : text) : PaymentItem.item :=
  PaymentItem.mk
    (JStr (txt "ADJ-" ++ str_Z (ProductReturn.id adjustment)))
    (ProductReturn.original_invoice_id adjustment)
    (Customer.id customer)
    (Customer.contact_person customer)
    (Customer.business_name customer)
    amount_paid
    (txt "adjustment")
    (isoformat (ProductReturn.return_date adjustment))
    (ProductReturn.return_number adjustment)
    (txt "adjustment_payment")
    (txt "Completed")
    (Some (txt "Customer pays extra for exchange: "
           ++ Product.product_name product ++ txt " -> "
           ++ match exchange_product db adjustment with
              | Some p => Product.product_name p
              | None => txt "N/A"
              end)).

Definition adjustment_payment_step (db : Database)
  (st : list PaymentItem.item * Decimal)
  (x : ProductReturn.row * Customer.row * Product.row)
  : result (list PaymentItem.item * Decimal) :=
  let (customer_payments, total_received) := st in
  let '(adjustment, customer, product) := x in
  let amount :=
    Decimal_or_0 (ProductReturn.exchange_price_difference adjustment) in
  total_received <- Decimal_add total_received amount ;;
  amount_paid <- format_decimal (inl amount) ;;
  Ok (customer_payments ++
      [adjustment_payment_item db adjustment customer product amount_paid],
      total_received).

Definition get_customer_payments (db : Database) : result CustomerPayments.t :=
  try_except
    (let payments := query_payments db in
     let adjustments := query_adjustments db in
     st <- for_each payments ([], Decimal_0) regular_payment_step ;;
     st <- for_each adjustments st (adjustment_payment_step db) ;;
     let (customer_payments, total_received) := st in
     total <- format_decimal (inl total_received) ;;
     Ok (CustomerPayments.mk customer_payments total (len customer_payments)))
    (fun e => Raise (Exception (txt "Error fetching customer payments") e)).

Definition query_refunds (db : Database)
  : list (ProductReturn.row * Customer.row * Product.row) :=
  order_by_desc (fun x => ProductReturn.return_date (return_of x))
    (filter
       (fun x =>
          sql_gt0 (ProductReturn.refund_amount (return_of x))
          && in_ (ProductReturn.status (return_of x))
                 [txt "Pending"; txt "Processed"; txt "Completed"])
       (join_returns db)).

(** The dict appended for a refund; exchanges are relabelled. *)
Definition refund_item (db : Database) (refund : ProductReturn.row)
  (customer : Customer.row) (product : Product.row) (refund_amount : text)
  : RefundItem.item :=
  let (refund_type, reason) :=
    if text_eqb (ProductReturn.return_type refund) (txt "exchange") then
      (txt "adjustment_refund",
       txt "Adjustment - We pay customer extra amount for product exchange")
    else (ProductReturn.return_type refund, ProductReturn.reason refund) in
  RefundItem.mk
    (ProductReturn.id refund)
    (ProductReturn.return_number refund)
    (Customer.id customer)
    (Customer.contact_person customer)
    (Customer.business_name customer)
    (Product.product_name product)
    refund_amount
    refund_type
    reason
    (isoformat (ProductReturn.return_date refund))
    (ProductReturn.quantity_returned refund)
    (option_map Product.product_name (exchange_product db refund)).

Definition refund_step (db : Database)
  (st : list RefundItem.item * Decimal)
  (x : ProductReturn.row * Customer.row * Product.row)
  : result (list RefundItem.item * Decimal) :=
  let (customer_refunds, total_refunded) := st in
  let '(refund, customer, product) := x in
  let amount := Decimal_or_0 (ProductReturn.refund_amount refund) in
  total_refunded <- Decimal_add total_refunded amount ;;
  refund_amount <- format_decimal (inl amount) ;;
  Ok (customer_refunds ++ [refund_item db refund customer product refund_amount],
      total_refunded).

Definition get_customer_refunds (db : Database) : result CustomerRefunds.t :=
  try_except
    (let refunds := query_refunds db in
     st <- for_each refunds ([], Decimal_0) (refund_step db) ;;
     let (customer_refunds, total_refunded) := st in
     total <- format_decimal (inl total_refunded) ;;
     Ok (CustomerRefunds.mk customer_refunds total (len customer_refunds)))
    (fun e => Raise (Exception (txt "Error fetching customer refunds") e)).

Section Notes.

(** [json.loads]: the value tree for a document, [None] where it raises
    JSONDecodeError. *)
Variable json_loads : text -> option json.

(** [Decimal(value)] for a list: the (sign, digits, exponent) form, or the
    exception the constructor raises for it. *)
Variable Decimal_from_sequence : list json -> result Decimal.

(** [Decimal(value)] for a value read from a note. *)
Definition Decimal_new (value : json) : result Decimal :=
  match value with
  | JStr s => Decimal_of_text s
  | JInt z => Ok (Finite (mkfinite (z <? 0) (Z.abs_N z) 0))
  | JBool b => Ok (Finite (mkfinite false (if b then 1 else 0)%N 0))
  | JFloat d => Ok d
  | JList l => Decimal_from_sequence l
  | JNull | JDict _ => Raise TypeError
  end.

(** What the loop of [get_supplier_payments] knows about a transaction
    after reading its notes: payment_amount, payment_method,
    payment_status, transaction_reference, products_info. *)
Definition payment_info_t : Type := (Decimal * json * json * json * json)%type.

Definition no_payment_info : payment_info_t :=
  (Decimal_0, JNull, JNull, JNull, JList []).

Definition extract_payment_info (notes : option text) : result payment_info_t :=
  match notes with
  | None | Some [] => Ok no_payment_info
  | Some s =>
      try_except
        (payment_info <-
           match json_loads s with
           | Some v => Ok v
           | None => Raise JSONDecodeError
           end ;;
         a <- py_get payment_info (txt "payment_amount") (JStr (txt "0")) ;;
         payment_amount <- Decimal_new a ;;
         payment_method <- py_get payment_info (txt "payment_method") JNull ;;
         payment_status <- py_get payment_info (txt "payment_status") JNull ;;
         transaction_reference <-
           py_get payment_info (txt "transaction_reference") JNull ;;
         products_info <- py_get payment_info (txt "products") (JList []) ;;
         Ok (payment_amount, payment_method, payment_status,
             transaction_reference, products_info))
        (fun e => if is_ValueError e then Ok no_payment_info else Raise e)
  end.

(** [[p.get('name', '') for p in products_info]] for a truthy
    [products_info]: iterating a dict or a str yields strings, which have
    no [get]; the other values are not iterable. *)
Definition product_names_of (products_info : json) : result (list json) :=
  match products_info with
  | JList l =>
      for_each l []
        (fun acc p => n <- py_get p (txt "name") (JStr []) ;; Ok (acc ++ [n]))
  | JDict _ | JStr _ => Raise AttributeError
  | _ => Raise TypeError
  end.

(** The dict appended for a purchase that carries a payment. *)
Definition supplier_payment_item (transaction : StockTransaction.row)
  (supplier : Supplier.row) (product_names : list json)
  (payment_amount : Decimal)
  (payment_method payment_status transaction_reference : json)
  : SupplierPaymentItem.item :=
  SupplierPaymentItem.mk
    (StockTransaction.id transaction)
    (Supplier.id supplier)
    (Supplier.contact_person supplier)
    (Supplier.name supplier)
    product_names
    (StockTransaction.quantity transaction)
    (Decimal_str payment_amount)
    payment_method
    payment_status
    (isoformat (StockTransaction.transaction_date transaction))
    (StockTransaction.reference_number transaction)
    transaction_reference.

Definition supplier_payment_step (db : Database)
  (st : list SupplierPaymentItem.item * Decimal)
  (ts : StockTransaction.row * Supplier.row)
  : result (list SupplierPaymentItem.item * Decimal) :=
  let (supplier_payments, total_paid) := st in
  let (transaction, supplier) := ts in
  info <- extract_payment_info (StockTransaction.notes transaction) ;;
  let '(payment_amount, payment_method, payment_status,
        transaction_reference, products_info) := info in
  positive <- Decimal_gt0 payment_amount ;;
  if positive then
    total_paid <- Decimal_add total_paid payment_amount ;;
    product_names <-
      (if truthy products_info then product_names_of products_info
       else
         match query_get Product.id (products db)
                 (StockTransaction.product_id transaction) with
         | Some product => Ok [JStr (Product.product_name product)]
         | None => Ok []
         end) ;;
    Ok (supplier_payments ++
        [supplier_payment_item transaction supplier product_names
           payment_amount payment_method payment_status
           transaction_reference],
        total_paid)
  else Ok st.

Definition query_purchases (db : Database)
  : list (StockTransaction.row * Supplier.row) :=
  order_by_desc (fun ts => StockTransaction.transaction_date (fst ts))
    (filter
       (fun ts =>
          text_eqb (StockTransaction.transaction_type (fst ts))
                   (txt "Purchase"))
       (inner_join (fun t s => StockTransaction.supplier_id t =? Supplier.id s)
          (stock_transactions db) (suppliers db))).

Definition get_supplier_payments (db : Database) : result SupplierPayments.t :=
  try_except
    (let transactions := query_purchases db in
     st <- for_each transactions ([], Decimal_0) (supplier_payment_step db) ;;
     let (supplier_payments, total_paid) := st in
     Ok (SupplierPayments.mk supplier_payments (Decimal_str total_paid)
           (len supplier_payments)))
    (fun e => Raise (Exception (txt "Error fetching supplier payments") e)).

(** The dict appended for a supplier refund. *)
Definition receipt_item (db : Database) (receipt : SupplierReturn.row)
  (supplier : Supplier.row) (amount : Decimal) : ReceiptItem.item :=
  let damaged_product :=
    query_get DamagedProduct.id (damaged_products db)
      (SupplierReturn.damaged_product_id receipt) in
  let product :=
    match damaged_product with
    | Some dp =>
        query_get Product.id (products db) (DamagedProduct.product_id dp)
    | None => None
    end in
  ReceiptItem.mk
    (SupplierReturn.id receipt)
    (SupplierReturn.return_number receipt)
    (Supplier.id supplier)
    (Supplier.contact_person supplier)
    (Supplier.name supplier)
    (match product with
     | Some p => Product.product_name p
     | None => txt "Unknown Product"
     end)
    (Decimal_str amount)
    (SupplierReturn.return_type receipt)
    (isoformat (SupplierReturn.return_date receipt))
    (SupplierReturn.quantity_returned receipt)
    (SupplierReturn.status receipt).

Definition receipt_step (db : Database)
  (st : list ReceiptItem.item * Decimal)
  (rs : SupplierReturn.row * Supplier.row)
  : result (list ReceiptItem.item * Decimal) :=
  let (supplier_receipts, total_received) := st in
  let (receipt, supplier) := rs in
  let amount := Decimal_or_0 (SupplierReturn.refund_amount receipt) in
  total_received <- Decimal_add total_received amount ;;
  Ok (supplier_receipts ++ [receipt_item db receipt supplier amount],
      total_received).

Definition query_receipts (db : Database) (table : list SupplierReturn.row)
  : list (SupplierReturn.row * Supplier.row) :=
  order_by_desc (fun rs => SupplierReturn.return_date (fst rs))
    (filter
       (fun rs =>
          sql_gt0 (SupplierReturn.refund_amount (fst rs))
          && text_eqb (SupplierReturn.status (fst rs)) (txt "Completed"))
       (inner_join (fun r s => SupplierReturn.supplier_id r =? Supplier.id s)
          table (suppliers db))).

(** The [try] block of [get_supplier_receipts]. *)
Definition supplier_receipts_body (db : Database) : result SupplierReceipts.t :=
  table <-
    match supplier_returns db with
    | Some table => Ok table
    | None => Raise ImportError
    end ;;
  let receipts := query_receipts db table in
  st <- for_each receipts ([], Decimal_0) (receipt_step db) ;;
  let (supplier_receipts, total_received) := st in
  Ok (SupplierReceipts.mk supplier_receipts (Decimal_str total_received)
        (len supplier_receipts)).

Definition empty_receipts : SupplierReceipts.t :=
  SupplierReceipts.mk [] (txt "0.00") 0.

Definition get_supplier_receipts (db : Database) : result SupplierReceipts.t :=
  try_except (supplier_receipts_body db) (fun _ => Ok empty_receipts).

Definition classify (net_cashflow : Decimal) : result text :=
  positive <- Decimal_gt0 net_cashflow ;;
  if positive then Ok (txt "Positive")
  else
    negative <- Decimal_lt0 net_cashflow ;;
    if negative then Ok (txt "Negative") else Ok (txt "Neutral").

Definition get_cashflow_summary (db : Database) : result Summary.t :=
  try_except
    (customer_payments <- get_customer_payments db ;;
     supplier_receipts <- get_supplier_receipts db ;;
     cp <- Decimal_of_text (CustomerPayments.total_received customer_payments) ;;
     sr <- Decimal_of_text (SupplierReceipts.total_received supplier_receipts) ;;
     total_inflow <- Decimal_add cp sr ;;
     customer_refunds <- get_customer_refunds db ;;
     supplier_payments <- get_supplier_payments db ;;
     cr <- Decimal_of_text (CustomerRefunds.total_refunded customer_refunds) ;;
     sp <- Decimal_of_text (SupplierPayments.total_paid supplier_payments) ;;
     total_outflow <- Decimal_add cr sp ;;
     net_cashflow <- Decimal_sub total_inflow total_outflow ;;
     in_cp <- format_decimal
                (inr (CustomerPayments.total_received customer_payments)) ;;
     in_sr <- format_decimal
                (inr (SupplierReceipts.total_received supplier_receipts)) ;;
     in_total <- format_decimal (inl total_inflow) ;;
     out_cr <- format_decimal
                 (inr (CustomerRefunds.total_refunded customer_refunds)) ;;
     out_sp <- format_decimal
                 (inr (SupplierPayments.total_paid supplier_payments)) ;;
     out_total <- format_decimal (inl total_outflow) ;;
     net <- format_decimal (inl net_cashflow) ;;
     position <- classify net_cashflow ;;
     Ok (Summary.mk
           (Summary.mk_inflow in_cp in_sr in_total)
           (Summary.mk_outflow out_cr out_sp out_total)
           net
           (Summary.mk_breakdown
              (Summary.mk_customer
                 (Summary.mk_entry in_cp
                    (CustomerPayments.count customer_payments)
                    (CustomerPayments.customer_payments customer_payments))
                 (Summary.mk_entry out_cr
                    (CustomerRefunds.count customer_refunds)
                    (CustomerRefunds.customer_refunds customer_refunds)))
              (Summary.mk_supplier
                 (Summary.mk_entry out_sp
                    (SupplierPayments.count supplier_payments)
                    (SupplierPayments.supplier_payments supplier_payments))
                 (Summary.mk_entry in_sr
                    (SupplierReceipts.count supplier_receipts)
                    (SupplierReceipts.supplier_receipts supplier_receipts))))
           (Summary.mk_summary
              (CustomerPayments.count customer_payments
               + CustomerRefunds.count customer_refunds)
              (SupplierPayments.count supplier_payments
               + SupplierReceipts.count supplier_receipts)
              position)))
    (fun e => Raise (Exception (txt "Error generating cash flow summary") e)).

End Notes.

(* ================================================================== *)
(** ** cashflow/cashflow_routes.py: the view functions

    Each view function is the body that the permission decorator wraps.  A
    response is the pair [jsonify(payload), status]; the payload is kept as
    the value handed to [jsonify]. *)

(** The body of a response: the result of the operation, or
    [{"error": str(e)}], kept as the exception whose text is sent. *)
Inductive payload (A : Type) : Type :=
| Json (result : A)
| ErrorBody (e : exn).

Arguments Json {A} result.
Arguments ErrorBody {A} e.

Definition response (A : Type) : Type := (payload A * Z)%type.

(** [try: ...; return jsonify(result), 200
     except Exception as e: return jsonify({"error": str(e)}), 500] *)
Definition respond {A : Type} (body : result A) : response A :=
  match body with
  | Ok result => (Json result, 200)
  | Raise e => (ErrorBody e, 500)
  end.

Section Messages.

(** [str(e)] for an exception raised by the runtime. *)
Variable message : exn -> text.

(** [str(e)]: the service's own exceptions are built as
    [Exception(f"<prefix>: {str(e)}")]. *)
Fixpoint str_exn (e : exn) : text :=
  match e with
  | Exception prefix cause => prefix ++ txt ": " ++ str_exn cause
  | _ => message e
  end.

(** The text under the key "error" of a response, if it is an error. *)
Definition error_text {A : Type} (r : response A) : option text :=
  match fst r with
  | ErrorBody e => Some (str_exn e)
  | Json _ => None
  end.

End Messages.

Module AdjustmentRefundItem.
Record item : Type := mk {
  adjustment_id : Z;
  return_number : text;
  customer_id : Z;
  customer_name : text;
  business_name : text;
  old_product : text;
  new_product : option text;
  amount_paid : text;
  adjustment_date : text;
  status : text;
  reason : text
}.
End AdjustmentRefundItem.

Module CustomerAdjustmentRefunds.
Record t : Type := mk {
  customer_adjustment_refunds : list AdjustmentRefundItem.item;
  total_paid : text;
  count : Z
}.
End CustomerAdjustmentRefunds.

Module Detailed.
Record t : Type := mk {
  customer_payments : CustomerPayments.t;
  customer_refunds : CustomerRefunds.t;
  supplier_payments : SupplierPayments.t;
  supplier_refunds : SupplierReceipts.t
}.
End Detailed.

Module cashflow_routes.

(** [from cashflow.cashflow_service import CashFlowService] *)
Module CashFlowService.
Definition get_customer_payments := get_customer_payments.
Definition get_customer_refunds := get_customer_refunds.
Definition get_supplier_payments := get_supplier_payments.
Definition get_supplier_receipts := get_supplier_receipts.
Definition get_cashflow_summary := get_cashflow_summary.
Definition format_decimal := format_decimal.
End CashFlowService.

Definition get_customer_payments (db : Database)
  : response CustomerPayments.t :=
  respond (CashFlowService.get_customer_payments db).

(** The query of the view [get_customer_refunds]: exchanges with a refund,
    whatever their status. *)
Definition query_exchange_refunds (db : Database)
  : list (ProductReturn.row * Customer.row * Product.row) :=
  order_by_desc (fun x => ProductReturn.return_date (return_of x))
    (filter
       (fun x =>
          text_eqb (ProductReturn.return_type (return_of x)) (txt "exchange")
          && sql_gt0 (ProductReturn.refund_amount (return_of x)))
       (join_returns db)).

(** The dict appended for an adjustment refund. *)
Definition adjustment_refund_item (db : Database)
  (adjustment : ProductReturn.row) (customer : Customer.row)
  (product : Product.row) (amount_paid : text) : AdjustmentRefundItem.item :=
  AdjustmentRefundItem.mk
    (ProductReturn.id adjustment)
    (ProductReturn.return_number adjustment)
    (Customer.id customer)
    (Customer.contact_person customer)
    (Customer.business_name customer)
    (Product.product_name product)
    (option_map Product.product_name (exchange_product db adjustment))
    amount_paid
    (isoformat (ProductReturn.return_date adjustment))
    (ProductReturn.status adjustment)
    (txt "Adjustment - We pay customer extra amount for product exchange").

Definition adjustment_refund_step (db : Database)
  (st : list AdjustmentRefundItem.item * Decimal)
  (x : ProductReturn.row * Customer.row * Product.row)
  : result (list AdjustmentRefundItem.item * Decimal) :=
  let (customer_refunds, total_paid) := st in
  let '(adjustment, customer, product) := x in
  let amount := Decimal_or_0 (ProductReturn.refund_amount adjustment) in
  total_paid <- Decimal_add total_paid amount ;;
  amount_paid <- CashFlowService.format_decimal (inl amount) ;;
  Ok (customer_refunds ++
      [adjustment_refund_item db adjustment customer product amount_paid],
      total_paid).

(** The [try] block of the view [get_customer_refunds]. *)
Definition customer_refunds_body (db : Database)
  : result CustomerAdjustmentRefunds.t :=
  let refunds := query_exchange_refunds db in
  st <- for_each refunds ([], Decimal_0) (adjustment_refund_step db) ;;
  let (customer_refunds, total_paid) := st in
  total <- CashFlowService.format_decimal (inl total_paid) ;;
  Ok (CustomerAdjustmentRefunds.mk customer_refunds total
        (len customer_refunds)).

Definition get_customer_refunds (db : Database)
  : response CustomerAdjustmentRefunds.t :=
  respond (customer_refunds_body db).

Section Notes.

Variable json_loads : text -> option json.
Variable Decimal_from_sequence : list json -> result Decimal.

Definition get_supplier_payments (db : Database)
  : response SupplierPayments.t :=
  respond
    (CashFlowService.get_supplier_payments json_loads Decimal_from_sequence db).

Definition get_supplier_receipts (db : Database)
  : response SupplierReceipts.t :=
  respond (CashFlowService.get_supplier_receipts db).

Definition get_cashflow_summary (db : Database) : response Summary.t :=
  respond
    (CashFlowService.get_cashflow_summary json_loads Decimal_from_sequence db).

Definition get_detailed_cashflow (db : Database) : response Detailed.t :=
  respond
    (customer_payments <- CashFlowService.get_customer_payments db ;;
     customer_refunds <- CashFlowService.get_customer_refunds db ;;
     supplier_payments <-
       CashFlowService.get_supplier_payments json_loads Decimal_from_sequence
         db ;;
     supplier_receipts <- CashFlowService.get_supplier_receipts db ;;
     Ok (Detailed.mk customer_payments customer_refunds supplier_payments
           supplier_receipts)).

End Notes.

End cashflow_routes.

(* ================================================================== *)
(** ** Vocabulary of the statements *)

(** A character that neither [strip] nor the removal of underscores
    touches. *)
Definition clean (c : ascii) : bool :=
  negb (is_space c) && negb (Ascii.eqb c "_").

(** A text at which a run of digits ends. *)
Definition starts_nondigit (s : text) : Prop :=
  match s with
  | [] => True
  | c :: _ => is_digit c = false
  end.

(** The pieces of a laid-out number: an optional fraction and an optional
    exponent, as text and as what they denote. *)
Definition frac_text (f : option text) : text :=
  match f with Some f => "."%char :: f | None => [] end.

Definition frac_digits (f : option text) : text :=
  match f with Some f => f | None => [] end.

Definition exp_text (e : option Z) : text :=
  match e with Some z => "E"%char :: fmt_plus_d z | None => [] end.

Definition exp_val (e : option Z) : Z :=
  match e with Some z => z | None => 0 end.

(** The quantity a formatted text stands for. *)
Definition quantize (d : Decimal) : Decimal :=
  match d with
  | Finite f => Finite (_rescale f (-2))
  | _ => d
  end.

(** Descending order on a sort key: each row is no earlier than the next. *)
Definition desc {A : Type} (key : A -> datetime) (a b : A) : Prop :=
  datetime_leb (key b) (key a) = true.

(** The running total of a loop: [total = start; for a in l: total += a]. *)
Definition Decimal_sum (start : Decimal) (l : list Decimal) : result Decimal :=
  for_each l start Decimal_add.

(** The amount a selected row contributes, and the item it yields. *)
Definition payment_amount (pc : Payment.row * Customer.row) : Decimal :=
  Decimal_or_0 (Payment.amount_paid (fst pc)).

Definition adjustment_amount (x : ProductReturn.row * Customer.row * Product.row)
  : Decimal :=
  Decimal_or_0 (ProductReturn.exchange_price_difference (return_of x)).

Definition refund_amount_of (x : ProductReturn.row * Customer.row * Product.row)
  : Decimal :=
  Decimal_or_0 (ProductReturn.refund_amount (return_of x)).

Definition receipt_amount (rs : SupplierReturn.row * Supplier.row) : Decimal :=
  Decimal_or_0 (SupplierReturn.refund_amount (fst rs)).

Definition regular_item_of (pc : Payment.row * Customer.row) : PaymentItem.item :=
  regular_payment_item (fst pc) (snd pc) (format_2f (payment_amount pc)).

Definition adjustment_item_of (db : Database)
  (x : ProductReturn.row * Customer.row * Product.row) : PaymentItem.item :=
  adjustment_payment_item db (return_of x) (snd (fst x)) (snd x)
    (format_2f (adjustment_amount x)).

Definition refund_item_of (db : Database)
  (x : ProductReturn.row * Customer.row * Product.row) : RefundItem.item :=
  refund_item db (return_of x) (snd (fst x)) (snd x)
    (format_2f (refund_amount_of x)).

Definition receipt_item_of (db : Database)
  (rs : SupplierReturn.row * Supplier.row) : ReceiptItem.item :=
  receipt_item db (fst rs) (snd rs) (receipt_amount rs).

(** The rational number a finite decimal denotes. *)
Definition signed (f : finite) : Z :=
  if d_sign f then - Z.of_N (d_int f) else Z.of_N (d_int f).

Definition value (f : finite) : Q :=
  (inject_Z (signed f) * (10 # 1) ^ d_exp f)%Q.

Definition sum_values (l : list finite) : Q :=
  fold_right (fun f acc => (value f + acc)%Q) 0%Q l.

(** A finite decimal the context can hold as it is: at most [prec] digits
    and an exponent inside the range. *)
Definition representable (f : finite) : Prop :=
  ndigits (d_int f) <= prec
  /\ Etiny <= d_exp f
  /\ d_exp f + ndigits (d_int f) - 1 <= Emax.

(** The sum of two finite decimals before the context rounds it. *)
Definition exact_add (a b : finite) : finite :=
  let exp := Z.min (d_exp a) (d_exp b) in
  let ia := (d_int a * pow10 (d_exp a - exp))%N in
  let ib := (d_int b * pow10 (d_exp b - exp))%N in
  if Bool.eqb (d_sign a) (d_sign b) then mkfinite (d_sign a) (ia + ib)%N exp
  else if (ia =? ib)%N then mkfinite false 0 exp
  else if (ib <? ia)%N then mkfinite (d_sign a) (ia - ib)%N exp
  else mkfinite (d_sign b) (ib - ia)%N exp.

Definition negate (f : finite) : finite :=
  mkfinite (negb (d_sign f)) (d_int f) (d_exp f).

Definition finite_0 : finite := mkfinite false 0 0.

Definition exact_sum (start : finite) (l : list finite) : finite :=
  fold_left exact_add l start.

(** [x or 0] on a NUMERIC column, as a finite decimal. *)
Definition finite_or_0 (x : option finite) : finite :=
  match x with
  | Some f => if is_zero f then finite_0 else f
  | None => finite_0
  end.

(** Non-negative, as every amount that passes a [> 0] filter is. *)
Definition nonnegative (f : finite) : Prop := d_sign f = false.

(** Every partial sum of the run fits the context. *)
Fixpoint exact_run (start : finite) (l : list finite) : Prop :=
  match l with
  | [] => True
  | x :: r => representable (exact_add start x) /\ exact_run (exact_add start x) r
  end.

(** The customer and product a return row points to are present, so the two
    inner joins keep the row. *)
Definition links_resolve (db : Database) (row : ProductReturn.row) : bool :=
  existsb (fun c => ProductReturn.customer_id row =? Customer.id c) (customers db)
  && existsb (fun p => ProductReturn.product_id row =? Product.id p) (products db).

(** No two entries of a list of keys are equal. *)
Fixpoint unique_ids (ids : list Z) : bool :=
  match ids with
  | [] => true
  | k :: r => negb (existsb (Z.eqb k) r) && unique_ids r
  end.

Definition refund_statuses : list text :=
  [txt "Pending"; txt "Processed"; txt "Completed"].

(** A list of payment items is in descending date order when its dates are
    the renderings of timestamps that are. *)
Definition ordered_desc (items : list PaymentItem.item) : Prop :=
  exists dates,
    map PaymentItem.payment_date items = map isoformat dates
    /\ Sorted (fun a b => datetime_leb b a = true) dates.

(** The amounts behind the items of [get_customer_payments], in the order of
    the items: [amount_paid] of each selected payment, then
    [exchange_price_difference] of each selected adjustment. *)
Definition customer_payment_amounts (db : Database) : list finite :=
  map (fun pc => finite_or_0 (Payment.amount_paid (fst pc))) (query_payments db)
  ++ map (fun x =>
            finite_or_0 (ProductReturn.exchange_price_difference (return_of x)))
       (query_adjustments db).

(** The amounts behind the items of [get_customer_refunds]. *)
Definition customer_refund_amounts (db : Database) : list finite :=
  map (fun x => finite_or_0 (ProductReturn.refund_amount (return_of x)))
    (query_refunds db).

(** A note that [json.loads] accepts but whose content has the wrong type
    for the loop: the document is not an object, or its payment_amount is a
    string that is not a number, or its payment_amount is null. *)
Definition wrong_typed (json_loads : text -> option json) (s : text) : Prop :=
  (exists v, json_loads s = Some v
             /\ match v with JDict _ => False | _ => True end)
  \/ (exists kv a,
        json_loads s = Some (JDict kv)
        /\ dict_get kv (txt "payment_amount") (JStr (txt "0")) = JStr a
        /\ Decimal_of_text a = Raise InvalidOperation)
  \/ (exists kv,
        json_loads s = Some (JDict kv)
        /\ dict_get kv (txt "payment_amount") (JStr (txt "0")) = JNull).

(** A column of rendered timestamps runs from the latest to the earliest. *)
Definition dates_descend (dates : list text) : Prop :=
  exists ds,
    dates = map isoformat ds
    /\ Sorted (fun a b => datetime_leb b a = true) ds.

(** The text every adjustment refund carries as its reason. *)
Definition adjustment_reason : text :=
  txt "Adjustment - We pay customer extra amount for product exchange".

Section Note_vocabulary.

Variable json_loads : text -> option json.
Variable Decimal_from_sequence : list json -> result Decimal.

(** The [payment_amount] the loop of [get_supplier_payments] holds after
    reading a note, when reading it does not raise. *)
Definition note_amount (notes : option text) : option Decimal :=
  match extract_payment_info json_loads Decimal_from_sequence notes with
  | Ok (payment_amount, _, _, _, _) => Some payment_amount
  | Raise _ => None
  end.

(** The test [payment_amount > 0] passes for the note. *)
Definition carries_payment (notes : option text) : bool :=
  match note_amount notes with
  | Some payment_amount =>
      match Decimal_gt0 payment_amount with
      | Ok positive => positive
      | Raise _ => false
      end
  | None => false
  end.

(** The [product_names] of an item: the names stored in the note, or the
    name of the single product of the transaction. *)
Definition product_names (db : Database) (transaction : StockTransaction.row)
  (products_info : json) : result (list json) :=
  if truthy products_info then product_names_of products_info
  else
    match query_get Product.id (products db)
            (StockTransaction.product_id transaction) with
    | Some product => Ok [JStr (Product.product_name product)]
    | None => Ok []
    end.

(** The joined row is one the loop lists. *)
Definition paying (ts : StockTransaction.row * Supplier.row) : bool :=
  carries_payment (StockTransaction.notes (fst ts)).

(** The amount a purchase adds to the total when it is listed. *)
Definition purchase_amount (ts : StockTransaction.row * Supplier.row)
  : Decimal :=
  match note_amount (StockTransaction.notes (fst ts)) with
  | Some payment_amount => payment_amount
  | None => Decimal_0
  end.

(** [item] is the dict appended for the purchase [ts]. *)
Definition purchase_item (db : Database)
  (ts : StockTransaction.row * Supplier.row)
  (item : SupplierPaymentItem.item) : Prop :=
  exists payment_amount payment_method payment_status transaction_reference
         products_info names,
    extract_payment_info json_loads Decimal_from_sequence
      (StockTransaction.notes (fst ts))
    = Ok (payment_amount, payment_method, payment_status,
          transaction_reference, products_info)
    /\ product_names db (fst ts) products_info = Ok names
    /\ item = supplier_payment_item (fst ts) (snd ts) names payment_amount
                payment_method payment_status transaction_reference.

(** A note that is a JSON object whose payment_amount converts to a NaN. *)
Definition nan_amount (s : text) : Prop :=
  exists kv sign signaling diag,
    json_loads s = Some (JDict kv)
    /\ Decimal_new Decimal_from_sequence
         (dict_get kv (txt "payment_amount") (JStr (txt "0")))
       = Ok (NaN sign signaling diag).

Definition is_object (v : json) : Prop :=
  match v with JDict _ => True | _ => False end.

(** A note that is a JSON object with a positive payment_amount whose
    "products" entry is truthy but not a list of objects. *)
Definition malformed_products (s : text) : Prop :=
  exists kv amount,
    json_loads s = Some (JDict kv)
    /\ Decimal_new Decimal_from_sequence
         (dict_get kv (txt "payment_amount") (JStr (txt "0")))
       = Ok amount
    /\ Decimal_gt0 amount = Ok true
    /\ truthy (dict_get kv (txt "products") (JList [])) = true
    /\ match dict_get kv (txt "products") (JList []) with
       | JList l => Exists (fun p => ~ is_object p) l
       | _ => True
       end.

End Note_vocabulary.

(** A decimal that a sum of amounts accepted by [> 0] can be: a finite
    number or the positive infinity. *)
Definition finite_or_plus_infinity (d : Decimal) : Prop :=
  match d with
  | Finite _ => True
  | Infinity sign => sign = false
  | NaN _ _ _ => False
  end.

(** The store with the supplier-returns table replaced. *)
Definition with_supplier_returns (db : Database)
  (table : option (list SupplierReturn.row)) : Database :=
  mkDatabase (customers db) (suppliers db) (products db) (payments db)
    (product_returns db) (damaged_products db) (stock_transactions db) table.

(** The summary of a store in which no money moved. *)
Definition summary_of_nothing : Summary.t :=
  Summary.mk
    (Summary.mk_inflow (txt "0.00") (txt "0.00") (txt "0.00"))
    (Summary.mk_outflow (txt "0.00") (txt "0.00") (txt "0.00"))
    (txt "0.00")
    (Summary.mk_breakdown
       (Summary.mk_customer
          (Summary.mk_entry (txt "0.00") 0 [])
          (Summary.mk_entry (txt "0.00") 0 []))
       (Summary.mk_supplier
          (Summary.mk_entry (txt "0.00") 0 [])
          (Summary.mk_entry (txt "0.00") 0 [])))
    (Summary.mk_summary 0 0 (txt "Neutral")).

(** The prefixes of the exceptions the service builds. *)
Definition summary_error : text := txt "Error generating cash flow summary".
Definition customer_payments_error : text :=
  txt "Error fetching customer payments".
Definition customer_refunds_error : text :=
  txt "Error fetching customer refunds".
Definition supplier_payments_error : text :=
  txt "Error fetching supplier payments".

(** The item the view [get_customer_refunds] builds for a selected row. *)
Definition adjustment_refund_item_of (db : Database)
  (x : ProductReturn.row * Customer.row * Product.row)
  : AdjustmentRefundItem.item :=
  cashflow_routes.adjustment_refund_item db (return_of x) (snd (fst x))
    (snd x) (format_2f (refund_amount_of x)).

(** The amounts behind the items of the view [get_customer_refunds]. *)
Definition adjustment_refund_amounts (db : Database) : list finite :=
  map (fun x => finite_or_0 (ProductReturn.refund_amount (return_of x)))
    (cashflow_routes.query_exchange_refunds db).

(** [a] starts with [p]. *)
Definition starts_with (p a : text) : Prop := exists rest, a = p ++ rest.

(** The text reads as a finite decimal that denotes the number [q]. *)
Definition reads_as (s : text) (q : Q) : Prop :=
  exists f, Decimal_of_text s = Ok (Finite f) /\ (value f == q)%Q.

(** The sum of the two inflows less the sum of the two outflows, before the
    context rounds any of the three operations. *)
Definition exact_net (x_cp x_sr x_cr x_sp : finite) : finite :=
  exact_add (exact_add x_cp x_sr) (negate (exact_add x_cr x_sp)).

(* ================================================================== *)
(** ** Example stores *)

(** An amount with two places, given in hundredths. *)
Definition money (hundredths : N) : finite := mkfinite false hundredths (-2).

Definition at_noon (y m d : N) : datetime := mkdatetime y m d 12 0 0 0.

Definition asha : Customer.row :=
  Customer.mk 1 (txt "Asha") (txt "Asha Traders").

Definition ravi : Customer.row :=
  Customer.mk 2 (txt "Ravi") (txt "Ravi Stores").

Definition widget : Product.row := Product.mk 10 (txt "Widget").
Definition gadget : Product.row := Product.mk 11 (txt "Gadget").

Definition kumar : Supplier.row :=
  Supplier.mk 7 (txt "Kumar") (txt "Kumar Wholesale").

(** An exchange on which the customer owes 5.00; the return itself was
    cancelled. *)
Definition exchange_customer_pays : ProductReturn.row :=
  ProductReturn.mk 50 (txt "RET-50") 1 10 (Some 900) (txt "exchange")
    (Some (money 0)) (Some (money 500)) (txt "Cancelled")
    (txt "wrong size") 1 (Some 11) (at_noon 2024 3 3).

(** An exchange on which 5.00 is owed to the customer. *)
Definition exchange_we_pay : ProductReturn.row :=
  ProductReturn.mk 51 (txt "RET-51") 2 11 (Some 901) (txt "exchange")
    (Some (money 500)) (Some (money 0)) (txt "Completed")
    (txt "downgrade") 1 (Some 10) (at_noon 2024 3 4).

Definition plain_return : ProductReturn.row :=
  ProductReturn.mk 52 (txt "RET-52") 1 10 (Some 902) (txt "return")
    (Some (money 1200)) None (txt "Pending")
    (txt "defective") 2 None (at_noon 2024 3 6).

(** An exchange with a refund of 7.00 whose status is Cancelled. *)
Definition cancelled_exchange : ProductReturn.row :=
  ProductReturn.mk 53 (txt "RET-53") 2 10 (Some 903) (txt "exchange")
    (Some (money 700)) (Some (money 0)) (txt "Cancelled")
    (txt "changed mind") 1 (Some 11) (at_noon 2024 3 7).

Definition payment_march : Payment.row :=
  Payment.mk 100 (Some 900) 1 (Some (money 12050)) (txt "cash")
    (txt "Successful") (at_noon 2024 3 1) (txt "TX-100").

Definition payment_partial : Payment.row :=
  Payment.mk 101 (Some 904) 2 (Some (money 3000)) (txt "card")
    (txt "Partially Paid") (at_noon 2024 3 5) (txt "TX-101").

Definition payment_failed : Payment.row :=
  Payment.mk 102 (Some 905) 2 (Some (money 9900)) (txt "card")
    (txt "Failed") (at_noon 2024 3 8) (txt "TX-102").

Definition dquote : ascii := ascii_of_nat 34.

Definition quoted (s : string) : text := [dquote] ++ txt s ++ [dquote].

(** A note recording a payment of 40.00, a note whose amount is not a
    number, a note that is a list, and a note that is not JSON at all. *)
Definition note_paid : text :=
  txt "{" ++ quoted "payment_amount" ++ txt ": " ++ quoted "40.00" ++ txt ", "
  ++ quoted "payment_method" ++ txt ": " ++ quoted "bank" ++ txt "}".

Definition note_bad_amount : text :=
  txt "{" ++ quoted "payment_amount" ++ txt ": " ++ quoted "abc" ++ txt "}".

Definition note_list : text := txt "[]".

Definition note_garbage : text := txt "paid in cash".

(** What [json.loads] returns for the notes above; every other text used in
    the examples is not valid JSON. *)
Definition json_loads_examples (s : text) : option json :=
  if text_eqb s note_paid then
    Some (JDict [(txt "payment_amount", JStr (txt "40.00"));
                 (txt "payment_method", JStr (txt "bank"))])
  else if text_eqb s note_bad_amount then
    Some (JDict [(txt "payment_amount", JStr (txt "abc"))])
  else if text_eqb s note_list then Some (JList [])
  else None.

(** No example note carries a list as amount, so the sequence form of the
    constructor is never reached; it is bound to its usual failure. *)
Definition from_sequence_examples (l : list json) : result Decimal :=
  Raise ValueError.

Definition purchase_paid : StockTransaction.row :=
  StockTransaction.mk 200 (txt "Purchase") 7 (Some 10) 20
    (at_noon 2024 2 10) (txt "PO-200") (Some note_paid).

Definition purchase_garbage_note : StockTransaction.row :=
  StockTransaction.mk 201 (txt "Purchase") 7 (Some 11) 5
    (at_noon 2024 2 11) (txt "PO-201") (Some note_garbage).

Definition purchase_bad_amount : StockTransaction.row :=
  StockTransaction.mk 202 (txt "Purchase") 7 (Some 11) 5
    (at_noon 2024 2 12) (txt "PO-202") (Some note_bad_amount).

Definition supplier_refund : SupplierReturn.row :=
  SupplierReturn.mk 70 (txt "SR-70") 7 (Some 5) (Some (money 1500))
    (txt "refund") (txt "Completed") 3 (at_noon 2024 2 20).

(** A store with rows of every kind and well-formed notes. *)
Definition db_shop : Database :=
  mkDatabase [asha; ravi] [kumar] [widget; gadget]
    [payment_march; payment_partial; payment_failed]
    [exchange_customer_pays; exchange_we_pay; plain_return; cancelled_exchange]
    [DamagedProduct.mk 5 (Some 10)]
    [purchase_paid; purchase_garbage_note]
    (Some [supplier_refund]).

(** The same store without the supplier-returns feature. *)
Definition db_no_supplier_returns : Database :=
  mkDatabase [asha; ravi] [kumar] [widget; gadget]
    [payment_march; payment_partial; payment_failed]
    [exchange_customer_pays; exchange_we_pay; plain_return; cancelled_exchange]
    [DamagedProduct.mk 5 (Some 10)]
    [purchase_paid; purchase_garbage_note]
    None.

(** A store whose only return is the cancelled exchange with a refund. *)
Definition db_cancelled_exchange : Database :=
  mkDatabase [asha; ravi] [] [widget; gadget] [] [cancelled_exchange] [] []
    (Some []).

(** A payment of 1 March followed by an adjustment of 3 March. *)
Definition db_late_adjustment : Database :=
  mkDatabase [asha] [] [widget; gadget] [payment_march]
    [exchange_customer_pays] [] [] (Some []).

(** A payment of 0.125, three places. *)
Definition payment_three_places : Payment.row :=
  Payment.mk 103 (Some 906) 1 (Some (mkfinite false 125 (-3))) (txt "cash")
    (txt "Successful") (at_noon 2024 3 9) (txt "TX-103").

(** A purchase whose note carries an amount that is not a number. *)
Definition db_bad_note : Database :=
  mkDatabase [] [kumar] [widget; gadget] [] [] []
    [purchase_paid; purchase_bad_amount] (Some []).

(** What [get_customer_payments] returns on [db_shop]. *)
Definition shop_customer_payments : CustomerPayments.t :=
  CustomerPayments.mk
    [regular_item_of (payment_partial, ravi);
     regular_item_of (payment_march, asha);
     adjustment_item_of db_shop (exchange_customer_pays, asha, widget)]
    (txt "155.50") 3.

(** What [get_customer_refunds] returns on [db_shop]. *)
Definition shop_customer_refunds : CustomerRefunds.t :=
  CustomerRefunds.mk
    [refund_item_of db_shop (plain_return, asha, widget);
     refund_item_of db_shop (exchange_we_pay, ravi, gadget)]
    (txt "17.00") 2.

(** A payment of 0.125 and a supplier refund of 0.005. *)
Definition supplier_refund_three_places : SupplierReturn.row :=
  SupplierReturn.mk 71 (txt "SR-71") 7 None (Some (mkfinite false 5 (-3)))
    (txt "refund") (txt "Completed") 1 (at_noon 2024 2 21).

Definition db_three_places_both : Database :=
  mkDatabase [asha] [kumar] [] [payment_three_places] [] [] []
    (Some [supplier_refund_three_places]).

(** A note whose amount is the text NaN, and a note with an amount of 40.00
    whose products are given as bare names. *)
Definition note_nan : text :=
  txt "{" ++ quoted "payment_amount" ++ txt ": " ++ quoted "NaN" ++ txt "}".

Definition note_bare_products : text :=
  txt "{" ++ quoted "payment_amount" ++ txt ": " ++ quoted "40.00" ++ txt ", "
  ++ quoted "products" ++ txt ": [" ++ quoted "Widget" ++ txt "]}".

(** What [json.loads] returns for these two notes and for the earlier
    ones. *)
Definition json_loads_more (s : text) : option json :=
  if text_eqb s note_nan then
    Some (JDict [(txt "payment_amount", JStr (txt "NaN"))])
  else if text_eqb s note_bare_products then
    Some (JDict [(txt "payment_amount", JStr (txt "40.00"));
                 (txt "products", JList [JStr (txt "Widget")])])
  else json_loads_examples s.

Definition purchase_nan : StockTransaction.row :=
  StockTransaction.mk 203 (txt "Purchase") 7 (Some 10) 4
    (at_noon 2024 2 13) (txt "PO-203") (Some note_nan).

Definition purchase_bare_products : StockTransaction.row :=
  StockTransaction.mk 204 (txt "Purchase") 7 (Some 10) 4
    (at_noon 2024 2 14) (txt "PO-204") (Some note_bare_products).

Definition db_nan_note : Database :=
  mkDatabase [] [kumar] [widget; gadget] [] [] []
    [purchase_paid; purchase_nan] (Some []).

Definition db_bare_products : Database :=
  mkDatabase [] [kumar] [widget; gadget] [] [] []
    [purchase_paid; purchase_bare_products] (Some []).

(** A store with a customer, a supplier and a product, and no movement. *)
Definition db_quiet : Database :=
  mkDatabase [asha] [kumar] [widget] [] [] [] [] (Some []).

(** A note whose amount is the text Infinity. *)
Definition note_infinity : text :=
  txt "{" ++ quoted "payment_amount" ++ txt ": " ++ quoted "Infinity"
  ++ txt "}".

Definition json_loads_infinity (s : text) : option json :=
  if text_eqb s note_infinity then
    Some (JDict [(txt "payment_amount", JStr (txt "Infinity"))])
  else json_loads_examples s.

Definition purchase_infinity : StockTransaction.row :=
  StockTransaction.mk 205 (txt "Purchase") 7 (Some 10) 4
    (at_noon 2024 2 15) (txt "PO-205") (Some note_infinity).

Definition db_infinity_note : Database :=
  mkDatabase [asha] [kumar] [widget; gadget] [payment_march] [] []
    [purchase_paid; purchase_infinity] (Some []).

(** A payment of 0.01, a supplier refund of 0.006, and notes recording
    payments of 0.011 and of 0.012. *)
Definition payment_one_cent : Payment.row :=
  Payment.mk 104 (Some 907) 1 (Some (money 1)) (txt "cash")
    (txt "Successful") (at_noon 2024 3 10) (txt "TX-104").

Definition supplier_refund_six_thousandths : SupplierReturn.row :=
  SupplierReturn.mk 72 (txt "SR-72") 7 None (Some (mkfinite false 6 (-3)))
    (txt "refund") (txt "Completed") 1 (at_noon 2024 2 22).

Definition note_eleven_thousandths : text :=
  txt "{" ++ quoted "payment_amount" ++ txt ": " ++ quoted "0.011" ++ txt "}".

Definition note_twelve_thousandths : text :=
  txt "{" ++ quoted "payment_amount" ++ txt ": " ++ quoted "0.012" ++ txt "}".

Definition json_loads_thousandths (s : text) : option json :=
  if text_eqb s note_eleven_thousandths then
    Some (JDict [(txt "payment_amount", JStr (txt "0.011"))])
  else if text_eqb s note_twelve_thousandths then
    Some (JDict [(txt "payment_amount", JStr (txt "0.012"))])
  else json_loads_examples s.

Definition purchase_eleven_thousandths : StockTransaction.row :=
  StockTransaction.mk 206 (txt "Purchase") 7 (Some 10) 1
    (at_noon 2024 2 16) (txt "PO-206") (Some note_eleven_thousandths).

Definition purchase_twelve_thousandths : StockTransaction.row :=
  StockTransaction.mk 207 (txt "Purchase") 7 (Some 10) 1
    (at_noon 2024 2 17) (txt "PO-207") (Some note_twelve_thousandths).

(** 0.01 came in and 0.011 went out. *)
Definition db_net_below_a_cent : Database :=
  mkDatabase [asha] [kumar] [widget] [payment_one_cent] [] []
    [purchase_eleven_thousandths] (Some []).

(** 0.01 and 0.006 came in and 0.012 went out. *)
Definition db_net_rounds_to_zero : Database :=
  mkDatabase [asha] [kumar] [widget] [payment_one_cent] [] []
    [purchase_twelve_thousandths] (Some [supplier_refund_six_thousandths]).

(* ================================================================== *)
(** ** Digit strings *)

Lemma digit_char_is_digit d : (d < 10)%N -> is_digit (digit_char d) = true.
Proof.
  intros H. unfold is_digit, digit_char.
  rewrite N_ascii_embedding by lia.
  apply andb_true_intro; split; apply N.leb_le; lia.
Qed.

Lemma digit_val_char d : (d < 10)%N -> digit_val (digit_char d) = d.
Proof.
  intros H. unfold digit_val, digit_char.
  rewrite N_ascii_embedding by lia. lia.
Qed.

Lemma log2_div10_lt n : (10 <= n)%N -> (N.log2 (n / 10) < N.log2 n)%N.
Proof.
  intros H.
  assert (Hq : (0 < n / 10)%N).
  { apply N.div_str_pos. lia. }
  apply N.log2_lt_pow2; [exact Hq|].
  destruct (N.log2_spec n) as [Hlo _]; [lia|].
  assert (n / 10 < n)%N by (apply N.div_lt; lia).
  assert (Hd : (10 * (n / 10) <= n)%N) by (apply N.Div0.mul_div_le).
  enough (2 * (n / 10) < 2 * 2 ^ N.log2 n)%N by lia.
  rewrite <- N.pow_succ_r'.
  destruct (N.log2_spec n) as [_ Hhi]; [lia|]. lia.
Qed.

Lemma str_N_fuel_enough f1 : forall f2 n,
  (N.to_nat (N.log2 n) < f1)%nat -> (N.to_nat (N.log2 n) < f2)%nat ->
  str_N_fuel f1 n = str_N_fuel f2 n.
Proof.
  induction f1 as [|f1 IH]; intros f2 n H1 H2; [lia|].
  destruct f2 as [|f2]; [lia|].
  simpl. destruct (N.ltb_spec n 10) as [Hlt|Hge]; [reflexivity|].
  pose proof (log2_div10_lt Hge) as Hl.
  f_equal. apply IH; lia.
Qed.

Lemma str_N_unfold n :
  str_N n =
  if (n <? 10)%N then [digit_char n]
  else str_N (n / 10) ++ [digit_char (n mod 10)].
Proof.
  unfold str_N at 1. cbn [str_N_fuel].
  destruct (N.ltb_spec n 10) as [Hlt|Hge]; [reflexivity|].
  pose proof (log2_div10_lt Hge) as Hl.
  f_equal. unfold str_N. apply str_N_fuel_enough; lia.
Qed.

Lemma str_N_small n : (n < 10)%N -> str_N n = [digit_char n].
Proof.
  intros H. rewrite str_N_unfold.
  destruct (N.ltb_spec n 10); [reflexivity|lia].
Qed.

Lemma str_N_big n :
  (10 <= n)%N -> str_N n = str_N (n / 10) ++ [digit_char (n mod 10)].
Proof.
  intros H. rewrite str_N_unfold.
  destruct (N.ltb_spec n 10); [lia|reflexivity].
Qed.

(** Induction on the decimal digits of a number. *)
Lemma digits_ind (P : N -> Prop) :
  (forall n, (n < 10)%N -> P n) ->
  (forall n, (10 <= n)%N -> P (n / 10)%N -> P n) ->
  forall n, P n.
Proof.
  intros Hsmall Hbig n.
  induction n as [n IH] using (well_founded_induction N.lt_wf_0).
  destruct (N.ltb_spec n 10) as [Hlt|Hge]; [auto|].
  apply Hbig; [exact Hge|]. apply IH. apply N.div_lt; lia.
Qed.

Lemma str_N_nonempty n : str_N n <> [].
Proof.
  rewrite str_N_unfold. destruct (n <? 10)%N; [discriminate|].
  intros H. apply app_eq_nil in H. destruct H; discriminate.
Qed.

Lemma all_digits_app a b : all_digits (a ++ b) = all_digits a && all_digits b.
Proof. unfold all_digits. apply forallb_app. Qed.

Lemma str_N_all_digits n : all_digits (str_N n) = true.
Proof.
  induction n as [n H|n H IH] using digits_ind.
  - rewrite str_N_small by exact H. simpl.
    rewrite digit_char_is_digit by exact H. reflexivity.
  - rewrite str_N_big by exact H. rewrite all_digits_app, IH. simpl.
    rewrite digit_char_is_digit; [reflexivity|].
    apply N.mod_lt. lia.
Qed.

Lemma int_of_digits_snoc s c :
  int_of_digits (s ++ [c]) = (10 * int_of_digits s + digit_val c)%N.
Proof. unfold int_of_digits. rewrite fold_left_app. reflexivity. Qed.

Lemma int_of_digits_str_N n : int_of_digits (str_N n) = n.
Proof.
  induction n as [n H|n H IH] using digits_ind.
  - rewrite str_N_small by exact H. unfold int_of_digits. simpl.
    rewrite digit_val_char by exact H. lia.
  - rewrite str_N_big by exact H. rewrite int_of_digits_snoc, IH.
    rewrite digit_val_char by (apply N.mod_lt; lia).
    symmetry. apply N.div_mod. lia.
Qed.

Lemma len_app (A : Type) (a b : list A) : len (a ++ b) = len a + len b.
Proof. unfold len. rewrite length_app. lia. Qed.

Lemma len_nonneg (A : Type) (a : list A) : 0 <= len a.
Proof. unfold len. lia. Qed.

Lemma pow10_pos k : (0 < pow10 k)%N.
Proof. unfold pow10. apply N.neq_0_lt_0. apply N.pow_nonzero. lia. Qed.

Lemma pow10_add a b : 0 <= a -> 0 <= b -> pow10 (a + b) = (pow10 a * pow10 b)%N.
Proof.
  intros Ha Hb. unfold pow10. rewrite Z2N.inj_add by assumption.
  apply N.pow_add_r.
Qed.

Lemma pow10_succ k : 0 <= k -> pow10 (k + 1) = (10 * pow10 k)%N.
Proof.
  intros Hk. rewrite pow10_add by lia. change (pow10 1) with 10%N. lia.
Qed.

Lemma pow10_0 : pow10 0 = 1%N.
Proof. reflexivity. Qed.

Lemma int_of_digits_app a b :
  int_of_digits (a ++ b) = (int_of_digits a * pow10 (len b) + int_of_digits b)%N.
Proof.
  induction b as [|c b IH] using rev_ind.
  - rewrite app_nil_r. change (len (@nil ascii)) with 0. rewrite pow10_0. 
    change (int_of_digits []) with 0%N. lia.
  - rewrite app_assoc. rewrite !int_of_digits_snoc. rewrite IH.
    rewrite len_app. change (len [c]) with 1.
    rewrite pow10_succ by apply len_nonneg. lia.
Qed.

Lemma int_of_digits_zeros k : int_of_digits (zeros k) = 0%N.
Proof.
  unfold zeros. induction (Z.to_nat k) as [|m IH]; [reflexivity|].
  change (repeat "0"%char (S m)) with ([ "0"%char ] ++ repeat "0"%char m).
  rewrite int_of_digits_app, IH. reflexivity.
Qed.

Lemma all_digits_zeros k : all_digits (zeros k) = true.
Proof.
  unfold zeros. induction (Z.to_nat k) as [|m IH]; [reflexivity|].
  simpl. exact IH.
Qed.

Lemma len_zeros k : 0 <= k -> len (zeros k) = k.
Proof. intros H. unfold len, zeros. rewrite repeat_length. lia. Qed.

(** The number of digits brackets the number between two powers of ten. *)
Lemma ndigits_pos n : 1 <= ndigits n.
Proof.
  unfold ndigits, len. pose proof (@str_N_nonempty n).
  destruct (str_N n); [congruence|]. simpl. lia.
Qed.

Lemma ndigits_small n : (n < 10)%N -> ndigits n = 1.
Proof. intros H. unfold ndigits. rewrite str_N_small by exact H. reflexivity. Qed.

Lemma ndigits_big n : (10 <= n)%N -> ndigits n = ndigits (n / 10) + 1.
Proof.
  intros H. unfold ndigits. rewrite str_N_big by exact H.
  rewrite len_app. reflexivity.
Qed.

Lemma ndigits_upper n : (n < pow10 (ndigits n))%N.
Proof.
  induction n as [n H|n H IH] using digits_ind.
  - rewrite ndigits_small by exact H. exact H.
  - rewrite ndigits_big by exact H.
    rewrite pow10_succ by (pose proof (ndigits_pos (n / 10)); lia).
    pose proof (N.div_mod n 10 ltac:(lia)) as Hdm.
    pose proof (N.mod_lt n 10 ltac:(lia)). lia.
Qed.

Lemma ndigits_lower n : (n <> 0)%N -> (pow10 (ndigits n - 1) <= n)%N.
Proof.
  induction n as [n H|n H IH] using digits_ind; intros Hn.
  - rewrite ndigits_small by exact H. change (pow10 (1 - 1)) with 1%N. lia.
  - rewrite ndigits_big by exact H.
    replace (ndigits (n / 10) + 1 - 1) with (ndigits (n / 10) - 1 + 1) by lia.
    rewrite pow10_succ by (pose proof (ndigits_pos (n / 10)); lia).
    assert (Hq : (n / 10 <> 0)%N).
    { intros E. apply N.div_small_iff in E; lia. }
    specialize (IH Hq).
    pose proof (N.Div0.mul_div_le n 10). lia.
Qed.

Lemma pow10_le_mono a b : a <= b -> (pow10 a <= pow10 b)%N.
Proof.
  intros H. unfold pow10. apply N.pow_le_mono_r; [lia|]. lia.
Qed.

(** *** Characters that stripping and underscore removal leave alone *)

Lemma is_digit_clean c : is_digit c = true -> clean c = true.
Proof.
  destruct c as [[] [] [] [] [] [] [] []]; vm_compute; congruence.
Qed.

Lemma lstrip_clean s : forallb clean s = true -> lstrip s = s.
Proof.
  destruct s as [|c r]; [reflexivity|]. simpl. intros H.
  apply andb_true_iff in H. destruct H as [H _].
  unfold clean in H. apply andb_true_iff in H. destruct H as [H _].
  apply negb_true_iff in H. rewrite H. reflexivity.
Qed.

Lemma forallb_rev (A : Type) (p : A -> bool) (l : list A) :
  forallb p (rev l) = forallb p l.
Proof.
  induction l as [|x l IH]; [reflexivity|].
  simpl. rewrite forallb_app, IH. simpl. rewrite andb_true_r. apply andb_comm.
Qed.

Lemma strip_clean s : forallb clean s = true -> strip s = s.
Proof.
  intros H. unfold strip. rewrite (lstrip_clean _ H).
  rewrite lstrip_clean by (rewrite forallb_rev; exact H).
  apply rev_involutive.
Qed.

Lemma remove_underscores_clean s :
  forallb clean s = true -> remove_underscores s = s.
Proof.
  induction s as [|c r IH]; [reflexivity|]. simpl. intros H.
  apply andb_true_iff in H. destruct H as [Hc Hr].
  unfold clean in Hc. apply andb_true_iff in Hc. destruct Hc as [_ Hc].
  rewrite Hc. f_equal. exact (IH Hr).
Qed.

Lemma all_digits_clean s : all_digits s = true -> forallb clean s = true.
Proof.
  induction s as [|c r IH]; [reflexivity|]. simpl. intros H.
  apply andb_true_iff in H. destruct H as [Hc Hr].
  rewrite (is_digit_clean _ Hc). exact (IH Hr).
Qed.

Lemma forallb_firstn (A : Type) (p : A -> bool) (l : list A) n :
  forallb p l = true -> forallb p (firstn n l) = true.
Proof.
  revert n. induction l as [|x l IH]; intros [|n] H; try reflexivity.
  simpl in *. apply andb_true_iff in H. destruct H as [Hx Hl].
  rewrite Hx. exact (IH n Hl).
Qed.

Lemma forallb_skipn (A : Type) (p : A -> bool) (l : list A) n :
  forallb p l = true -> forallb p (skipn n l) = true.
Proof.
  revert n. induction l as [|x l IH]; intros [|n] H; try reflexivity.
  - exact H.
  - simpl in *. apply andb_true_iff in H. destruct H as [_ Hl]. exact (IH n Hl).
Qed.

Lemma all_digits_take k s : all_digits s = true -> all_digits (take k s) = true.
Proof. apply forallb_firstn. Qed.

Lemma all_digits_drop k s : all_digits s = true -> all_digits (drop k s) = true.
Proof. apply forallb_skipn. Qed.

Lemma take_drop (A : Type) k (l : list A) : take k l ++ drop k l = l.
Proof. apply firstn_skipn. Qed.

Lemma len_drop (A : Type) k (l : list A) :
  0 <= k <= len l -> len (drop k l) = len l - k.
Proof. intros H. unfold len, drop in *. rewrite length_skipn. lia. Qed.

Lemma take_nonempty (A : Type) k (l : list A) :
  0 < k -> l <> [] -> take k l <> [].
Proof.
  intros Hk Hl. unfold take. destruct l as [|x l]; [congruence|].
  destruct (Z.to_nat k) eqn:E; [lia|]. discriminate.
Qed.

(** *** Reading back a laid-out number *)

Lemma span_digits ds rest :
  all_digits ds = true -> starts_nondigit rest ->
  span is_digit (ds ++ rest) = (ds, rest).
Proof.
  intros Hd Hr. induction ds as [|c ds IH].
  - simpl. destruct rest as [|c r]; [reflexivity|].
    simpl in *. rewrite Hr. reflexivity.
  - simpl in *. apply andb_true_iff in Hd. destruct Hd as [Hc Hd].
    rewrite Hc, (IH Hd). reflexivity.
Qed.

Lemma split_sign_digit c r :
  is_digit c = true -> split_sign (c :: r) = (false, c :: r).
Proof.
  destruct c as [[] [] [] [] [] [] [] []]; vm_compute; congruence.
Qed.

Lemma split_sign_fmt_plus_d z :
  split_sign (fmt_plus_d z) = (z <? 0, str_N (Z.abs_N z)).
Proof. unfold fmt_plus_d. destruct (z <? 0); reflexivity. Qed.

Lemma exp_text_nondigit e : starts_nondigit (exp_text e).
Proof. destruct e; simpl; reflexivity || exact I. Qed.

(** Digits, an optional fraction and an optional exponent are read back as
    the coefficient and exponent they spell. *)
Lemma parse_number_layout i fo eo :
  i <> [] -> all_digits i = true -> all_digits (frac_digits fo) = true ->
  parse_number (i ++ frac_text fo ++ exp_text eo) =
  Some (int_of_digits (i ++ frac_digits fo), exp_val eo - len (frac_digits fo)).
Proof.
  intros Hi Hdi Hdf. unfold parse_number.
  rewrite span_digits; [|exact Hdi|].
  2:{ destruct fo; [reflexivity|apply exp_text_nondigit]. }
  cbv beta iota.
  assert (Hfrac :
    split_fraction (frac_text fo ++ exp_text eo) = (frac_digits fo, exp_text eo)).
  { destruct fo as [f|]; simpl.
    - apply span_digits; [exact Hdf|apply exp_text_nondigit].
    - destruct eo; reflexivity. }
  rewrite Hfrac. cbv beta iota.
  destruct (i ++ frac_digits fo) as [|d ds] eqn:Ed.
  { apply app_eq_nil in Ed. destruct Ed. congruence. }
  destruct eo as [z|]; simpl; [|reflexivity].
  rewrite split_sign_fmt_plus_d.
  pose proof (@str_N_nonempty (Z.abs_N z)) as Hne.
  destruct (str_N (Z.abs_N z)) as [|x xs] eqn:Ex; [congruence|].
  rewrite <- Ex. rewrite str_N_all_digits, int_of_digits_str_N.
  do 2 f_equal.
  destruct (Z.ltb_spec z 0); lia.
Qed.

Lemma forallb_clean_sign_str sg : forallb clean (sign_str sg) = true.
Proof. destruct sg; reflexivity. Qed.

Lemma forallb_clean_frac_text fo :
  all_digits (frac_digits fo) = true -> forallb clean (frac_text fo) = true.
Proof.
  destruct fo as [f|]; simpl; [|reflexivity].
  intros H. apply all_digits_clean in H. rewrite H. reflexivity.
Qed.

Lemma forallb_clean_exp_text eo : forallb clean (exp_text eo) = true.
Proof.
  destruct eo as [z|]; [|reflexivity].
  unfold exp_text, fmt_plus_d.
  change (forallb clean ("E"%char :: ?x)) with (clean "E"%char && forallb clean x).
  rewrite forallb_app.
  rewrite (all_digits_clean _ (str_N_all_digits _)).
  destruct (z <? 0); reflexivity.
Qed.

(** The constructor reads a sign, digits, an optional fraction and an
    optional exponent back as the number they spell. *)
Lemma Decimal_of_text_layout sg i fo eo :
  i <> [] -> all_digits i = true -> all_digits (frac_digits fo) = true ->
  Decimal_of_text (sign_str sg ++ i ++ frac_text fo ++ exp_text eo) =
  Ok (Finite (mkfinite sg (int_of_digits (i ++ frac_digits fo))
                (exp_val eo - len (frac_digits fo)))).
Proof.
  intros Hi Hdi Hdf. unfold Decimal_of_text.
  assert (Hclean :
    forallb clean (sign_str sg ++ i ++ frac_text fo ++ exp_text eo) = true).
  { rewrite !forallb_app, forallb_clean_sign_str,
      (all_digits_clean _ Hdi), (forallb_clean_frac_text _ Hdf),
      forallb_clean_exp_text. reflexivity. }
  rewrite (strip_clean _ Hclean), (remove_underscores_clean _ Hclean).
  assert (Hsplit :
    split_sign (sign_str sg ++ i ++ frac_text fo ++ exp_text eo) =
    (sg, i ++ frac_text fo ++ exp_text eo)).
  { destruct sg; [reflexivity|]. simpl.
    destruct i as [|c r]; [congruence|]. simpl in Hdi.
    apply andb_true_iff in Hdi. destruct Hdi as [Hc _].
    apply split_sign_digit. exact Hc. }
  rewrite Hsplit. rewrite (parse_number_layout fo eo Hi Hdi Hdf). reflexivity.
Qed.

Lemma Ok_Finite_eq sg c1 c2 e1 e2 :
  c1 = c2 -> e1 = e2 ->
  @Ok Decimal (Finite (mkfinite sg c1 e1)) = Ok (Finite (mkfinite sg c2 e2)).
Proof. intros -> ->. reflexivity. Qed.

Lemma Decimal_str_finite_roundtrip f :
  Decimal_of_text (Decimal_str (Finite f)) = Ok (Finite f).
Proof.
  destruct f as [sg c e]. unfold Decimal_str. cbn [d_sign d_int d_exp].
  pose proof (@str_N_nonempty c) as Hne.
  pose proof (str_N_all_digits c) as Hdig.
  pose proof (int_of_digits_str_N c) as Hval.
  pose proof (ndigits_pos c) as Hlen. unfold ndigits in Hlen.
  set (I := str_N c) in *. set (L := len I) in *.
  destruct ((e <=? 0) && (-6 <? e + L)) eqn:Eplain.
  - apply andb_true_iff in Eplain. destruct Eplain as [He _].
    apply Z.leb_le in He. rewrite Z.eqb_refl.
    destruct (Z.leb_spec (e + L) 0) as [Hdp|Hdp].
    + change (sign_str sg ++ txt "0" ++ (txt "." ++ zeros (- (e + L)) ++ I) ++ [])
        with (sign_str sg ++ ["0"%char]
              ++ frac_text (Some (zeros (- (e + L)) ++ I)) ++ exp_text None).
      rewrite Decimal_of_text_layout; [|discriminate|reflexivity|].
      2:{ simpl. rewrite all_digits_app, all_digits_zeros. exact Hdig. }
      cbn [frac_digits exp_val].
      rewrite (int_of_digits_app ["0"%char]), int_of_digits_app, int_of_digits_zeros.
      rewrite Hval, len_app, len_zeros by lia.
      apply Ok_Finite_eq; [|fold L; lia].
      change (int_of_digits ["0"%char]) with 0%N. lia.
    + destruct (Z.leb_spec L (e + L)) as [Hz|Hz].
      * assert (e = 0) by lia. subst e.
        replace (0 + L - L) with 0 by lia.
        change (zeros 0) with (@nil ascii). rewrite !app_nil_r.
        replace I with (I ++ frac_text None ++ exp_text None) at 1
          by (simpl; apply app_nil_r).
        rewrite Decimal_of_text_layout; [|exact Hne|exact Hdig|reflexivity].
        cbn [frac_digits exp_val]. rewrite app_nil_r, Hval. reflexivity.
      * change (sign_str sg ++ take (e + L) I ++ (txt "." ++ drop (e + L) I) ++ [])
          with (sign_str sg ++ take (e + L) I
                ++ frac_text (Some (drop (e + L) I)) ++ exp_text None).
        rewrite Decimal_of_text_layout;
          [|apply take_nonempty; [lia|exact Hne]
           |apply all_digits_take; exact Hdig
           |apply all_digits_drop; exact Hdig].
        cbn [frac_digits exp_val]. rewrite take_drop, Hval.
        rewrite len_drop by (fold L; lia). fold L.
        apply Ok_Finite_eq; [reflexivity|lia].
  - assert (Hsci : e + L <> 1).
    { intros E. apply andb_false_iff in Eplain.
      destruct Eplain as [H|H]; [apply Z.leb_gt in H|apply Z.ltb_ge in H]; lia. }
    destruct (Z.eqb_spec (e + L) 1) as [|_]; [contradiction|].
    change (1 <=? 0) with false. cbv iota.
    destruct (Z.leb_spec L 1) as [H1|H1].
    + assert (HL : L = 1) by lia.
      replace (1 - L) with 0 by lia. change (zeros 0) with (@nil ascii).
      rewrite !app_nil_r.
      change ([] ++ txt "E" ++ fmt_plus_d (e + L - 1))
        with (frac_text None ++ exp_text (Some (e + L - 1))).
      rewrite Decimal_of_text_layout; [|exact Hne|exact Hdig|reflexivity].
      cbn [frac_digits exp_val]. rewrite app_nil_r, Hval.
      change (len (@nil ascii)) with 0.
      apply Ok_Finite_eq; [reflexivity|lia].
    + change (sign_str sg ++ take 1 I ++ (txt "." ++ drop 1 I)
              ++ txt "E" ++ fmt_plus_d (e + L - 1))
        with (sign_str sg ++ take 1 I ++ frac_text (Some (drop 1 I))
              ++ exp_text (Some (e + L - 1))).
      rewrite Decimal_of_text_layout;
        [|apply take_nonempty; [lia|exact Hne]
         |apply all_digits_take; exact Hdig
         |apply all_digits_drop; exact Hdig].
      cbn [frac_digits exp_val]. rewrite take_drop, Hval.
      rewrite len_drop by (fold L; lia). fold L.
      apply Ok_Finite_eq; [reflexivity|lia].
Qed.

Lemma lower_digit c : is_digit c = true -> lower c = c.
Proof.
  destruct c as [[] [] [] [] [] [] [] []]; vm_compute; congruence.
Qed.

Lemma map_lower_digits s : all_digits s = true -> map lower s = s.
Proof.
  induction s as [|c r IH]; [reflexivity|]. simpl. intros H.
  apply andb_true_iff in H. destruct H as [Hc Hr].
  rewrite (lower_digit _ Hc), (IH Hr). reflexivity.
Qed.

Lemma Decimal_str_special_roundtrip d :
  match d with Finite _ => False | _ => True end ->
  Decimal_of_text (Decimal_str d) = Ok d.
Proof.
  destruct d as [f|s|s g p]; [contradiction| |]; intros _.
  - destruct s; reflexivity.
  - unfold Decimal_str. destruct (N.eqb_spec p 0) as [->|Hp].
    { destruct s, g; reflexivity. }
    pose proof (str_N_all_digits p) as Hdig.
    pose proof (int_of_digits_str_N p) as Hval.
    remember (str_N p) as ds eqn:Eds. clear Eds.
    assert (Hclean :
      forallb clean (sign_str s ++ (if g then txt "sNaN" else txt "NaN") ++ ds)
      = true).
    { rewrite !forallb_app, (all_digits_clean _ Hdig).
      destruct s, g; reflexivity. }
    unfold Decimal_of_text.
    rewrite (strip_clean _ Hclean), (remove_underscores_clean _ Hclean).
    pose proof (map_lower_digits _ Hdig) as Hlow.
    unfold all_digits, int_of_digits in Hdig, Hval.
    destruct s, g; cbn; unfold all_digits, int_of_digits;
      rewrite Hlow, Hdig; rewrite <- Hval; reflexivity.
Qed.

(** [Decimal(str(d))] is [d]. *)
Lemma Decimal_str_roundtrip d : Decimal_of_text (Decimal_str d) = Ok d.
Proof.
  destruct d as [f|s|s g p].
  - apply Decimal_str_finite_roundtrip.
  - apply Decimal_str_special_roundtrip. exact I.
  - apply Decimal_str_special_roundtrip. exact I.
Qed.

Lemma rescale_exp f e : d_exp (_rescale f e) = e.
Proof.
  unfold _rescale. destruct (is_zero f); [reflexivity|].
  destruct (e <=? d_exp f); reflexivity.
Qed.

Lemma rescale_sign f e : d_sign (_rescale f e) = d_sign f.
Proof.
  unfold _rescale. destruct (is_zero f); [reflexivity|].
  destruct (e <=? d_exp f); reflexivity.
Qed.

Lemma rescale_same_exp s c e : _rescale (mkfinite s c e) e = mkfinite s c e.
Proof.
  unfold _rescale, is_zero. cbn [d_sign d_int d_exp].
  destruct (N.eqb_spec c 0) as [->|Hc]; [reflexivity|].
  rewrite Z.leb_refl, Z.sub_diag. change (pow10 0) with 1%N.
  rewrite N.mul_1_r. reflexivity.
Qed.

Lemma rescale_idem f e : _rescale (_rescale f e) e = _rescale f e.
Proof.
  pose proof (rescale_exp f e) as He.
  destruct (_rescale f e) as [s c x] eqn:E. cbn in He. subst x.
  apply rescale_same_exp.
Qed.

(** The text [format_2f] produces for a finite number already at two
    places: sign, integer digits, a point and two fraction digits. *)
Lemma format_2f_layout sg c :
  exists i fr,
    format_2f (Finite (mkfinite sg c (-2))) = sign_str sg ++ i ++ "."%char :: fr
    /\ i <> [] /\ all_digits i = true /\ all_digits fr = true
    /\ int_of_digits (i ++ fr) = c /\ len fr = 2.
Proof.
  unfold format_2f. rewrite (rescale_same_exp sg c (-2)).
  cbn [d_sign d_int d_exp].
  pose proof (@str_N_nonempty c) as Hne.
  pose proof (str_N_all_digits c) as Hdig.
  pose proof (int_of_digits_str_N c) as Hval.
  pose proof (ndigits_pos c) as Hlen. unfold ndigits in Hlen.
  set (I := str_N c) in *. set (L := len I) in *.
  destruct (Z.ltb_spec (-2 + L) 0) as [Hdp|Hdp].
  - exists (txt "0"), (zeros (- (-2 + L)) ++ I).
    split; [reflexivity|]. split; [discriminate|]. split; [reflexivity|].
    split; [rewrite all_digits_app, all_digits_zeros; exact Hdig|].
    split.
    + rewrite (int_of_digits_app (txt "0")), int_of_digits_app,
        int_of_digits_zeros, Hval.
      change (int_of_digits (txt "0")) with 0%N. lia.
    + rewrite len_app, len_zeros by lia. fold L. lia.
  - destruct (take (-2 + L) I) as [|x xs] eqn:Et.
    + exists (txt "0"), (drop (-2 + L) I).
      split; [reflexivity|]. split; [discriminate|]. split; [reflexivity|].
      split; [apply all_digits_drop; exact Hdig|].
      split.
      * pose proof (take_drop (-2 + L) I) as Htd. rewrite Et in Htd.
        rewrite app_nil_l in Htd. rewrite Htd.
        rewrite (int_of_digits_app (txt "0")), Hval.
        change (int_of_digits (txt "0")) with 0%N. lia.
      * rewrite len_drop by (fold L; lia). fold L. lia.
    + exists (x :: xs), (drop (-2 + L) I).
      split; [reflexivity|]. split; [discriminate|].
      split; [rewrite <- Et; apply all_digits_take; exact Hdig|].
      split; [apply all_digits_drop; exact Hdig|].
      split.
      * rewrite <- Et, take_drop. exact Hval.
      * rewrite len_drop by (fold L; lia). fold L. lia.
Qed.

Lemma rescale_2_shape f :
  _rescale f (-2) = mkfinite (d_sign f) (d_int (_rescale f (-2))) (-2).
Proof.
  pose proof (rescale_exp f (-2)) as He. pose proof (rescale_sign f (-2)) as Hs.
  destruct (_rescale f (-2)) as [s c x]. cbn in *. subst. reflexivity.
Qed.

(** Formatting only looks at the number rounded to two places. *)
Lemma format_2f_rescale f :
  format_2f (Finite (_rescale f (-2))) = format_2f (Finite f).
Proof. unfold format_2f. rewrite rescale_idem. reflexivity. Qed.

Lemma format_2f_quantize d : format_2f (quantize d) = format_2f d.
Proof. destruct d; [apply format_2f_rescale|reflexivity|reflexivity]. Qed.

(** [Decimal(format(d, ".2f"))] is [d] rounded to two places. *)
Lemma Decimal_of_format_2f d :
  Decimal_of_text (format_2f d) = Ok (quantize d).
Proof.
  destruct d as [f|s|s g p].
  - rewrite <- format_2f_rescale. cbn [quantize].
    rewrite (rescale_2_shape f).
    destruct (format_2f_layout (d_sign f) (d_int (_rescale f (-2))))
      as (i & fr & Hfmt & Hi & Hdi & Hdf & Hval & Hlen).
    rewrite Hfmt.
    change ("."%char :: fr) with (frac_text (Some fr)).
    rewrite <- (app_nil_r (frac_text (Some fr))).
    change (@nil ascii) with (exp_text None) at 1.
    rewrite Decimal_of_text_layout; [|exact Hi|exact Hdi|exact Hdf].
    cbn [frac_digits exp_val]. rewrite Hval, Hlen. reflexivity.
  - exact (Decimal_str_roundtrip (Infinity s)).
  - exact (Decimal_str_roundtrip (NaN s g p)).
Qed.

Lemma format_decimal_Decimal d : format_decimal (inl d) = Ok (format_2f d).
Proof.
  unfold format_decimal, str. rewrite Decimal_str_roundtrip. reflexivity.
Qed.

Lemma format_decimal_formatted d :
  format_decimal (inr (format_2f d)) = Ok (format_2f d).
Proof.
  unfold format_decimal, str. rewrite Decimal_of_format_2f. cbn [bind].
  rewrite format_2f_quantize. reflexivity.
Qed.

(* ================================================================== *)
(** ** The query layer: membership and order *)

Lemma then_compare_opp c k :
  CompOpp (then_compare c k) = then_compare (CompOpp c) (CompOpp k).
Proof. destruct c; reflexivity. Qed.

Lemma datetime_compare_antisym a b :
  datetime_compare b a = CompOpp (datetime_compare a b).
Proof.
  unfold datetime_compare.
  rewrite !then_compare_opp, <- !N.compare_antisym. reflexivity.
Qed.

Lemma datetime_leb_total a b :
  datetime_leb a b = false -> datetime_leb b a = true.
Proof.
  unfold datetime_leb. rewrite (datetime_compare_antisym a b).
  destruct (datetime_compare a b); simpl; congruence.
Qed.

Lemma In_inner_join (A B : Type) (on : A -> B -> bool) l r a b :
  In (a, b) (inner_join on l r) <-> In a l /\ In b r /\ on a b = true.
Proof.
  unfold inner_join. rewrite in_flat_map. split.
  - intros (x & Hx & Hin). apply in_map_iff in Hin.
    destruct Hin as (y & E & Hy). inversion E; subst.
    apply filter_In in Hy. tauto.
  - intros (Ha & Hb & Hon). exists a. split; [exact Ha|].
    apply in_map. apply filter_In. tauto.
Qed.

Lemma In_insert_desc (A : Type) (key : A -> datetime) x l y :
  In y (insert_desc key x l) <-> y = x \/ In y l.
Proof.
  induction l as [|z l IH]; simpl.
  - intuition.
  - destruct (datetime_leb (key z) (key x)); simpl; [intuition|].
    rewrite IH. intuition.
Qed.

Lemma In_order_by_desc (A : Type) (key : A -> datetime) l y :
  In y (order_by_desc key l) <-> In y l.
Proof.
  induction l as [|x l IH]; simpl; [tauto|].
  rewrite In_insert_desc, IH. intuition.
Qed.

Lemma insert_desc_sorted (A : Type) (key : A -> datetime) x l :
  Sorted (desc key) l -> Sorted (desc key) (insert_desc key x l).
Proof.
  induction l as [|y l IH]; intros Hs; simpl.
  - repeat constructor.
  - destruct (datetime_leb (key y) (key x)) eqn:E.
    + constructor; [exact Hs|]. constructor. exact E.
    + inversion Hs as [|? ? Hl Hhd]; subst.
      constructor; [apply IH; exact Hl|].
      destruct l as [|z l]; simpl.
      * constructor. unfold desc. apply datetime_leb_total. exact E.
      * destruct (datetime_leb (key z) (key x)).
        -- constructor. unfold desc. apply datetime_leb_total. exact E.
        -- inversion Hhd; subst. constructor. assumption.
Qed.

(** ORDER BY ... DESC yields rows in descending order of the key. *)
Lemma order_by_desc_sorted (A : Type) (key : A -> datetime) l :
  Sorted (desc key) (order_by_desc key l).
Proof.
  induction l as [|x l IH]; simpl; [constructor|].
  apply insert_desc_sorted. exact IH.
Qed.

Lemma Sorted_map (A B : Type) (f : A -> B) (R : B -> B -> Prop) l :
  Sorted (fun a b => R (f a) (f b)) l -> Sorted R (map f l).
Proof.
  induction 1 as [|x l Hs IH Hhd]; simpl; constructor; [exact IH|].
  destruct Hhd; simpl; constructor. assumption.
Qed.

Lemma text_eqb_eq a b : text_eqb a b = true <-> a = b.
Proof.
  revert b. induction a as [|x a IH]; destruct b as [|y b]; simpl;
    try (split; [discriminate|discriminate]); [tauto|].
  rewrite andb_true_iff, IH, Ascii.eqb_eq. split.
  - intros [-> ->]. reflexivity.
  - intros E. inversion E. tauto.
Qed.

(** A primary key identifies its row. *)
Lemma NoDup_map_inj (A : Type) (id : A -> Z) l a b :
  NoDup (map id l) -> In a l -> In b l -> id a = id b -> a = b.
Proof.
  induction l as [|x l IH]; simpl; [tauto|].
  intros Hnd Ha Hb E. inversion Hnd as [|? ? Hnin Hnd']; subst.
  destruct Ha as [->|Ha], Hb as [->|Hb].
  - reflexivity.
  - exfalso. apply Hnin. rewrite E. apply in_map. exact Hb.
  - exfalso. apply Hnin. rewrite <- E. apply in_map. exact Ha.
  - apply IH; assumption.
Qed.

(* ================================================================== *)
(** ** The accumulation loops *)

Lemma for_each_app (A S : Type) (a b : list A) (st : S) body :
  for_each (a ++ b) st body = (st' <- for_each a st body ;; for_each b st' body).
Proof.
  revert st. induction a as [|x a IH]; intros st; simpl; [reflexivity|].
  destruct (body st x) as [st'|e]; simpl; [apply IH|reflexivity].
Qed.

Lemma Decimal_sum_app start a b :
  Decimal_sum start (a ++ b) = (t <- Decimal_sum start a ;; Decimal_sum t b).
Proof. apply for_each_app. Qed.

(** A loop that adds an amount to the total and appends one item per row
    produces the items in row order and the running sum of the amounts. *)
Lemma accumulate_loop (A I : Type) (amt : A -> Decimal) (item : A -> I)
  (step : list I * Decimal -> A -> result (list I * Decimal)) :
  (forall items total x,
     step (items, total) x =
     (t <- Decimal_add total (amt x) ;; Ok (items ++ [item x], t))) ->
  forall l items total,
    for_each l (items, total) step =
    (t <- Decimal_sum total (map amt l) ;; Ok (items ++ map item l, t)).
Proof.
  intros Hstep l. induction l as [|x l IH]; intros items total; simpl.
  - rewrite app_nil_r. reflexivity.
  - rewrite Hstep. unfold Decimal_sum. simpl.
    destruct (Decimal_add total (amt x)) as [t|e]; simpl; [|reflexivity].
    rewrite IH. unfold Decimal_sum.
    destruct (for_each (map amt l) t Decimal_add); simpl; [|reflexivity].
    rewrite <- app_assoc. reflexivity.
Qed.

Lemma regular_payment_loop l items total :
  for_each l (items, total) regular_payment_step =
  (t <- Decimal_sum total (map payment_amount l) ;;
   Ok (items ++ map regular_item_of l, t)).
Proof.
  apply accumulate_loop. intros its tot [payment customer].
  unfold regular_payment_step, regular_item_of, payment_amount.
  cbn [fst snd]. rewrite format_decimal_Decimal. reflexivity.
Qed.

Lemma adjustment_payment_loop db l items total :
  for_each l (items, total) (adjustment_payment_step db) =
  (t <- Decimal_sum total (map adjustment_amount l) ;;
   Ok (items ++ map (adjustment_item_of db) l, t)).
Proof.
  apply accumulate_loop. intros its tot [[adjustment customer] product].
  unfold adjustment_payment_step, adjustment_item_of, adjustment_amount,
    return_of.
  cbn [fst snd]. rewrite format_decimal_Decimal. reflexivity.
Qed.

Lemma refund_loop db l items total :
  for_each l (items, total) (refund_step db) =
  (t <- Decimal_sum total (map refund_amount_of l) ;;
   Ok (items ++ map (refund_item_of db) l, t)).
Proof.
  apply accumulate_loop. intros its tot [[refund customer] product].
  unfold refund_step, refund_item_of, refund_amount_of, return_of.
  cbn [fst snd]. rewrite format_decimal_Decimal. reflexivity.
Qed.

Lemma receipt_loop db l items total :
  for_each l (items, total) (receipt_step db) =
  (t <- Decimal_sum total (map receipt_amount l) ;;
   Ok (items ++ map (receipt_item_of db) l, t)).
Proof.
  apply accumulate_loop. intros its tot [receipt supplier].
  reflexivity.
Qed.

(** [get_customer_payments] in closed form: the regular items in query
    order followed by the adjustment items in query order, and the formatted
    running sum of their amounts; an arithmetic signal is re-raised. *)
Lemma get_customer_payments_closed db :
  get_customer_payments db =
  match Decimal_sum Decimal_0
          (map payment_amount (query_payments db)
           ++ map adjustment_amount (query_adjustments db)) with
  | Ok total =>
      let items := map regular_item_of (query_payments db)
                   ++ map (adjustment_item_of db) (query_adjustments db) in
      Ok (CustomerPayments.mk items (format_2f total) (len items))
  | Raise e => Raise (Exception (txt "Error fetching customer payments") e)
  end.
Proof.
  unfold get_customer_payments. cbv zeta.
  rewrite regular_payment_loop, Decimal_sum_app.
  destruct (Decimal_sum Decimal_0 (map payment_amount (query_payments db)))
    as [t|e]; simpl; [|reflexivity].
  rewrite adjustment_payment_loop.
  destruct (Decimal_sum t (map adjustment_amount (query_adjustments db)))
    as [t'|e]; simpl; [|reflexivity].
  rewrite format_decimal_Decimal. reflexivity.
Qed.

Lemma get_customer_refunds_closed db :
  get_customer_refunds db =
  match Decimal_sum Decimal_0 (map refund_amount_of (query_refunds db)) with
  | Ok total =>
      let items := map (refund_item_of db) (query_refunds db) in
      Ok (CustomerRefunds.mk items (format_2f total) (len items))
  | Raise e => Raise (Exception (txt "Error fetching customer refunds") e)
  end.
Proof.
  unfold get_customer_refunds. cbv zeta. rewrite refund_loop.
  destruct (Decimal_sum Decimal_0 (map refund_amount_of (query_refunds db)))
    as [t|e]; simpl; [|reflexivity].
  rewrite format_decimal_Decimal. reflexivity.
Qed.

(* ================================================================== *)
(** ** Decimal arithmetic: when the context leaves a result exact *)

Lemma pow10_Z k : 0 <= k -> Z.of_N (pow10 k) = 10 ^ k.
Proof.
  intros H. unfold pow10. rewrite N2Z.inj_pow. rewrite Z2N.id by exact H.
  reflexivity.
Qed.

Lemma pow10_lt_inv a b : (pow10 a < pow10 b)%N -> a < b.
Proof.
  intros H. destruct (Z.lt_ge_cases a b) as [|Hge]; [assumption|].
  pose proof (pow10_le_mono Hge). lia.
Qed.

Lemma ndigits_ge n k : (pow10 k <= n)%N -> k + 1 <= ndigits n.
Proof.
  intros H. pose proof (ndigits_upper n).
  assert (pow10 k < pow10 (ndigits n))%N by lia.
  apply pow10_lt_inv in H1. lia.
Qed.

Lemma ndigits_le_mono a b : (a <= b)%N -> ndigits a <= ndigits b.
Proof.
  intros H. destruct (N.eq_dec a 0) as [->|Ha].
  - change (ndigits 0) with 1. apply ndigits_pos.
  - pose proof (ndigits_lower Ha). 
    assert (pow10 (ndigits a - 1) <= b)%N by lia.
    apply ndigits_ge in H1. lia.
Qed.

Lemma ten_nonzero : ~ ((10 # 1) == 0)%Q.
Proof. discriminate. Qed.

(** Padding a coefficient with zeros while lowering the exponent keeps the
    value. *)
Lemma value_align z e e' :
  e' <= e ->
  (inject_Z (z * 10 ^ (e - e')) * (10 # 1) ^ e' == inject_Z z * (10 # 1) ^ e)%Q.
Proof.
  intros H. rewrite inject_Z_mult.
  rewrite Zpower_Qpower by lia.
  change (inject_Z 10) with (10 # 1).
  replace e with ((e - e') + e') at 2 by lia.
  rewrite (Qpower_plus (10 # 1) (e - e') e' ten_nonzero). ring.
Qed.

Lemma signed_mkfinite s c e :
  signed (mkfinite s c e) = if s then - Z.of_N c else Z.of_N c.
Proof. reflexivity. Qed.

Lemma signed_exact_add a b :
  let exp := Z.min (d_exp a) (d_exp b) in
  signed (exact_add a b) =
  signed a * 10 ^ (d_exp a - exp) + signed b * 10 ^ (d_exp b - exp).
Proof.
  intros exp. unfold exact_add. fold exp.
  destruct a as [sa ca ea], b as [sb cb eb]. cbn [d_sign d_int d_exp] in *.
  assert (Ha : 0 <= ea - exp) by (unfold exp; lia).
  assert (Hb : 0 <= eb - exp) by (unfold exp; lia).
  unfold signed at 2 3. cbn [d_sign d_int].
  rewrite <- (pow10_Z Ha), <- (pow10_Z Hb).
  set (ia := (ca * pow10 (ea - exp))%N).
  set (ib := (cb * pow10 (eb - exp))%N).
  assert (Eia : Z.of_N ia = Z.of_N ca * Z.of_N (pow10 (ea - exp)))
    by (unfold ia; apply N2Z.inj_mul).
  assert (Eib : Z.of_N ib = Z.of_N cb * Z.of_N (pow10 (eb - exp)))
    by (unfold ib; apply N2Z.inj_mul).
  destruct sa, sb; cbn [Bool.eqb]; rewrite ?signed_mkfinite;
    try (rewrite N2Z.inj_add; lia);
    destruct (N.eqb_spec ia ib) as [E|E]; rewrite ?signed_mkfinite;
    try lia;
    destruct (N.ltb_spec ib ia); rewrite signed_mkfinite;
    rewrite N2Z.inj_sub by lia; lia.
Qed.

Lemma value_exact_add a b : (value (exact_add a b) == value a + value b)%Q.
Proof.
  set (exp := Z.min (d_exp a) (d_exp b)).
  assert (Hexp : d_exp (exact_add a b) = exp).
  { unfold exact_add. fold exp.
    destruct (Bool.eqb (d_sign a) (d_sign b)); [reflexivity|].
    destruct (N.eqb _ _); [reflexivity|].
    destruct (N.ltb _ _); reflexivity. }
  unfold value at 1. rewrite Hexp, signed_exact_add. fold exp.
  rewrite inject_Z_plus, Qmult_plus_distr_l.
  rewrite !value_align by (unfold exp; lia). reflexivity.
Qed.

Lemma value_negate f : (value (negate f) == - value f)%Q.
Proof.
  unfold value, negate, signed. cbn [d_sign d_int d_exp].
  destruct (d_sign f); cbn [negb]; [rewrite inject_Z_opp|rewrite inject_Z_opp];
    ring.
Qed.

Lemma value_exact_sum l : forall start,
  (value (exact_sum start l) == value start + sum_values l)%Q.
Proof.
  induction l as [|x l IH]; intros start; simpl.
  - ring.
  - unfold exact_sum in *. simpl. rewrite IH, value_exact_add. ring.
Qed.

Lemma value_finite_0 : (value finite_0 == 0)%Q.
Proof. reflexivity. Qed.

(** Two places are enough for a number with exponent at least -2: formatting
    does not change its value. *)
Lemma value_rescale_2 f : -2 <= d_exp f -> (value (_rescale f (-2)) == value f)%Q.
Proof.
  intros H. unfold _rescale, is_zero.
  destruct (N.eqb_spec (d_int f) 0) as [E|E].
  - unfold value, signed. cbn [d_sign d_int d_exp]. rewrite E.
    destruct (d_sign f); simpl; ring.
  - destruct (Z.leb_spec (-2) (d_exp f)); [|lia].
    unfold value, signed. cbn [d_sign d_int d_exp].
    rewrite N2Z.inj_mul, pow10_Z by lia.
    destruct (d_sign f).
    + rewrite <- Z.mul_opp_l. apply value_align. lia.
    + apply value_align. lia.
Qed.

Lemma fix_representable f : representable f -> _fix f = Ok f.
Proof.
  intros (Hd & Hlo & Hhi). unfold _fix, is_zero.
  destruct f as [s c e]. cbn [d_sign d_int d_exp] in *.
  destruct (N.eqb_spec c 0) as [->|Hc].
  - change (ndigits 0) with 1 in *. do 2 f_equal.
    unfold Etiny, Emax, Emin, prec in *. lia.
  - unfold Etop, Etiny, Emax, Emin, prec in *.
    destruct (Z.ltb_spec (999999 - 28 + 1) (ndigits c + e - 28)); [lia|].
    destruct (Z.ltb_spec e (Z.max (ndigits c + e - 28) (-999999 - 28 + 1)));
      [lia|reflexivity].
Qed.

(** Whenever the exact sum fits the context, [+] returns it unchanged. *)
Lemma finite_add_exact a b :
  representable (exact_add a b) -> finite_add a b = Ok (exact_add a b).
Proof.
  intros Hrep. unfold finite_add.
  set (exp := Z.min (d_exp a) (d_exp b)).
  assert (Hgen :
    ~ (is_zero a = true /\ is_zero b = false /\ exp < d_exp b - prec - 1) ->
    ~ (is_zero b = true /\ is_zero a = false /\ exp < d_exp a - prec - 1) ->
    finite_add a b = Ok (exact_add a b)).
  { intros Ha Hb. unfold finite_add. fold exp.
    rewrite <- (fix_representable Hrep).
    unfold exact_add. fold exp. unfold is_zero in *.
    destruct a as [sa ca ea], b as [sb cb eb]. cbn [d_sign d_int d_exp] in *.
    destruct (N.eqb_spec ca 0) as [Ea|Ea], (N.eqb_spec cb 0) as [Eb|Eb];
      cbn [andb]; subst.
    - rewrite !N.mul_0_l. destruct sa, sb; reflexivity.
    - replace (Z.max exp (eb - prec - 1)) with exp by lia.
      unfold _rescale, is_zero. cbn [d_sign d_int d_exp].
      destruct (N.eqb_spec cb 0); [contradiction|].
      destruct (Z.leb_spec exp eb); [|unfold exp in *; lia].
      rewrite N.mul_0_l.
      assert (Hpos : (cb * pow10 (eb - exp) <> 0)%N).
      { pose proof (pow10_pos (eb - exp)). nia. }
      destruct sa, sb; cbn [Bool.eqb]; rewrite ?N.add_0_l; try reflexivity;
        destruct (N.eqb_spec 0 (cb * pow10 (eb - exp))); try lia;
        destruct (N.ltb_spec (cb * pow10 (eb - exp)) 0); try lia;
        rewrite N.sub_0_r; reflexivity.
    - replace (Z.max exp (ea - prec - 1)) with exp by lia.
      unfold _rescale, is_zero. cbn [d_sign d_int d_exp].
      destruct (N.eqb_spec ca 0); [contradiction|].
      destruct (Z.leb_spec exp ea); [|unfold exp in *; lia].
      rewrite N.mul_0_l.
      assert (Hpos : (ca * pow10 (ea - exp) <> 0)%N).
      { pose proof (pow10_pos (ea - exp)). nia. }
      destruct sa, sb; cbn [Bool.eqb]; rewrite ?N.add_0_r; try reflexivity;
        destruct (N.eqb_spec (ca * pow10 (ea - exp)) 0); try lia;
        destruct (N.ltb_spec 0 (ca * pow10 (ea - exp))); try lia;
        rewrite N.sub_0_r; reflexivity.
    - destruct (Bool.eqb sa sb); [reflexivity|].
      destruct (N.eqb _ _); [reflexivity|].
      destruct (N.ltb _ _); reflexivity. }
  apply Hgen.
  - intros (Ha & Hb & Hlt). unfold is_zero in *.
    apply N.eqb_eq in Ha. apply N.eqb_neq in Hb.
    destruct Hrep as (Hd & _ & _).
    assert (Hint : d_int (exact_add a b) = (d_int b * pow10 (d_exp b - exp))%N).
    { unfold exact_add. fold exp. rewrite Ha, N.mul_0_l.
      assert (d_int b * pow10 (d_exp b - exp) <> 0)%N
        by (pose proof (pow10_pos (d_exp b - exp)); nia).
      destruct (Bool.eqb (d_sign a) (d_sign b)); [reflexivity|].
      destruct (N.eqb_spec 0 (d_int b * pow10 (d_exp b - exp))); [lia|].
      destruct (N.ltb_spec (d_int b * pow10 (d_exp b - exp)) 0); [lia|].
      cbn [d_int]. lia. }
    rewrite Hint in Hd.
    assert (pow10 (d_exp b - exp) <= d_int b * pow10 (d_exp b - exp))%N by nia.
    apply ndigits_ge in H. unfold prec in *. lia.
  - intros (Hb & Ha & Hlt). unfold is_zero in *.
    apply N.eqb_eq in Hb. apply N.eqb_neq in Ha.
    destruct Hrep as (Hd & _ & _).
    assert (Hint : d_int (exact_add a b) = (d_int a * pow10 (d_exp a - exp))%N).
    { unfold exact_add. fold exp. rewrite Hb, N.mul_0_l.
      assert (d_int a * pow10 (d_exp a - exp) <> 0)%N
        by (pose proof (pow10_pos (d_exp a - exp)); nia).
      destruct (Bool.eqb (d_sign a) (d_sign b)); [cbn [d_int]; lia|].
      destruct (N.eqb_spec (d_int a * pow10 (d_exp a - exp)) 0); [lia|].
      destruct (N.ltb_spec 0 (d_int a * pow10 (d_exp a - exp))); [|lia].
      cbn [d_int]. lia. }
    rewrite Hint in Hd.
    assert (pow10 (d_exp a - exp) <= d_int a * pow10 (d_exp a - exp))%N by nia.
    apply ndigits_ge in H. unfold prec in *. lia.
Qed.

(* ================================================================== *)
(** ** Running totals *)

Lemma Decimal_add_finite a b :
  Decimal_add (Finite a) (Finite b) = (r <- finite_add a b ;; Ok (Finite r)).
Proof. reflexivity. Qed.

Lemma Decimal_or_0_finite x : Decimal_or_0 x = Finite (finite_or_0 x).
Proof.
  destruct x as [f|]; [|reflexivity]. simpl. destruct (is_zero f); reflexivity.
Qed.

(** A run whose partial sums all fit is computed exactly. *)
Lemma Decimal_sum_exact l : forall start,
  exact_run start l ->
  Decimal_sum (Finite start) (map Finite l) = Ok (Finite (exact_sum start l)).
Proof.
  induction l as [|x l IH]; intros start Hrun; [reflexivity|].
  destruct Hrun as [Hrep Hrun]. unfold Decimal_sum in *.
  cbn [map for_each]. rewrite Decimal_add_finite.
  rewrite (finite_add_exact _ _ Hrep). cbn [bind]. apply IH. exact Hrun.
Qed.

Lemma exact_add_nonnegative a b :
  nonnegative a -> nonnegative b ->
  exact_add a b =
  mkfinite false
    (d_int a * pow10 (d_exp a - Z.min (d_exp a) (d_exp b))
     + d_int b * pow10 (d_exp b - Z.min (d_exp a) (d_exp b)))%N
    (Z.min (d_exp a) (d_exp b)).
Proof.
  unfold nonnegative, exact_add. intros -> ->. reflexivity.
Qed.

Lemma exact_sum_grows l : forall start,
  nonnegative start -> Forall nonnegative l ->
  nonnegative (exact_sum start l)
  /\ (d_int start <= d_int (exact_sum start l))%N
  /\ d_exp (exact_sum start l) <= d_exp start.
Proof.
  induction l as [|x l IH]; intros start Hs Hl.
  - simpl. repeat split; [exact Hs|lia|lia].
  - inversion Hl as [|? ? Hx Hl']; subst.
    pose proof (exact_add_nonnegative Hs Hx) as E.
    assert (Hn : nonnegative (exact_add start x)) by (rewrite E; reflexivity).
    destruct (IH _ Hn Hl') as (H1 & H2 & H3).
    change (exact_sum start (x :: l)) with (exact_sum (exact_add start x) l).
    split; [exact H1|].
    assert (Ei : d_int (exact_add start x) =
                 (d_int start * pow10 (d_exp start - Z.min (d_exp start) (d_exp x))
                  + d_int x * pow10 (d_exp x - Z.min (d_exp start) (d_exp x)))%N)
      by (rewrite E; reflexivity).
    assert (Ee : d_exp (exact_add start x) = Z.min (d_exp start) (d_exp x))
      by (rewrite E; reflexivity).
    rewrite Ei in H2. rewrite Ee in H3.
    pose proof (pow10_pos (d_exp start - Z.min (d_exp start) (d_exp x))).
    assert (d_int start * 1
            <= d_int start * pow10 (d_exp start - Z.min (d_exp start) (d_exp x)))%N
      by (apply N.mul_le_mono_l; lia).
    split; lia.
Qed.

(** For amounts that are not negative it is enough that the final sum
    fits: the partial sums are no larger. *)
Lemma exact_run_nonnegative l : forall start,
  nonnegative start -> d_exp start <= 0 -> Forall nonnegative l ->
  representable (exact_sum start l) -> exact_run start l.
Proof.
  induction l as [|x l IH]; intros start Hs He Hl Hrep; [exact I|].
  inversion Hl as [|? ? Hx Hl']; subst.
  pose proof (exact_add_nonnegative Hs Hx) as E.
  assert (Hn : nonnegative (exact_add start x)) by (rewrite E; reflexivity).
  assert (He' : d_exp (exact_add start x) <= 0)
    by (rewrite E; cbn [d_exp]; lia).
  change (exact_sum start (x :: l)) with (exact_sum (exact_add start x) l)
    in Hrep.
  simpl. split; [|apply IH; assumption].
  destruct (exact_sum_grows Hn Hl') as (_ & Hint & Hexp).
  destruct Hrep as (Hd & Hlo & _).
  pose proof (ndigits_le_mono Hint).
  unfold representable, Emax, prec in *. lia.
Qed.

(* ================================================================== *)
(** ** Renderings that can be read back: ids and timestamps *)

Lemma str_N_inj a b : str_N a = str_N b -> a = b.
Proof.
  intros H. rewrite <- (int_of_digits_str_N a), <- (int_of_digits_str_N b).
  rewrite H. reflexivity.
Qed.

Lemma str_N_not_minus n r : str_N n <> "-"%char :: r.
Proof.
  intros H. pose proof (str_N_all_digits n) as Hd. rewrite H in Hd.
  discriminate.
Qed.

Lemma str_Z_inj a b : str_Z a = str_Z b -> a = b.
Proof.
  unfold str_Z.
  destruct (Z.ltb_spec a 0), (Z.ltb_spec b 0); intros E.
  - injection E as E. apply str_N_inj in E. lia.
  - symmetry in E. apply str_N_not_minus in E. contradiction.
  - apply str_N_not_minus in E. contradiction.
  - apply str_N_inj in E. lia.
Qed.

Lemma digits_prefix_inj a b r1 r2 :
  all_digits a = true -> all_digits b = true ->
  starts_nondigit r1 -> starts_nondigit r2 ->
  a ++ r1 = b ++ r2 -> a = b /\ r1 = r2.
Proof.
  intros Ha Hb H1 H2 E.
  pose proof (span_digits a r1 Ha H1) as Sa.
  pose proof (span_digits b r2 Hb H2) as Sb.
  rewrite E in Sa. rewrite Sa in Sb. inversion Sb. split; reflexivity.
Qed.

Lemma pad_all_digits w n : all_digits (pad w n) = true.
Proof.
  unfold pad. rewrite all_digits_app, all_digits_zeros, str_N_all_digits.
  reflexivity.
Qed.

Lemma int_of_digits_pad w n : int_of_digits (pad w n) = n.
Proof.
  unfold pad. rewrite int_of_digits_app, int_of_digits_zeros,
    int_of_digits_str_N. lia.
Qed.

Lemma pad_inj w a b : pad w a = pad w b -> a = b.
Proof.
  intros H. rewrite <- (int_of_digits_pad w a), <- (int_of_digits_pad w b).
  rewrite H. reflexivity.
Qed.

(** [isoformat] renders different timestamps differently. *)
Lemma isoformat_inj a b : isoformat a = isoformat b -> a = b.
Proof.
  destruct a as [y1 m1 d1 H1 M1 S1 u1], b as [y2 m2 d2 H2 M2 S2 u2].
  unfold isoformat. cbn [year month day hour minute second microsecond].
  cbn [txt list_ascii_of_string app].
  intros E.
  apply digits_prefix_inj in E;
    [|apply pad_all_digits|apply pad_all_digits|reflexivity|reflexivity].
  destruct E as [Ey E]. injection E as E.
  apply digits_prefix_inj in E;
    [|apply pad_all_digits|apply pad_all_digits|reflexivity|reflexivity].
  destruct E as [Em E]. injection E as E.
  apply digits_prefix_inj in E;
    [|apply pad_all_digits|apply pad_all_digits|reflexivity|reflexivity].
  destruct E as [Ed E]. injection E as E.
  apply digits_prefix_inj in E;
    [|apply pad_all_digits|apply pad_all_digits|reflexivity|reflexivity].
  destruct E as [Eh E]. injection E as E.
  apply digits_prefix_inj in E;
    [|apply pad_all_digits|apply pad_all_digits|reflexivity|reflexivity].
  destruct E as [Emi E]. injection E as E.
  apply digits_prefix_inj in E;
    [|apply pad_all_digits|apply pad_all_digits
     |destruct (u1 =? 0)%N; [exact I|reflexivity]
     |destruct (u2 =? 0)%N; [exact I|reflexivity]].
  destruct E as [Es E].
  apply pad_inj in Ey, Em, Ed, Eh, Emi, Es. subst.
  assert (u1 = u2).
  { destruct (N.eqb_spec u1 0), (N.eqb_spec u2 0); try discriminate.
    - congruence.
    - injection E as E. apply pad_inj in E. exact E. }
  subst. reflexivity.
Qed.

(* ================================================================== *)
(** ** Which rows the queries select *)

Lemma unique_ids_NoDup ids : unique_ids ids = true -> NoDup ids.
Proof.
  induction ids as [|k r IH]; simpl; intros H; constructor.
  - apply andb_true_iff in H. destruct H as [H _].
    apply negb_true_iff in H. intros Hin.
    assert (existsb (Z.eqb k) r = true); [|congruence].
    apply existsb_exists. exists k. split; [exact Hin|apply Z.eqb_refl].
  - apply andb_true_iff in H. destruct H as [_ H]. apply IH. exact H.
Qed.

Lemma In_join_returns db r c p :
  In (r, c, p) (join_returns db) <->
  In r (product_returns db) /\ In c (customers db) /\ In p (products db)
  /\ ProductReturn.customer_id r = Customer.id c
  /\ ProductReturn.product_id r = Product.id p.
Proof.
  unfold join_returns. rewrite In_inner_join, In_inner_join.
  cbn [fst]. rewrite !Z.eqb_eq. tauto.
Qed.

Lemma links_resolve_join db r :
  In r (product_returns db) -> links_resolve db r = true ->
  exists c p, In (r, c, p) (join_returns db).
Proof.
  intros Hin H. unfold links_resolve in H. apply andb_true_iff in H.
  destruct H as [Hc Hp].
  apply existsb_exists in Hc. destruct Hc as (c & Hc & Ec).
  apply existsb_exists in Hp. destruct Hp as (p & Hp & Ep).
  exists c, p. apply In_join_returns. rewrite Z.eqb_eq in Ec, Ep. tauto.
Qed.

Lemma In_query_adjustments db x :
  In x (query_adjustments db) <->
  In x (join_returns db)
  /\ ProductReturn.return_type (return_of x) = txt "exchange"
  /\ sql_gt0 (ProductReturn.exchange_price_difference (return_of x)) = true
  /\ sql_eq0 (ProductReturn.refund_amount (return_of x)) = true.
Proof.
  unfold query_adjustments. rewrite In_order_by_desc, filter_In.
  rewrite !andb_true_iff, text_eqb_eq. tauto.
Qed.

Lemma In_query_refunds db x :
  In x (query_refunds db) <->
  In x (join_returns db)
  /\ sql_gt0 (ProductReturn.refund_amount (return_of x)) = true
  /\ in_ (ProductReturn.status (return_of x)) refund_statuses = true.
Proof.
  unfold query_refunds. rewrite In_order_by_desc, filter_In.
  rewrite !andb_true_iff. tauto.
Qed.

Lemma In_query_payments db pc :
  In pc (query_payments db) <->
  In (fst pc) (payments db) /\ In (snd pc) (customers db)
  /\ Payment.customer_id (fst pc) = Customer.id (snd pc)
  /\ in_ (Payment.payment_status (fst pc))
         [txt "Successful"; txt "Partially Paid"] = true
  /\ sql_gt0 (Payment.amount_paid (fst pc)) = true.
Proof.
  unfold query_payments. rewrite In_order_by_desc, filter_In.
  destruct pc as [p c]. rewrite In_inner_join, andb_true_iff, Z.eqb_eq.
  cbn [fst snd]. tauto.
Qed.

Lemma join_returns_source db x :
  In x (join_returns db) -> In (return_of x) (product_returns db).
Proof.
  destruct x as [[r c] p]. intros H. apply In_join_returns in H.
  unfold return_of. cbn [fst]. tauto.
Qed.

Lemma sql_gt0_not_eq0 x : sql_gt0 x = true -> sql_eq0 x = true -> False.
Proof.
  destruct x as [f|]; simpl; [|discriminate].
  intros H1 H2. rewrite H2 in H1. rewrite andb_false_r in H1. discriminate.
Qed.

(** An amount that passed a [> 0] filter is kept as it is by [x or 0] and is
    not negative. *)
Lemma sql_gt0_amount x :
  sql_gt0 x = true ->
  exists f, x = Some f /\ finite_or_0 x = f /\ nonnegative f.
Proof.
  destruct x as [f|]; simpl; [|discriminate]. intros H.
  apply andb_true_iff in H. destruct H as [Hs Hz].
  apply negb_true_iff in Hs, Hz. exists f. rewrite Hz.
  repeat split. exact Hs.
Qed.


(* ================================================================== *)
(** ** The sign of the number a finite decimal denotes *)

Lemma ten_pow_pos e : (0 < (10 # 1) ^ e)%Q.
Proof. apply Qpower_0_lt. reflexivity. Qed.

Lemma value_magnitude_positive c e :
  c <> 0%N -> (0 < inject_Z (Z.of_N c) * (10 # 1) ^ e)%Q.
Proof.
  intros Hc. apply Qmult_lt_0_compat; [|apply ten_pow_pos].
  change 0%Q with (inject_Z 0). rewrite <- Zlt_Qlt. lia.
Qed.

Lemma value_positive f :
  d_sign f = false -> d_int f <> 0%N -> (0 < value f)%Q.
Proof.
  intros Hs Hc. unfold value, signed. rewrite Hs.
  apply value_magnitude_positive. exact Hc.
Qed.

Lemma value_negative f :
  d_sign f = true -> d_int f <> 0%N -> (value f < 0)%Q.
Proof.
  intros Hs Hc. unfold value, signed. rewrite Hs, inject_Z_opp.
  pose proof (value_magnitude_positive (d_exp f) Hc) as H.
  setoid_replace (- inject_Z (Z.of_N (d_int f)) * (10 # 1) ^ d_exp f)%Q
    with (- (inject_Z (Z.of_N (d_int f)) * (10 # 1) ^ d_exp f))%Q by ring.
  lra.
Qed.

Lemma value_zero f : d_int f = 0%N -> (value f == 0)%Q.
Proof.
  intros Hc. unfold value, signed. rewrite Hc.
  destruct (d_sign f); simpl; ring.
Qed.

Lemma value_nonnegative f : nonnegative f -> (0 <= value f)%Q.
Proof.
  intros Hs. destruct (N.eq_dec (d_int f) 0) as [Hc|Hc].
  - rewrite (value_zero _ Hc). lra.
  - apply Qlt_le_weak. apply value_positive; assumption.
Qed.

Lemma sum_values_app a b :
  (sum_values (a ++ b) == sum_values a + sum_values b)%Q.
Proof.
  induction a as [|x a IH]; cbn [app sum_values fold_right].
  - unfold sum_values. cbn [fold_right]. ring.
  - unfold sum_values in *. cbn [fold_right]. rewrite IH. ring.
Qed.

Lemma sum_values_nonnegative l :
  Forall nonnegative l -> (0 <= sum_values l)%Q.
Proof.
  induction 1 as [|x l Hx _ IH]; unfold sum_values in *; cbn [fold_right].
  - lra.
  - pose proof (value_nonnegative Hx). lra.
Qed.

(* ================================================================== *)
(** ** Properties of the service *)

(** C9. The two-decimal display formatter is idempotent: whatever decimal
    [x] is formatted, the result is a text [s], and formatting [s] again
    gives [s] back. *)
Theorem C9_format_decimal_idempotent (x : Decimal) :
  exists s, format_decimal (inl x) = Ok s /\ format_decimal (inr s) = Ok s.
Proof.
  exists (format_2f x). split.
  - apply format_decimal_Decimal.
  - apply format_decimal_formatted.
Qed.

(** C4. [get_supplier_receipts] never raises: it always returns a result,
    and whenever anything raises inside its [try] block -- in particular
    when the supplier-returns feature is unavailable -- that result is
    [{supplier_receipts: [], total_received: "0.00", count: 0}]. *)
Theorem C4_supplier_receipts_never_raises (db : Database) :
  (exists r, get_supplier_receipts db = Ok r)
  /\ (forall e, supplier_receipts_body db = Raise e ->
        get_supplier_receipts db = Ok (SupplierReceipts.mk [] (txt "0.00") 0))
  /\ (supplier_returns db = None ->
        get_supplier_receipts db = Ok (SupplierReceipts.mk [] (txt "0.00") 0)).
Proof.
  unfold get_supplier_receipts, try_except. repeat split.
  - destruct (supplier_receipts_body db) as [r|e]; eauto.
  - intros e ->. reflexivity.
  - intros H. unfold supplier_receipts_body. rewrite H. reflexivity.
Qed.

(** The store without the supplier-returns feature answers with the empty
    result. *)
Lemma C4_witness :
  get_supplier_receipts db_no_supplier_returns
  = Ok (SupplierReceipts.mk [] (txt "0.00") 0).
Proof.
  apply (C4_supplier_receipts_never_raises db_no_supplier_returns).
  reflexivity.
Defined.

Lemma customer_payment_amounts_Decimal db :
  map payment_amount (query_payments db)
  ++ map adjustment_amount (query_adjustments db)
  = map Finite (customer_payment_amounts db).
Proof.
  unfold customer_payment_amounts. rewrite map_app, !map_map.
  f_equal; apply map_ext; intros x;
    unfold payment_amount, adjustment_amount; apply Decimal_or_0_finite.
Qed.

Lemma customer_refund_amounts_Decimal db :
  map refund_amount_of (query_refunds db)
  = map Finite (customer_refund_amounts db).
Proof.
  unfold customer_refund_amounts. rewrite map_map.
  apply map_ext; intros x. unfold refund_amount_of. apply Decimal_or_0_finite.
Qed.

Lemma customer_payment_amounts_nonnegative db :
  Forall nonnegative (customer_payment_amounts db).
Proof.
  unfold customer_payment_amounts. apply Forall_app. split;
    apply Forall_forall; intros a Ha; apply in_map_iff in Ha;
    destruct Ha as (x & <- & Hx).
  - apply In_query_payments in Hx. destruct Hx as (_ & _ & _ & _ & Hgt).
    destruct (sql_gt0_amount _ Hgt) as (f & _ & -> & Hn). exact Hn.
  - apply In_query_adjustments in Hx. destruct Hx as (_ & _ & Hgt & _).
    destruct (sql_gt0_amount _ Hgt) as (f & _ & -> & Hn). exact Hn.
Qed.

Lemma customer_refund_amounts_nonnegative db :
  Forall nonnegative (customer_refund_amounts db).
Proof.
  unfold customer_refund_amounts.
  apply Forall_forall; intros a Ha; apply in_map_iff in Ha.
  destruct Ha as (x & <- & Hx).
  apply In_query_refunds in Hx. destruct Hx as (_ & Hgt & _).
  destruct (sql_gt0_amount _ Hgt) as (f & _ & -> & Hn). exact Hn.
Qed.

(** What a successful call of [get_customer_payments] returned. *)
Lemma get_customer_payments_Ok db r :
  get_customer_payments db = Ok r ->
  exists total,
    Decimal_sum Decimal_0 (map Finite (customer_payment_amounts db)) = Ok total
    /\ CustomerPayments.customer_payments r
       = map regular_item_of (query_payments db)
         ++ map (adjustment_item_of db) (query_adjustments db)
    /\ CustomerPayments.total_received r = format_2f total.
Proof.
  rewrite get_customer_payments_closed, customer_payment_amounts_Decimal.
  destruct (Decimal_sum Decimal_0 (map Finite (customer_payment_amounts db)))
    as [t|e]; [|discriminate].
  intros H. injection H as <-. exists t. repeat split.
Qed.

Lemma get_customer_refunds_Ok db r :
  get_customer_refunds db = Ok r ->
  exists total,
    Decimal_sum Decimal_0 (map Finite (customer_refund_amounts db)) = Ok total
    /\ CustomerRefunds.customer_refunds r
       = map (refund_item_of db) (query_refunds db)
    /\ CustomerRefunds.total_refunded r = format_2f total.
Proof.
  rewrite get_customer_refunds_closed, customer_refund_amounts_Decimal.
  destruct (Decimal_sum Decimal_0 (map Finite (customer_refund_amounts db)))
    as [t|e]; [|discriminate].
  intros H. injection H as <-. exists t. repeat split.
Qed.

(** The running total of amounts that are not negative is their exact sum
    as soon as that sum fits the context. *)
Lemma Decimal_sum_nonnegative_exact amounts :
  Forall nonnegative amounts ->
  representable (exact_sum finite_0 amounts) ->
  Decimal_sum Decimal_0 (map Finite amounts)
  = Ok (Finite (exact_sum finite_0 amounts))
  /\ (value (exact_sum finite_0 amounts) == sum_values amounts)%Q.
Proof.
  intros Hn Hrep. split.
  - apply (Decimal_sum_exact amounts finite_0).
    apply exact_run_nonnegative; [reflexivity|simpl; lia|exact Hn|exact Hrep].
  - rewrite value_exact_sum, value_finite_0. ring.
Qed.


(** *** When the customer operations return *)

Lemma fix_raise f e : _fix f = Raise e -> e = Overflow.
Proof.
  unfold _fix. destruct (is_zero f); [discriminate|].
  destruct (Etop <? _); [congruence|].
  destruct (d_exp f <? _); [|discriminate].
  destruct (round_half_even _ _) as [coeff changed].
  destruct (changed && _); destruct (Etop <? _); congruence.
Qed.

Lemma finite_add_raise a b e : finite_add a b = Raise e -> e = Overflow.
Proof.
  unfold finite_add.
  repeat match goal with
         | |- context [if ?c then _ else _] => destruct c
         end; apply fix_raise.
Qed.

Lemma Decimal_sum_finite_raise l : forall start e,
  Decimal_sum (Finite start) (map Finite l) = Raise e -> e = Overflow.
Proof.
  induction l as [|x l IH]; intros start e H; [discriminate H|].
  unfold Decimal_sum in *. cbn [map for_each] in H.
  rewrite Decimal_add_finite in H.
  destruct (finite_add start x) as [s'|e'] eqn:E; cbn [bind] in H.
  - apply (IH _ _ H).
  - injection H as <-. apply (finite_add_raise _ _ E).
Qed.

(** On a store that answers its queries, the only way
    [get_customer_payments] can raise is an Overflow signal of the decimal
    context while adding up. *)
Lemma get_customer_payments_raise db e :
  get_customer_payments db = Raise e ->
  e = Exception (txt "Error fetching customer payments") Overflow.
Proof.
  rewrite get_customer_payments_closed, customer_payment_amounts_Decimal.
  destruct (Decimal_sum Decimal_0 (map Finite (customer_payment_amounts db)))
    as [t|e'] eqn:E; [discriminate|].
  intros H. injection H as <-. f_equal.
  apply (Decimal_sum_finite_raise _ finite_0 E).
Qed.

Lemma get_customer_refunds_raise db e :
  get_customer_refunds db = Raise e ->
  e = Exception (txt "Error fetching customer refunds") Overflow.
Proof.
  rewrite get_customer_refunds_closed, customer_refund_amounts_Decimal.
  destruct (Decimal_sum Decimal_0 (map Finite (customer_refund_amounts db)))
    as [t|e'] eqn:E; [discriminate|].
  intros H. injection H as <-. f_equal.
  apply (Decimal_sum_finite_raise _ finite_0 E).
Qed.

(** Both return as soon as the exact sum of their amounts fits the context,
    as it does for any realistic table of fixed-point amounts. *)
Lemma get_customer_payments_returns db :
  representable (exact_sum finite_0 (customer_payment_amounts db)) ->
  exists r, get_customer_payments db = Ok r.
Proof.
  intros Hrep.
  destruct (Decimal_sum_nonnegative_exact
              (customer_payment_amounts_nonnegative db) Hrep) as [E _].
  rewrite get_customer_payments_closed, customer_payment_amounts_Decimal, E.
  eexists. reflexivity.
Qed.

Lemma get_customer_refunds_returns db :
  representable (exact_sum finite_0 (customer_refund_amounts db)) ->
  exists r, get_customer_refunds db = Ok r.
Proof.
  intros Hrep.
  destruct (Decimal_sum_nonnegative_exact
              (customer_refund_amounts_nonnegative db) Hrep) as [E _].
  rewrite get_customer_refunds_closed, customer_refund_amounts_Decimal, E.
  eexists. reflexivity.
Qed.

(** C7. The [total_received] returned by [get_customer_payments] is the
    formatted running sum of the amounts of exactly the returned items
    ([amount_paid] of the payment for a regular item,
    [exchange_price_difference] for an adjustment item), taken before any
    display rounding; that running sum is the exact rational sum of the
    amounts whenever the latter fits the 28 digits of the decimal context. *)
Theorem C7_total_received_is_sum_of_items (db : Database)
  (r : CustomerPayments.t) :
  get_customer_payments db = Ok r ->
  let amounts := customer_payment_amounts db in
  map PaymentItem.amount_paid (CustomerPayments.customer_payments r)
  = map (fun a => format_2f (Finite a)) amounts
  /\ CustomerPayments.count r = len amounts
  /\ exists total,
       Decimal_sum Decimal_0 (map Finite amounts) = Ok total
       /\ CustomerPayments.total_received r = format_2f total
       /\ (representable (exact_sum finite_0 amounts) ->
           exists t, total = Finite t /\ (value t == sum_values amounts)%Q).
Proof.
  intros H amounts.
  pose proof H as H'. rewrite get_customer_payments_closed in H'.
  destruct (get_customer_payments_Ok _ H) as (total & Hsum & Hitems & Htotal).
  split; [|split].
  - rewrite Hitems. unfold amounts, customer_payment_amounts.
    rewrite !map_app, !map_map. f_equal; apply map_ext; intros x.
    + unfold regular_item_of, payment_amount. cbn [PaymentItem.amount_paid regular_payment_item].
      rewrite Decimal_or_0_finite. reflexivity.
    + unfold adjustment_item_of, adjustment_amount.
      cbn [PaymentItem.amount_paid adjustment_payment_item].
      rewrite Decimal_or_0_finite. reflexivity.
  - rewrite customer_payment_amounts_Decimal in H'. fold amounts in Hsum.
    unfold amounts in *. rewrite Hsum in H'. injection H' as <-.
    cbn [CustomerPayments.count]. unfold len, customer_payment_amounts.
    rewrite !length_app, !length_map. reflexivity.
  - exists total. split; [exact Hsum|]. split; [exact Htotal|].
    intros Hrep.
    destruct (Decimal_sum_nonnegative_exact
                (customer_payment_amounts_nonnegative db) Hrep) as [E V].
    exists (exact_sum finite_0 amounts). split; [|exact V].
    unfold amounts in *. congruence.
Qed.

(** The example store: the call returns three items and the total 155.50,
    which is the formatted running sum of their amounts. *)
Lemma C7_witness :
  get_customer_payments db_shop = Ok shop_customer_payments
  /\ exists total,
       Decimal_sum Decimal_0 (map Finite (customer_payment_amounts db_shop))
       = Ok total
       /\ txt "155.50" = format_2f total.
Proof.
  assert (H : get_customer_payments db_shop = Ok shop_customer_payments)
    by (vm_compute; reflexivity).
  split; [exact H|].
  destruct (C7_total_received_is_sum_of_items db_shop H)
    as (_ & _ & total & Hsum & Htotal & _).
  exists total. split; [exact Hsum|exact Htotal].
Defined.

Lemma sql_gt0_positive x :
  sql_gt0 x = true -> (0 < value (finite_or_0 x))%Q.
Proof.
  destruct x as [f|]; cbn [sql_gt0 finite_or_0]; [|discriminate].
  intros H. apply andb_true_iff in H. destruct H as [Hs Hz].
  apply negb_true_iff in Hs, Hz. rewrite Hz.
  apply value_positive; [exact Hs|].
  unfold is_zero in Hz. apply N.eqb_neq in Hz. exact Hz.
Qed.

(** C10. No status filter applies to adjustment rows: a ProductReturn of
    type "exchange" with [exchange_price_difference > 0] and
    [refund_amount == 0], whose customer and product exist, is included in
    the output of [get_customer_payments] and in [total_received] whatever
    its stored status, and the status of every adjustment item is the
    literal "Completed".  The row's item stands in the returned list at
    the place where its amount stands in the list of amounts that
    [total_received] is the formatted running sum of; every amount of that
    list is non-negative and the row's own is above zero, so whenever the
    sum fits the decimal context the total is the exact sum of the amounts
    before it, its own amount and the amounts after it, and is no smaller
    than its own amount. *)
Theorem C10_adjustments_ignore_status (db : Database)
  (row : ProductReturn.row) (r : CustomerPayments.t) :
  In row (product_returns db) ->
  ProductReturn.return_type row = txt "exchange" ->
  sql_gt0 (ProductReturn.exchange_price_difference row) = true ->
  sql_eq0 (ProductReturn.refund_amount row) = true ->
  links_resolve db row = true ->
  get_customer_payments db = Ok r ->
  (exists item items_before items_after before after total,
     In item (CustomerPayments.customer_payments r)
     /\ PaymentItem.payment_id item
        = JStr (txt "ADJ-" ++ str_Z (ProductReturn.id row))
     /\ PaymentItem.payment_type item = txt "adjustment_payment"
     /\ PaymentItem.status item = txt "Completed"
     /\ PaymentItem.amount_paid item
        = format_2f (Decimal_or_0 (ProductReturn.exchange_price_difference row))
     /\ CustomerPayments.customer_payments r
        = items_before ++ item :: items_after
     /\ customer_payment_amounts db
        = before
          ++ finite_or_0 (ProductReturn.exchange_price_difference row)
          :: after
     /\ List.length before = List.length items_before
     /\ Forall nonnegative (customer_payment_amounts db)
     /\ (0 < value (finite_or_0
                      (ProductReturn.exchange_price_difference row)))%Q
     /\ Decimal_sum Decimal_0 (map Finite (customer_payment_amounts db))
        = Ok total
     /\ CustomerPayments.total_received r = format_2f total
     /\ (representable (exact_sum finite_0 (customer_payment_amounts db)) ->
         exists t,
           total = Finite t
           /\ (value t
               == sum_values before
                  + value (finite_or_0
                             (ProductReturn.exchange_price_difference row))
                  + sum_values after)%Q
           /\ (value (finite_or_0
                        (ProductReturn.exchange_price_difference row))
               <= value t)%Q))
  /\ (forall item,
        In item (CustomerPayments.customer_payments r) ->
        PaymentItem.payment_type item = txt "adjustment_payment" ->
        PaymentItem.status item = txt "Completed").
Proof.
  intros Hin Htype Hgt Heq Hlinks Hok.
  destruct (get_customer_payments_Ok _ Hok) as (total & Hsum & Hitems & Htotal).
  destruct (links_resolve_join _ _ Hin Hlinks) as (c & p & Hjoin).
  assert (Hsel : In (row, c, p) (query_adjustments db)).
  { apply In_query_adjustments. unfold return_of. cbn [fst]. tauto. }
  split.
  - destruct (in_split _ _ Hsel) as (a1 & a2 & E).
    set (amount := finite_or_0 (ProductReturn.exchange_price_difference row)).
    set (before :=
           map (fun pc => finite_or_0 (Payment.amount_paid (fst pc)))
             (query_payments db)
           ++ map (fun x =>
                     finite_or_0
                       (ProductReturn.exchange_price_difference (return_of x)))
                a1).
    set (after :=
           map (fun x =>
                  finite_or_0
                    (ProductReturn.exchange_price_difference (return_of x)))
             a2).
    assert (Eamounts : customer_payment_amounts db = before ++ amount :: after).
    { unfold customer_payment_amounts. rewrite E, map_app. cbn [map].
      unfold before, after, amount, return_of. cbn [fst].
      rewrite <- app_assoc. reflexivity. }
    pose proof (customer_payment_amounts_nonnegative db) as Hnonneg.
    pose proof (sql_gt0_positive _ Hgt) as Hpos. fold amount in Hpos.
    exists (adjustment_item_of db (row, c, p)),
      (map regular_item_of (query_payments db)
       ++ map (adjustment_item_of db) a1),
      (map (adjustment_item_of db) a2), before, after, total.
    split.
    { rewrite Hitems. apply in_or_app. right. apply in_map. exact Hsel. }
    do 4 (split; [reflexivity|]).
    split.
    { rewrite Hitems, E, map_app. cbn [map]. rewrite <- app_assoc.
      reflexivity. }
    split; [exact Eamounts|].
    split.
    { unfold before. rewrite !length_app, !length_map. reflexivity. }
    split; [exact Hnonneg|]. split; [exact Hpos|].
    split; [exact Hsum|]. split; [exact Htotal|].
    intros Hrep.
    destruct (Decimal_sum_nonnegative_exact Hnonneg Hrep) as [Ex V].
    exists (exact_sum finite_0 (customer_payment_amounts db)).
    split; [congruence|].
    assert (Hsplit :
      (sum_values (customer_payment_amounts db)
       == sum_values before + value amount + sum_values after)%Q).
    { rewrite Eamounts, sum_values_app. unfold sum_values at 2.
      cbn [fold_right]. fold (sum_values after). ring. }
    rewrite Eamounts in Hnonneg. apply Forall_app in Hnonneg.
    destruct Hnonneg as [Hb Ha]. inversion Ha as [|? ? _ Ha']; subst.
    pose proof (sum_values_nonnegative Hb).
    pose proof (sum_values_nonnegative Ha').
    split; [rewrite V; exact Hsplit|].
    rewrite V, Hsplit. lra.
  - intros item Hitem Hty. rewrite Hitems in Hitem.
    apply in_app_or in Hitem. destruct Hitem as [Hi|Hi];
      apply in_map_iff in Hi; destruct Hi as (x & <- & _).
    + discriminate Hty.
    + reflexivity.
Qed.

Lemma representable_shop_payments :
  representable (exact_sum finite_0 (customer_payment_amounts db_shop)).
Proof. vm_compute. repeat split; discriminate. Qed.

(** The cancelled exchange of the example store, on which the customer owes
    5.00, is listed as "ADJ-50" with status "Completed", and its 5.00 is
    one of the three amounts 30.00, 120.50 and 5.00 that make up the total
    155.50. *)
Lemma C10_witness :
  get_customer_payments db_shop = Ok shop_customer_payments
  /\ ProductReturn.status exchange_customer_pays = txt "Cancelled"
  /\ customer_payment_amounts db_shop
     = [money 3000; money 12050; money 500]
  /\ exists item before after t,
       In item (CustomerPayments.customer_payments shop_customer_payments)
       /\ PaymentItem.payment_id item = JStr (txt "ADJ-50")
       /\ PaymentItem.status item = txt "Completed"
       /\ PaymentItem.amount_paid item = txt "5.00"
       /\ customer_payment_amounts db_shop = before ++ money 500 :: after
       /\ txt "155.50" = format_2f (Finite t)
       /\ (value t
           == sum_values before + value (money 500) + sum_values after)%Q
       /\ (value (money 500) <= value t)%Q.
Proof.
  assert (H : get_customer_payments db_shop = Ok shop_customer_payments)
    by (vm_compute; reflexivity).
  split; [exact H|]. split; [reflexivity|]. split; [reflexivity|].
  assert (Hrow : In exchange_customer_pays (product_returns db_shop))
    by (simpl; tauto).
  destruct (C10_adjustments_ignore_status db_shop exchange_customer_pays
              Hrow eq_refl eq_refl eq_refl eq_refl H)
    as ((item & ib & ia & before & after & total & Hin & Hid & _ & Hst & Hamt
         & _ & Hamounts & _ & _ & _ & _ & Htotal & Hexact) & _).
  destruct (Hexact representable_shop_payments) as (t & -> & Hv & Hle).
  exists item, before, after, t. repeat split; assumption.
Defined.

Lemma refund_item_return_id db x :
  RefundItem.return_id (refund_item_of db x) = ProductReturn.id (return_of x).
Proof.
  unfold refund_item_of, refund_item.
  destruct (text_eqb _ _); reflexivity.
Qed.

Lemma refund_item_amount db x :
  RefundItem.refund_amount (refund_item_of db x) = format_2f (refund_amount_of x).
Proof.
  unfold refund_item_of, refund_item.
  destruct (text_eqb _ _); reflexivity.
Qed.

Lemma refund_item_type_exchange db x :
  ProductReturn.return_type (return_of x) = txt "exchange" ->
  RefundItem.refund_type (refund_item_of db x) = txt "adjustment_refund".
Proof.
  intros H. unfold refund_item_of, refund_item. rewrite H. reflexivity.
Qed.

(** Rows with the same primary key are the same row. *)
Lemma same_return db a b :
  unique_ids (map ProductReturn.id (product_returns db)) = true ->
  In a (product_returns db) -> In b (product_returns db) ->
  ProductReturn.id a = ProductReturn.id b -> a = b.
Proof.
  intros Hu. apply NoDup_map_inj. apply unique_ids_NoDup. exact Hu.
Qed.

(** C8. [get_customer_refunds] lists exactly the ProductReturn rows (joined
    with their customer and product) that have [refund_amount > 0] and a
    status among Pending, Processed and Completed; a row whose status is
    "Cancelled" yields no item and no part of [total_refunded], whatever its
    refund_amount. *)
Theorem C8_refunds_exclude_cancelled (db : Database) (r : CustomerRefunds.t) :
  get_customer_refunds db = Ok r ->
  (forall item,
     In item (CustomerRefunds.customer_refunds r) ->
     exists row,
       In row (product_returns db)
       /\ RefundItem.return_id item = ProductReturn.id row
       /\ sql_gt0 (ProductReturn.refund_amount row) = true
       /\ in_ (ProductReturn.status row) refund_statuses = true)
  /\ (forall row,
        In row (product_returns db) -> links_resolve db row = true ->
        sql_gt0 (ProductReturn.refund_amount row) = true ->
        in_ (ProductReturn.status row) refund_statuses = true ->
        exists item,
          In item (CustomerRefunds.customer_refunds r)
          /\ RefundItem.return_id item = ProductReturn.id row
          /\ RefundItem.refund_amount item
             = format_2f (Decimal_or_0 (ProductReturn.refund_amount row)))
  /\ (forall row,
        In row (product_returns db) ->
        unique_ids (map ProductReturn.id (product_returns db)) = true ->
        ProductReturn.status row = txt "Cancelled" ->
        forall item,
          In item (CustomerRefunds.customer_refunds r) ->
          RefundItem.return_id item <> ProductReturn.id row)
  /\ (exists total,
        Decimal_sum Decimal_0 (map refund_amount_of (query_refunds db)) = Ok total
        /\ CustomerRefunds.total_refunded r = format_2f total
        /\ Forall
             (fun x => ProductReturn.status (return_of x) <> txt "Cancelled")
             (query_refunds db)).
Proof.
  intros Hok.
  destruct (get_customer_refunds_Ok _ Hok) as (total & Hsum & Hitems & Htotal).
  assert (Hfrom : forall item,
    In item (CustomerRefunds.customer_refunds r) ->
    exists x, In x (query_refunds db) /\ item = refund_item_of db x).
  { intros item Hi. rewrite Hitems in Hi. apply in_map_iff in Hi.
    destruct Hi as (x & <- & Hx). eauto. }
  split; [|split; [|split]].
  - intros item Hi. destruct (Hfrom _ Hi) as (x & Hx & ->).
    apply In_query_refunds in Hx. destruct Hx as (Hj & Hgt & Hst).
    exists (return_of x). rewrite refund_item_return_id.
    split; [apply join_returns_source; exact Hj|]. tauto.
  - intros row Hin Hlinks Hgt Hst.
    destruct (links_resolve_join _ _ Hin Hlinks) as (c & p & Hjoin).
    exists (refund_item_of db (row, c, p)). split.
    + rewrite Hitems. apply in_map. apply In_query_refunds.
      unfold return_of. cbn [fst]. tauto.
    + rewrite refund_item_return_id, refund_item_amount. split; reflexivity.
  - intros row Hin Hu Hcancel item Hi E.
    destruct (Hfrom _ Hi) as (x & Hx & ->).
    apply In_query_refunds in Hx. destruct Hx as (Hj & _ & Hst).
    rewrite refund_item_return_id in E.
    assert (E' : return_of x = row).
    { apply same_return with (db := db);
        [exact Hu|apply join_returns_source; exact Hj|exact Hin|exact E]. }
    rewrite E', Hcancel in Hst. discriminate Hst.
  - exists total. rewrite customer_refund_amounts_Decimal.
    split; [exact Hsum|]. split; [exact Htotal|].
    apply Forall_forall. intros x Hx Hc.
    apply In_query_refunds in Hx. destruct Hx as (_ & _ & Hst).
    rewrite Hc in Hst. discriminate Hst.
Qed.

(** On the example store the two refunds of 12.00 and 5.00 are listed and
    the cancelled exchange with its refund of 7.00 is not. *)
Lemma C8_witness :
  get_customer_refunds db_shop = Ok shop_customer_refunds
  /\ map RefundItem.return_id
       (CustomerRefunds.customer_refunds shop_customer_refunds) = [52; 51]
  /\ forall item,
       In item (CustomerRefunds.customer_refunds shop_customer_refunds) ->
       RefundItem.return_id item <> ProductReturn.id cancelled_exchange.
Proof.
  assert (H : get_customer_refunds db_shop = Ok shop_customer_refunds)
    by (vm_compute; reflexivity).
  split; [exact H|]. split; [reflexivity|].
  destruct (C8_refunds_exclude_cancelled db_shop H) as (_ & _ & Hc & _).
  apply Hc; [simpl; tauto|reflexivity|reflexivity].
Defined.

Lemma refund_items_from_rows db r item :
  get_customer_refunds db = Ok r ->
  In item (CustomerRefunds.customer_refunds r) ->
  exists x, In x (query_refunds db) /\ item = refund_item_of db x.
Proof.
  intros Hok Hi.
  destruct (get_customer_refunds_Ok _ Hok) as (_ & _ & Hitems & _).
  rewrite Hitems in Hi. apply in_map_iff in Hi.
  destruct Hi as (x & <- & Hx). eauto.
Qed.

Lemma payment_items_from_rows db r item :
  get_customer_payments db = Ok r ->
  In item (CustomerPayments.customer_payments r) ->
  (exists pc, In pc (query_payments db) /\ item = regular_item_of pc)
  \/ (exists x, In x (query_adjustments db) /\ item = adjustment_item_of db x).
Proof.
  intros Hok Hi.
  destruct (get_customer_payments_Ok _ Hok) as (_ & _ & Hitems & _).
  rewrite Hitems in Hi. apply in_app_or in Hi.
  destruct Hi as [Hi|Hi]; apply in_map_iff in Hi;
    destruct Hi as (x & <- & Hx); eauto.
Qed.

(** The cancelled exchange with a refund of 7.00 is an exchange row with
    [refund_amount > 0] whose customer and product exist, and
    [get_customer_refunds] returns no item at all. *)
Lemma C1_cancelled_exchange_is_not_routed :
  In cancelled_exchange (product_returns db_cancelled_exchange)
  /\ ProductReturn.return_type cancelled_exchange = txt "exchange"
  /\ sql_gt0 (ProductReturn.refund_amount cancelled_exchange) = true
  /\ links_resolve db_cancelled_exchange cancelled_exchange = true
  /\ get_customer_refunds db_cancelled_exchange
     = Ok (CustomerRefunds.mk [] (txt "0.00") 0)
  /\ ~ (exists r item,
          get_customer_refunds db_cancelled_exchange = Ok r
          /\ In item (CustomerRefunds.customer_refunds r)
          /\ RefundItem.refund_type item = txt "adjustment_refund").
Proof.
  assert (H : get_customer_refunds db_cancelled_exchange
              = Ok (CustomerRefunds.mk [] (txt "0.00") 0))
    by (vm_compute; reflexivity).
  split; [simpl; tauto|]. do 3 (split; [reflexivity|]).
  split; [exact H|].
  intros (r & item & Hr & Hin & _). rewrite H in Hr. injection Hr as <-.
  exact Hin.
Qed.

(** C1 (as the code has it). For a ProductReturn row of type "exchange"
    whose customer and product exist, in a table with distinct ids:
    with [refund_amount == 0] and [exchange_price_difference > 0] the row is
    listed by [get_customer_payments] as "ADJ-<id>", tagged
    "adjustment_payment", with its exchange_price_difference formatted to
    two places as amount, and no item of [get_customer_refunds] carries its
    id; with [refund_amount > 0] no item of [get_customer_payments] is
    "ADJ-<id>", and the row is listed by [get_customer_refunds], tagged
    "adjustment_refund", provided its status is Pending, Processed or
    Completed. *)
Theorem C1_exchange_routing (db : Database) (row : ProductReturn.row) :
  In row (product_returns db) ->
  unique_ids (map ProductReturn.id (product_returns db)) = true ->
  ProductReturn.return_type row = txt "exchange" ->
  links_resolve db row = true ->
  (sql_eq0 (ProductReturn.refund_amount row) = true ->
   sql_gt0 (ProductReturn.exchange_price_difference row) = true ->
   (forall r, get_customer_payments db = Ok r ->
      exists item,
        In item (CustomerPayments.customer_payments r)
        /\ PaymentItem.payment_id item
           = JStr (txt "ADJ-" ++ str_Z (ProductReturn.id row))
        /\ PaymentItem.payment_type item = txt "adjustment_payment"
        /\ PaymentItem.amount_paid item
           = format_2f
               (Decimal_or_0 (ProductReturn.exchange_price_difference row)))
   /\ (forall r, get_customer_refunds db = Ok r ->
         forall item, In item (CustomerRefunds.customer_refunds r) ->
           RefundItem.return_id item <> ProductReturn.id row))
  /\ (sql_gt0 (ProductReturn.refund_amount row) = true ->
      (in_ (ProductReturn.status row) refund_statuses = true ->
       forall r, get_customer_refunds db = Ok r ->
         exists item,
           In item (CustomerRefunds.customer_refunds r)
           /\ RefundItem.return_id item = ProductReturn.id row
           /\ RefundItem.refund_type item = txt "adjustment_refund")
      /\ (forall r, get_customer_payments db = Ok r ->
            forall item, In item (CustomerPayments.customer_payments r) ->
              PaymentItem.payment_id item
              <> JStr (txt "ADJ-" ++ str_Z (ProductReturn.id row)))).
Proof.
  intros Hin Hu Htype Hlinks.
  destruct (links_resolve_join _ _ Hin Hlinks) as (c & p & Hjoin).
  split.
  - intros Heq Hgt. split.
    + intros r Hok.
      destruct (get_customer_payments_Ok _ Hok) as (_ & _ & Hitems & _).
      exists (adjustment_item_of db (row, c, p)). split.
      * rewrite Hitems. apply in_or_app. right. apply in_map.
        apply In_query_adjustments. unfold return_of. cbn [fst]. tauto.
      * repeat split.
    + intros r Hok item Hi E.
      destruct (@refund_items_from_rows db r item Hok Hi) as (x & Hx & ->).
      apply In_query_refunds in Hx. destruct Hx as (Hj & Hgt' & _).
      rewrite refund_item_return_id in E.
      assert (E' : return_of x = row).
      { apply same_return with (db := db);
          [exact Hu|apply join_returns_source; exact Hj|exact Hin|exact E]. }
      rewrite E' in Hgt'. exact (sql_gt0_not_eq0 _ Hgt' Heq).
  - intros Hgt. split.
    + intros Hst r Hok.
      destruct (get_customer_refunds_Ok _ Hok) as (_ & _ & Hitems & _).
      exists (refund_item_of db (row, c, p)). split.
      * rewrite Hitems. apply in_map. apply In_query_refunds.
        unfold return_of. cbn [fst]. tauto.
      * rewrite refund_item_return_id. split; [reflexivity|].
        apply refund_item_type_exchange. exact Htype.
    + intros r Hok item Hi E.
      destruct (@payment_items_from_rows db r item Hok Hi)
        as [(pc & _ & ->)|(x & Hx & ->)]; [discriminate E|].
      apply In_query_adjustments in Hx. destruct Hx as (Hj & _ & _ & Heq).
      unfold adjustment_item_of in E.
      cbn [PaymentItem.payment_id adjustment_payment_item] in E.
      injection E as E. apply str_Z_inj in E.
      assert (E' : return_of x = row).
      { apply same_return with (db := db);
          [exact Hu|apply join_returns_source; exact Hj|exact Hin|exact E]. }
      rewrite E' in Heq. exact (sql_gt0_not_eq0 _ Hgt Heq).
Qed.

(** On the example store the exchange that owes the customer 5.00 is listed
    among the refunds as an adjustment refund and is no "ADJ-51" payment. *)
Lemma C1_witness :
  In exchange_we_pay (product_returns db_shop)
  /\ (exists item,
        In item (CustomerRefunds.customer_refunds shop_customer_refunds)
        /\ RefundItem.return_id item = 51
        /\ RefundItem.refund_type item = txt "adjustment_refund")
  /\ (forall item,
        In item (CustomerPayments.customer_payments shop_customer_payments) ->
        PaymentItem.payment_id item <> JStr (txt "ADJ-51")).
Proof.
  assert (Hrow : In exchange_we_pay (product_returns db_shop))
    by (simpl; tauto).
  assert (Hp : get_customer_payments db_shop = Ok shop_customer_payments)
    by (vm_compute; reflexivity).
  assert (Hr : get_customer_refunds db_shop = Ok shop_customer_refunds)
    by (vm_compute; reflexivity).
  destruct (C1_exchange_routing db_shop exchange_we_pay
              Hrow eq_refl eq_refl eq_refl) as (_ & Hb).
  destruct (Hb eq_refl) as (Hlisted & Hnot).
  split; [exact Hrow|]. split.
  - exact (Hlisted eq_refl _ Hr).
  - exact (Hnot _ Hp).
Defined.

Lemma regular_items_ordered db :
  ordered_desc (map regular_item_of (query_payments db)).
Proof.
  exists (map (fun pc => Payment.payment_date (fst pc)) (query_payments db)).
  split.
  - rewrite !map_map. reflexivity.
  - apply Sorted_map. apply (order_by_desc_sorted
      (fun pc : Payment.row * Customer.row => Payment.payment_date (fst pc))).
Qed.

Lemma adjustment_items_ordered db :
  ordered_desc (map (adjustment_item_of db) (query_adjustments db)).
Proof.
  exists (map (fun x => ProductReturn.return_date (return_of x))
            (query_adjustments db)).
  split.
  - rewrite !map_map. reflexivity.
  - apply Sorted_map. apply (order_by_desc_sorted
      (fun x : ProductReturn.row * Customer.row * Product.row =>
         ProductReturn.return_date (return_of x))).
Qed.

(** A payment of 1 March and an adjustment of 3 March: the list returned by
    [get_customer_payments] has the payment first, so its dates ascend. *)
Lemma C6_merged_list_not_ordered :
  exists r,
    get_customer_payments db_late_adjustment = Ok r
    /\ map PaymentItem.payment_date (CustomerPayments.customer_payments r)
       = [isoformat (at_noon 2024 3 1); isoformat (at_noon 2024 3 3)]
    /\ ~ ordered_desc (CustomerPayments.customer_payments r).
Proof.
  eexists. split; [vm_compute; reflexivity|]. split; [reflexivity|].
  intros (dates & Hmap & Hsorted).
  destruct dates as [|a [|b [|c dates]]]; try discriminate Hmap.
  cbn [map CustomerPayments.customer_payments] in Hmap.
  injection Hmap as Ha Hb.
  assert (Ea : isoformat (at_noon 2024 3 1) = isoformat a) by exact Ha.
  assert (Eb : isoformat (at_noon 2024 3 3) = isoformat b) by exact Hb.
  apply isoformat_inj in Ea, Eb. subst a b.
  inversion Hsorted as [|? ? _ Hhd]; subst.
  inversion Hhd as [|? ? Hle]; subst. discriminate Hle.
Qed.

(** C6 (as the code has it). The list returned by [get_customer_payments]
    is the regular payment items in descending order of payment date
    followed by the adjustment items in descending order of return date;
    the two runs are not merged. *)
Theorem C6_two_ordered_runs (db : Database) (r : CustomerPayments.t) :
  get_customer_payments db = Ok r ->
  exists regular adjustments,
    CustomerPayments.customer_payments r = regular ++ adjustments
    /\ Forall (fun i => PaymentItem.payment_type i = txt "regular_payment")
         regular
    /\ Forall (fun i => PaymentItem.payment_type i = txt "adjustment_payment")
         adjustments
    /\ ordered_desc regular
    /\ ordered_desc adjustments.
Proof.
  intros Hok.
  destruct (get_customer_payments_Ok _ Hok) as (_ & _ & Hitems & _).
  exists (map regular_item_of (query_payments db)),
         (map (adjustment_item_of db) (query_adjustments db)).
  split; [exact Hitems|].
  split; [apply Forall_forall; intros i Hi; apply in_map_iff in Hi;
          destruct Hi as (x & <- & _); reflexivity|].
  split; [apply Forall_forall; intros i Hi; apply in_map_iff in Hi;
          destruct Hi as (x & <- & _); reflexivity|].
  split; [apply regular_items_ordered|apply adjustment_items_ordered].
Qed.

(** On the example store: two regular items (5 March, 1 March), then the
    adjustment of 3 March. *)
Lemma C6_witness :
  get_customer_payments db_shop = Ok shop_customer_payments
  /\ exists regular adjustments,
       CustomerPayments.customer_payments shop_customer_payments
       = regular ++ adjustments
       /\ ordered_desc regular /\ ordered_desc adjustments.
Proof.
  assert (H : get_customer_payments db_shop = Ok shop_customer_payments)
    by (vm_compute; reflexivity).
  split; [exact H|].
  destruct (C6_two_ordered_runs db_shop H)
    as (regular & adjustments & E & _ & _ & Hr & Ha).
  exists regular, adjustments. repeat split; assumption.
Defined.

(** Take the next call of a sequence apart: it returned, or the whole
    sequence raised. *)
Ltac next_call H :=
  match type of H with
  | context [bind ?c _] =>
      let E := fresh "E" in
      destruct c eqn:E; cbn [bind] in H; [|discriminate H]
  end.

Lemma try_except_Ok (A : Type) (body : result A) handler a :
  (forall e, exists e', handler e = Raise e') ->
  try_except body handler = Ok a -> body = Ok a.
Proof.
  intros Hh. unfold try_except. destruct body as [x|e]; [tauto|].
  destruct (Hh e) as (e' & ->). discriminate.
Qed.

Lemma Decimal_sub_exact fi fo :
  representable (exact_add fi (negate fo)) ->
  exists fn,
    Decimal_sub (Finite fi) (Finite fo) = Ok (Finite fn)
    /\ (value fn == value fi - value fo)%Q.
Proof.
  intros Hrep. exists (exact_add fi (negate fo)). split.
  - change (Decimal_sub (Finite fi) (Finite fo))
      with (r <- finite_add fi (negate fo) ;; Ok (Finite r)).
    rewrite (finite_add_exact _ _ Hrep). reflexivity.
  - rewrite value_exact_add, value_negate. ring.
Qed.

Lemma for_each_raises (A S : Type) (body : S -> A -> result S) x l :
  In x l -> (forall st, exists e, body st x = Raise e) ->
  forall st, exists e, for_each l st body = Raise e.
Proof.
  intros Hin Hbad. induction l as [|y l IH]; [contradiction|].
  intros st. simpl. destruct Hin as [->|Hin].
  - destruct (Hbad st) as (e & ->). exists e. reflexivity.
  - destruct (body st y) as [st'|e]; simpl; [apply IH; exact Hin|eauto].
Qed.

Section Notes_facts.

Variable json_loads : text -> option json.
Variable Decimal_from_sequence : list json -> result Decimal.

(** A note that is not JSON is treated as carrying no payment: the
    transaction leaves the list and the total as they were. *)
Lemma malformed_note_is_skipped db st transaction supplier s :
  StockTransaction.notes transaction = Some s ->
  json_loads s = None ->
  supplier_payment_step json_loads Decimal_from_sequence db st
    (transaction, supplier) = Ok st.
Proof.
  intros Hn Hj. unfold supplier_payment_step. destruct st as [items total].
  rewrite Hn. unfold extract_payment_info.
  destruct s as [|c s]; [reflexivity|]. rewrite Hj. reflexivity.
Qed.

(** The same holds when the amount is a list the constructor rejects with
    ValueError. *)
Lemma rejected_sequence_is_skipped db st transaction supplier s kv l :
  StockTransaction.notes transaction = Some s -> s <> [] ->
  json_loads s = Some (JDict kv) ->
  dict_get kv (txt "payment_amount") (JStr (txt "0")) = JList l ->
  Decimal_from_sequence l = Raise ValueError ->
  supplier_payment_step json_loads Decimal_from_sequence db st
    (transaction, supplier) = Ok st.
Proof.
  intros Hn Hs Hj Hget Hseq. unfold supplier_payment_step.
  destruct st as [items total]. rewrite Hn. unfold extract_payment_info.
  destruct s as [|c s]; [congruence|]. rewrite Hj.
  cbn [bind py_get try_except]. rewrite Hget. cbn [Decimal_new].
  rewrite Hseq. reflexivity.
Qed.

Lemma wrong_typed_note_raises db st transaction supplier s :
  StockTransaction.notes transaction = Some s -> s <> [] ->
  wrong_typed json_loads s ->
  exists e,
    supplier_payment_step json_loads Decimal_from_sequence db st
      (transaction, supplier) = Raise e.
Proof.
  intros Hn Hs Hw. unfold supplier_payment_step.
  destruct st as [items total]. rewrite Hn. unfold extract_payment_info.
  destruct s as [|c s]; [congruence|].
  destruct Hw as [(v & -> & Hv)|[(kv & a & -> & Hget & Hdec)|(kv & -> & Hget)]].
  - destruct v; try contradiction; eexists; reflexivity.
  - cbn [bind py_get try_except]. rewrite Hget. cbn [Decimal_new].
    rewrite Hdec. eexists; reflexivity.
  - cbn [bind py_get try_except]. rewrite Hget. eexists; reflexivity.
Qed.

(** C3 (where the code departs from it). A Purchase transaction whose
    note is valid JSON of the wrong type -- not an object, or with a
    payment_amount that is a non-numeric string or null -- makes the whole
    of [get_supplier_payments] raise: the inner handler only catches
    JSONDecodeError and ValueError. *)
Theorem C3_wrong_typed_note_fails_request (db : Database)
  (ts : StockTransaction.row * Supplier.row) (s : text) :
  In ts (query_purchases db) ->
  StockTransaction.notes (fst ts) = Some s -> s <> [] ->
  wrong_typed json_loads s ->
  exists e,
    get_supplier_payments json_loads Decimal_from_sequence db
    = Raise (Exception (txt "Error fetching supplier payments") e).
Proof.
  intros Hin Hn Hs Hw. unfold get_supplier_payments. cbv zeta.
  destruct ts as [transaction supplier]. cbn [fst] in Hn.
  assert (Hbad : forall st, exists e,
    supplier_payment_step json_loads Decimal_from_sequence db st
      (transaction, supplier) = Raise e).
  { intros st. apply wrong_typed_note_raises with (s := s); assumption. }
  destruct (@for_each_raises _ _ _ _ _ Hin Hbad ([], Decimal_0)) as (e & ->).
  exists e. reflexivity.
Qed.

End Notes_facts.

(** The purchase whose note is [{"payment_amount": "abc"}]: the constructor
    raises InvalidOperation and the request fails. *)
Lemma C3_witness :
  json_loads_examples note_bad_amount
  = Some (JDict [(txt "payment_amount", JStr (txt "abc"))])
  /\ get_supplier_payments json_loads_examples from_sequence_examples
       db_bad_note
     = Raise (Exception (txt "Error fetching supplier payments")
                InvalidOperation).
Proof.
  split; [reflexivity|].
  assert (Hin : In (purchase_bad_amount, kumar) (query_purchases db_bad_note))
    by (vm_compute; auto).
  assert (Hw : wrong_typed json_loads_examples note_bad_amount).
  { right. left. eexists. eexists. repeat split; reflexivity. }
  assert (Hs : note_bad_amount <> []) by discriminate.
  destruct (@C3_wrong_typed_note_fails_request json_loads_examples
              from_sequence_examples db_bad_note
              (purchase_bad_amount, kumar) note_bad_amount
              Hin eq_refl Hs Hw) as (e & He).
  rewrite He. vm_compute in He. injection He as <-. reflexivity.
Defined.

(* ================================================================== *)
(** ** Where totals are rounded *)

Lemma fix_exp_lower f g L :
  _fix f = Ok g -> L <= d_exp f -> L <= Emax -> L <= d_exp g.
Proof.
  unfold _fix, is_zero. intros H Hf HL.
  destruct (d_int f =? 0)%N.
  - injection H as <-. cbn [d_exp]. unfold Etiny, Emax, Emin, prec in *. lia.
  - destruct (Etop <? ndigits (d_int f) + d_exp f - prec); [discriminate H|].
    destruct (Z.ltb_spec (d_exp f)
                (Z.max (ndigits (d_int f) + d_exp f - prec) Etiny))
      as [Hlt|Hge].
    + destruct (round_half_even (d_int f) _) as [coeff changed].
      destruct (changed && (prec <? ndigits coeff));
        destruct (Etop <? _); try discriminate H;
        injection H as <-; cbn [d_exp]; lia.
    + injection H as <-. exact Hf.
Qed.

Lemma finite_add_exp_lower a b r L :
  finite_add a b = Ok r -> L <= d_exp a -> L <= d_exp b -> L <= Emax ->
  L <= d_exp r.
Proof.
  unfold finite_add. intros H Ha Hb HL.
  destruct (is_zero a && is_zero b).
  { apply (fix_exp_lower _ H); [cbn [d_exp]; lia|exact HL]. }
  destruct (is_zero a).
  { apply (fix_exp_lower _ H); [rewrite rescale_exp; lia|exact HL]. }
  destruct (is_zero b).
  { apply (fix_exp_lower _ H); [rewrite rescale_exp; lia|exact HL]. }
  destruct (Bool.eqb (d_sign a) (d_sign b)).
  { apply (fix_exp_lower _ H); [cbn [d_exp]; lia|exact HL]. }
  destruct (N.eqb _ _).
  { apply (fix_exp_lower _ H); [cbn [d_exp]; lia|exact HL]. }
  destruct (N.ltb _ _);
    apply (fix_exp_lower _ H); try (cbn [d_exp]; lia); exact HL.
Qed.

(** A running total of finite amounts is finite, and its exponent is no
    lower than the lowest exponent that went in. *)
Lemma Decimal_sum_finite l : forall start total,
  Decimal_sum (Finite start) (map Finite l) = Ok total ->
  exists t,
    total = Finite t
    /\ forall L, L <= d_exp start -> Forall (fun a => L <= d_exp a) l ->
                 L <= Emax -> L <= d_exp t.
Proof.
  induction l as [|x l IH]; intros start total H.
  - injection H as <-. exists start. split; [reflexivity|]. intros; assumption.
  - unfold Decimal_sum in *. cbn [map for_each] in H.
    rewrite Decimal_add_finite in H.
    destruct (finite_add start x) as [s'|e] eqn:E; [|discriminate H].
    cbn [bind] in H. destruct (IH _ _ H) as (t & -> & Ht).
    exists t. split; [reflexivity|]. intros L Hs Hl HL.
    inversion Hl as [|? ? Hx Hl']; subst.
    apply Ht; [|exact Hl'|exact HL].
    apply (finite_add_exp_lower _ _ E); assumption.
Qed.

(** What the formatted total of customer-side amounts stands for: the
    running total rounded to two places, which is the running total itself
    when no amount has more than two places. *)
Lemma formatted_total_reads_back amounts total :
  Decimal_sum Decimal_0 (map Finite amounts) = Ok total ->
  exists t,
    total = Finite t
    /\ Decimal_of_text (format_2f total) = Ok (Finite (_rescale t (-2)))
    /\ (Forall (fun a => -2 <= d_exp a) amounts ->
        (value (_rescale t (-2)) == value t)%Q).
Proof.
  intros H. destruct (Decimal_sum_finite amounts finite_0 H) as (t & -> & Ht).
  exists t. split; [reflexivity|]. split.
  - apply (Decimal_of_format_2f (Finite t)).
  - intros Hall. apply value_rescale_2.
    apply Ht; [simpl; lia|exact Hall|unfold Emax; lia].
Qed.

Section Supplier_totals.

Variable json_loads : text -> option json.
Variable Decimal_from_sequence : list json -> result Decimal.

Lemma supplier_payment_step_Ok db items total ts items' total' :
  supplier_payment_step json_loads Decimal_from_sequence db (items, total) ts
  = Ok (items', total') ->
  (items' = items /\ total' = total)
  \/ (exists amount item,
        Decimal_add total amount = Ok total'
        /\ items' = items ++ [item]
        /\ SupplierPaymentItem.amount_paid item = Decimal_str amount).
Proof.
  unfold supplier_payment_step. destruct ts as [transaction supplier].
  destruct (extract_payment_info json_loads Decimal_from_sequence
              (StockTransaction.notes transaction))
    as [[[[[amount method] status] reference] info]|]; [|discriminate].
  cbn [bind]. destruct (Decimal_gt0 amount) as [[|]|]; cbn [bind];
    [|intros H; injection H as <- <-; left; split; reflexivity|discriminate].
  destruct (Decimal_add total amount) as [t|] eqn:Eadd; [|discriminate].
  cbn [bind].
  match goal with
  | |- bind ?c _ = _ -> _ => destruct c as [names|]; [|discriminate]
  end.
  cbn [bind]. intros H. injection H as <- <-. right.
  exists amount. eexists. split; [exact Eadd|]. split; reflexivity.
Qed.

Lemma supplier_payment_loop db l : forall items total items' total',
  for_each l (items, total)
    (supplier_payment_step json_loads Decimal_from_sequence db)
  = Ok (items', total') ->
  exists amounts,
    Decimal_sum total amounts = Ok total'
    /\ map SupplierPaymentItem.amount_paid items'
       = map SupplierPaymentItem.amount_paid items ++ map Decimal_str amounts.
Proof.
  induction l as [|x l IH]; intros items total items' total' H.
  - injection H as <- <-. exists []. split; [reflexivity|].
    rewrite app_nil_r. reflexivity.
  - cbn [for_each] in H.
    destruct (supplier_payment_step json_loads Decimal_from_sequence db
                (items, total) x) as [[items1 total1]|] eqn:E;
      [|discriminate H].
    cbn [bind] in H. destruct (IH _ _ _ _ H) as (amounts & Hsum & Hmap).
    apply supplier_payment_step_Ok in E.
    destruct E as [[-> ->]|(amount & item & Hadd & -> & Hamt)].
    + exists amounts. split; assumption.
    + exists (amount :: amounts). split.
      * unfold Decimal_sum in *. cbn [for_each]. rewrite Hadd. exact Hsum.
      * rewrite Hmap, map_app. cbn [map]. rewrite Hamt, <- app_assoc.
        reflexivity.
Qed.

(** C5 (as the code has it). Each base operation accumulates its total
    with decimal addition on the unrounded amounts.
    [get_supplier_payments] and [get_supplier_receipts] return that total
    as [str(total)], which reads back as the very same decimal (the
    latter returns the literal "0.00" when its block raised);
    [get_customer_payments] and [get_customer_refunds] return it
    formatted to two decimals, which reads back as the total rounded half
    to even to two places -- the same value whenever no amount of the
    operation has more than two fractional digits. *)
Theorem C5_where_totals_are_rounded (db : Database)
  (cp : CustomerPayments.t) (cr : CustomerRefunds.t)
  (sp : SupplierPayments.t) (sr : SupplierReceipts.t) :
  get_customer_payments db = Ok cp ->
  get_customer_refunds db = Ok cr ->
  get_supplier_payments json_loads Decimal_from_sequence db = Ok sp ->
  get_supplier_receipts db = Ok sr ->
  (exists t,
     Decimal_sum Decimal_0 (map Finite (customer_payment_amounts db))
     = Ok (Finite t)
     /\ CustomerPayments.total_received cp = format_2f (Finite t)
     /\ Decimal_of_text (CustomerPayments.total_received cp)
        = Ok (Finite (_rescale t (-2)))
     /\ (Forall (fun a => -2 <= d_exp a) (customer_payment_amounts db) ->
         (value (_rescale t (-2)) == value t)%Q))
  /\ (exists t,
        Decimal_sum Decimal_0 (map Finite (customer_refund_amounts db))
        = Ok (Finite t)
        /\ CustomerRefunds.total_refunded cr = format_2f (Finite t)
        /\ Decimal_of_text (CustomerRefunds.total_refunded cr)
           = Ok (Finite (_rescale t (-2)))
        /\ (Forall (fun a => -2 <= d_exp a) (customer_refund_amounts db) ->
            (value (_rescale t (-2)) == value t)%Q))
  /\ (exists amounts t,
        Decimal_sum Decimal_0 amounts = Ok t
        /\ map SupplierPaymentItem.amount_paid
             (SupplierPayments.supplier_payments sp)
           = map Decimal_str amounts
        /\ SupplierPayments.total_paid sp = Decimal_str t
        /\ Decimal_of_text (SupplierPayments.total_paid sp) = Ok t)
  /\ (sr = SupplierReceipts.mk [] (txt "0.00") 0
      \/ exists table t,
           supplier_returns db = Some table
           /\ Decimal_sum Decimal_0
                (map receipt_amount (query_receipts db table)) = Ok t
           /\ SupplierReceipts.total_received sr = Decimal_str t
           /\ Decimal_of_text (SupplierReceipts.total_received sr) = Ok t).
Proof.
  intros Hcp Hcr Hsp Hsr. split; [|split; [|split]].
  - destruct (get_customer_payments_Ok _ Hcp) as (total & Hsum & _ & Htot).
    destruct (formatted_total_reads_back _ Hsum) as (t & -> & Hback & Hval).
    exists t. rewrite Htot. repeat split; assumption.
  - destruct (get_customer_refunds_Ok _ Hcr) as (total & Hsum & _ & Htot).
    destruct (formatted_total_reads_back _ Hsum) as (t & -> & Hback & Hval).
    exists t. rewrite Htot. repeat split; assumption.
  - apply try_except_Ok in Hsp; [|intros e; eexists; reflexivity].
    cbv zeta in Hsp.
    destruct (for_each (query_purchases db) ([], Decimal_0) _)
      as [[items total]|] eqn:E; [|discriminate Hsp].
    cbn [bind] in Hsp. injection Hsp as <-.
    destruct (supplier_payment_loop _ _ _ _ E) as (amounts & Hsum & Hmap).
    exists amounts, total. cbn [SupplierPayments.supplier_payments
                                SupplierPayments.total_paid].
    split; [exact Hsum|]. split; [exact Hmap|]. split; [reflexivity|].
    apply Decimal_str_roundtrip.
  - unfold get_supplier_receipts, try_except in Hsr.
    destruct (supplier_receipts_body db) as [r|e] eqn:E.
    + right. injection Hsr as <-. unfold supplier_receipts_body in E.
      destruct (supplier_returns db) as [table|]; [|discriminate E].
      cbn [bind] in E. rewrite receipt_loop in E.
      destruct (Decimal_sum Decimal_0
                  (map receipt_amount (query_receipts db table)))
        as [t|] eqn:Es; [|discriminate E].
      cbn [bind] in E. injection E as <-.
      exists table, t. cbn [SupplierReceipts.total_received].
      split; [reflexivity|]. split; [exact Es|]. split; [reflexivity|].
      apply Decimal_str_roundtrip.
    + left. injection Hsr as <-. reflexivity.
Qed.

End Supplier_totals.

(** A payment of 0.125 and a supplier refund of 0.005.  The running total of
    [get_customer_payments] is 0.125 but the total it returns is "0.12",
    which reads back as a different value; [get_cashflow_summary] adds
    0.005 to that and reports an inflow of "0.12", where the unrounded
    totals add up to 0.130, shown as "0.13". *)
Lemma C5_customer_total_is_rounded_before_summing :
  exists cp s back,
    get_customer_payments db_three_places_both = Ok cp
    /\ Decimal_sum Decimal_0
         (map Finite (customer_payment_amounts db_three_places_both))
       = Ok (Finite (mkfinite false 125 (-3)))
    /\ CustomerPayments.total_received cp = txt "0.12"
    /\ Decimal_of_text (CustomerPayments.total_received cp) = Ok (Finite back)
    /\ ~ (value back == value (mkfinite false 125 (-3)))%Q
    /\ get_cashflow_summary json_loads_examples from_sequence_examples
         db_three_places_both = Ok s
    /\ Summary.total_inflow (Summary.cash_inflow s) = txt "0.12"
    /\ Decimal_add (Finite (mkfinite false 125 (-3)))
         (Finite (mkfinite false 5 (-3)))
       = Ok (Finite (mkfinite false 130 (-3)))
    /\ format_2f (Finite (mkfinite false 130 (-3))) = txt "0.13".
Proof.
  eexists. eexists. eexists.
  split; [vm_compute; reflexivity|].
  split; [vm_compute; reflexivity|].
  split; [reflexivity|].
  split; [vm_compute; reflexivity|].
  split; [vm_compute; discriminate|].
  split; [vm_compute; reflexivity|].
  split; [reflexivity|].
  split; vm_compute; reflexivity.
Qed.

(** On the example store every amount has two places, and the totals read
    back as 155.50 and 40.00. *)
Lemma C5_witness :
  get_customer_payments db_shop = Ok shop_customer_payments
  /\ get_customer_refunds db_shop = Ok shop_customer_refunds
  /\ (exists t,
        Decimal_of_text (CustomerPayments.total_received shop_customer_payments)
        = Ok (Finite (_rescale t (-2)))
        /\ (value (_rescale t (-2)) == value t)%Q)
  /\ exists sp t,
       get_supplier_payments json_loads_examples from_sequence_examples db_shop
       = Ok sp
       /\ SupplierPayments.total_paid sp = Decimal_str t
       /\ Decimal_of_text (SupplierPayments.total_paid sp) = Ok t.
Proof.
  assert (Hcp : get_customer_payments db_shop = Ok shop_customer_payments)
    by (vm_compute; reflexivity).
  assert (Hcr : get_customer_refunds db_shop = Ok shop_customer_refunds)
    by (vm_compute; reflexivity).
  destruct (get_supplier_payments json_loads_examples from_sequence_examples
              db_shop) as [sp|e] eqn:Hsp; [|vm_compute in Hsp; discriminate Hsp].
  destruct (get_supplier_receipts db_shop) as [sr|e] eqn:Hsr;
    [|vm_compute in Hsr; discriminate Hsr].
  destruct (@C5_where_totals_are_rounded json_loads_examples
              from_sequence_examples db_shop _ _ _ _ Hcp Hcr Hsp Hsr)
    as ((t & _ & _ & Hback & Hval) & _ & (amounts & t' & _ & _ & Hstr & Hrt) & _).
  split; [exact Hcp|]. split; [exact Hcr|]. split.
  - exists t. split; [exact Hback|]. apply Hval.
    vm_compute. repeat constructor; discriminate.
  - exists sp, t'. repeat split; assumption.
Defined.

(* ================================================================== *)
(** ** get_cashflow_summary: the net and the position *)

Lemma format_decimal_text s d :
  Decimal_of_text s = Ok d -> format_decimal (inr s) = Ok (format_2f d).
Proof. intros H. unfold format_decimal, str. rewrite H. reflexivity. Qed.

(** The totals the customer operations return read back as finite numbers
    with two places. *)
Lemma customer_payments_total_reads_back db cp :
  get_customer_payments db = Ok cp ->
  exists q, Decimal_of_text (CustomerPayments.total_received cp)
            = Ok (Finite q) /\ d_exp q = -2.
Proof.
  intros H. destruct (get_customer_payments_Ok _ H) as (total & Hsum & _ & ->).
  destruct (formatted_total_reads_back _ Hsum) as (t & -> & Hback & _).
  exists (_rescale t (-2)). split; [exact Hback|apply rescale_exp].
Qed.

Lemma customer_refunds_total_reads_back db cr :
  get_customer_refunds db = Ok cr ->
  exists q, Decimal_of_text (CustomerRefunds.total_refunded cr)
            = Ok (Finite q) /\ d_exp q = -2.
Proof.
  intros H. destruct (get_customer_refunds_Ok _ H) as (total & Hsum & _ & ->).
  destruct (formatted_total_reads_back _ Hsum) as (t & -> & Hback & _).
  exists (_rescale t (-2)). split; [exact Hback|apply rescale_exp].
Qed.

Lemma exact_add_exp a b : d_exp (exact_add a b) = Z.min (d_exp a) (d_exp b).
Proof.
  unfold exact_add. cbv zeta.
  destruct (Bool.eqb (d_sign a) (d_sign b)); [reflexivity|].
  destruct (_ =? _)%N; [reflexivity|].
  destruct (_ <? _)%N; reflexivity.
Qed.

Lemma negate_exp f : d_exp (negate f) = d_exp f.
Proof. destruct f; reflexivity. Qed.

(** A number with at most two places is shown as it is. *)
Lemma format_2f_reads_as f :
  -2 <= d_exp f -> reads_as (format_2f (Finite f)) (value f).
Proof.
  intros H. exists (_rescale f (-2)). split.
  - apply (Decimal_of_format_2f (Finite f)).
  - apply value_rescale_2. exact H.
Qed.

Lemma reads_as_eq s q q' : reads_as s q -> (q == q')%Q -> reads_as s q'.
Proof.
  intros (f & Hf & Hv) Hq. exists f. split; [exact Hf|].
  rewrite Hv. exact Hq.
Qed.

(** The three-way test on a finite net follows the sign of the number it
    denotes; a zero of either sign is "Neutral". *)
Lemma classify_by_value f position :
  classify (Finite f) = Ok position ->
  ((0 < value f)%Q -> position = txt "Positive")
  /\ ((value f < 0)%Q -> position = txt "Negative")
  /\ ((value f == 0)%Q -> position = txt "Neutral").
Proof.
  unfold classify. cbn [Decimal_gt0 Decimal_lt0 bind]. unfold is_zero.
  destruct (N.eqb_spec (d_int f) 0) as [Hz|Hnz].
  - rewrite !andb_false_r. cbn [negb]. intros H. injection H as <-.
    pose proof (value_zero f Hz) as V.
    repeat split; intros; try reflexivity; lra.
  - destruct (d_sign f) eqn:Hs; cbn [negb andb]; intros H; injection H as <-.
    + pose proof (value_negative f Hs Hnz) as V.
      repeat split; intros; try reflexivity; lra.
    + pose proof (value_positive f Hs Hnz) as V.
      repeat split; intros; try reflexivity; lra.
Qed.

Section Summary_facts.

Variable json_loads : text -> option json.
Variable Decimal_from_sequence : list json -> result Decimal.

(** The figures of the summary: how the net and the position come about. *)
Lemma get_cashflow_summary_net (db : Database) (r : Summary.t) :
  get_cashflow_summary json_loads Decimal_from_sequence db = Ok r ->
  exists cp sr cr sp d_cp d_sr d_cr d_sp total_inflow total_outflow net,
    get_customer_payments db = Ok cp
    /\ get_supplier_receipts db = Ok sr
    /\ get_customer_refunds db = Ok cr
    /\ get_supplier_payments json_loads Decimal_from_sequence db = Ok sp
    /\ Decimal_of_text (CustomerPayments.total_received cp) = Ok d_cp
    /\ Decimal_of_text (SupplierReceipts.total_received sr) = Ok d_sr
    /\ Decimal_of_text (CustomerRefunds.total_refunded cr) = Ok d_cr
    /\ Decimal_of_text (SupplierPayments.total_paid sp) = Ok d_sp
    /\ Decimal_add d_cp d_sr = Ok total_inflow
    /\ Decimal_add d_cr d_sp = Ok total_outflow
    /\ Decimal_sub total_inflow total_outflow = Ok net
    /\ Summary.total_inflow (Summary.cash_inflow r) = format_2f total_inflow
    /\ Summary.total_outflow (Summary.cash_outflow r)
       = format_2f total_outflow
    /\ Summary.supplier_payments (Summary.cash_outflow r) = format_2f d_sp
    /\ Summary.net_cashflow r = format_2f net
    /\ classify net = Ok (Summary.cash_position (Summary.summary r)).
Proof.
  intros H. apply try_except_Ok in H; [|intros e; eexists; reflexivity].
  destruct (get_customer_payments db) as [cp|] eqn:Ecp;
    cbn [bind] in H; [|discriminate H].
  destruct (get_supplier_receipts db) as [sr|] eqn:Esr;
    cbn [bind] in H; [|discriminate H].
  destruct (Decimal_of_text (CustomerPayments.total_received cp))
    as [d_cp|] eqn:Edcp; cbn [bind] in H; [|discriminate H].
  destruct (Decimal_of_text (SupplierReceipts.total_received sr))
    as [d_sr|] eqn:Edsr; cbn [bind] in H; [|discriminate H].
  destruct (Decimal_add d_cp d_sr) as [total_inflow|] eqn:Ein;
    cbn [bind] in H; [|discriminate H].
  destruct (get_customer_refunds db) as [cr|] eqn:Ecr;
    cbn [bind] in H; [|discriminate H].
  destruct (get_supplier_payments json_loads Decimal_from_sequence db)
    as [sp|] eqn:Esp; cbn [bind] in H; [|discriminate H].
  destruct (Decimal_of_text (CustomerRefunds.total_refunded cr))
    as [d_cr|] eqn:Edcr; cbn [bind] in H; [|discriminate H].
  destruct (Decimal_of_text (SupplierPayments.total_paid sp))
    as [d_sp|] eqn:Edsp; cbn [bind] in H; [|discriminate H].
  destruct (Decimal_add d_cr d_sp) as [total_outflow|] eqn:Eout;
    cbn [bind] in H; [|discriminate H].
  destruct (Decimal_sub total_inflow total_outflow) as [net|] eqn:Enet;
    cbn [bind] in H; [|discriminate H].
  rewrite !format_decimal_Decimal in H.
  rewrite (format_decimal_text _ Edcp), (format_decimal_text _ Edsr),
    (format_decimal_text _ Edcr), (format_decimal_text _ Edsp) in H.
  cbn [bind] in H.
  destruct (classify net) as [position|] eqn:Epos;
    cbn [bind] in H; [|discriminate H].
  injection H as <-.
  exists cp, sr, cr, sp, d_cp, d_sr, d_cr, d_sp, total_inflow, total_outflow,
    net.
  repeat (split; [reflexivity || assumption|]). exact Epos.
Qed.

(** C2. Whenever [get_cashflow_summary] returns, the four totals it reads
    back from the base results are finite and none of its three
    operations exceeds the decimal context: [total_inflow] shows the
    customer-payments total plus the supplier-receipts total,
    [total_outflow] shows the customer-refunds total plus the
    supplier-payments total and [net_cashflow] shows the first less the
    second, each rounded to two decimals on its own; [cash_position] is
    "Positive", "Negative" or "Neutral" as that unrounded net is above,
    below or equal to zero.  When the two supplier totals have at most two
    decimals, the three figures are shown as they are: the net shown is
    the inflow shown less the outflow shown, and the position is the sign
    of the net shown. *)
Theorem C2_summary_net_and_position (db : Database) (r : Summary.t)
  (cp : CustomerPayments.t) (sr : SupplierReceipts.t)
  (cr : CustomerRefunds.t) (sp : SupplierPayments.t)
  (x_cp x_sr x_cr x_sp : finite) :
  get_cashflow_summary json_loads Decimal_from_sequence db = Ok r ->
  get_customer_payments db = Ok cp ->
  get_supplier_receipts db = Ok sr ->
  get_customer_refunds db = Ok cr ->
  get_supplier_payments json_loads Decimal_from_sequence db = Ok sp ->
  Decimal_of_text (CustomerPayments.total_received cp) = Ok (Finite x_cp) ->
  Decimal_of_text (SupplierReceipts.total_received sr) = Ok (Finite x_sr) ->
  Decimal_of_text (CustomerRefunds.total_refunded cr) = Ok (Finite x_cr) ->
  Decimal_of_text (SupplierPayments.total_paid sp) = Ok (Finite x_sp) ->
  representable (exact_add x_cp x_sr) ->
  representable (exact_add x_cr x_sp) ->
  representable (exact_net x_cp x_sr x_cr x_sp) ->
  Summary.total_inflow (Summary.cash_inflow r)
  = format_2f (Finite (exact_add x_cp x_sr))
  /\ Summary.total_outflow (Summary.cash_outflow r)
     = format_2f (Finite (exact_add x_cr x_sp))
  /\ Summary.net_cashflow r
     = format_2f (Finite (exact_net x_cp x_sr x_cr x_sp))
  /\ (value (exact_add x_cp x_sr) == value x_cp + value x_sr)%Q
  /\ (value (exact_add x_cr x_sp) == value x_cr + value x_sp)%Q
  /\ (value (exact_net x_cp x_sr x_cr x_sp)
      == value x_cp + value x_sr - (value x_cr + value x_sp))%Q
  /\ ((0 < value x_cp + value x_sr - (value x_cr + value x_sp))%Q ->
      Summary.cash_position (Summary.summary r) = txt "Positive")
  /\ ((value x_cp + value x_sr - (value x_cr + value x_sp) < 0)%Q ->
      Summary.cash_position (Summary.summary r) = txt "Negative")
  /\ ((value x_cp + value x_sr - (value x_cr + value x_sp) == 0)%Q ->
      Summary.cash_position (Summary.summary r) = txt "Neutral")
  /\ (-2 <= d_exp x_sr -> -2 <= d_exp x_sp ->
      reads_as (Summary.total_inflow (Summary.cash_inflow r))
        (value x_cp + value x_sr)
      /\ reads_as (Summary.total_outflow (Summary.cash_outflow r))
           (value x_cr + value x_sp)
      /\ reads_as (Summary.net_cashflow r)
           (value x_cp + value x_sr - (value x_cr + value x_sp))).
Proof.
  intros H Hcp Hsr Hcr Hsp Ecp Esr Ecr Esp Rin Rout Rnet.
  destruct (get_cashflow_summary_net _ H)
    as (cp' & sr' & cr' & sp' & d_cp & d_sr & d_cr & d_sp & tin & tout & net
        & Hcp' & Hsr' & Hcr' & Hsp' & Edcp & Edsr & Edcr & Edsp & Ein & Eout
        & Enet & Hin & Hout & _ & Hnet & Hpos).
  rewrite Hcp in Hcp'. injection Hcp' as <-.
  rewrite Hsr in Hsr'. injection Hsr' as <-.
  rewrite Hcr in Hcr'. injection Hcr' as <-.
  rewrite Hsp in Hsp'. injection Hsp' as <-.
  rewrite Ecp in Edcp. injection Edcp as <-.
  rewrite Esr in Edsr. injection Edsr as <-.
  rewrite Ecr in Edcr. injection Edcr as <-.
  rewrite Esp in Edsp. injection Edsp as <-.
  rewrite Decimal_add_finite, (finite_add_exact _ _ Rin) in Ein.
  cbn [bind] in Ein. injection Ein as <-.
  rewrite Decimal_add_finite, (finite_add_exact _ _ Rout) in Eout.
  cbn [bind] in Eout. injection Eout as <-.
  change (Decimal_sub (Finite (exact_add x_cp x_sr))
            (Finite (exact_add x_cr x_sp)))
    with (n <- finite_add (exact_add x_cp x_sr)
                 (negate (exact_add x_cr x_sp)) ;; Ok (Finite n)) in Enet.
  unfold exact_net in Rnet.
  rewrite (finite_add_exact _ _ Rnet) in Enet.
  cbn [bind] in Enet. injection Enet as <-.
  fold (exact_net x_cp x_sr x_cr x_sp) in Hnet, Hpos.
  assert (Vin : (value (exact_add x_cp x_sr) == value x_cp + value x_sr)%Q)
    by apply value_exact_add.
  assert (Vout : (value (exact_add x_cr x_sp) == value x_cr + value x_sp)%Q)
    by apply value_exact_add.
  assert (Vnet : (value (exact_net x_cp x_sr x_cr x_sp)
                  == value x_cp + value x_sr - (value x_cr + value x_sp))%Q).
  { unfold exact_net. rewrite value_exact_add, value_negate, Vin, Vout.
    ring. }
  destruct (classify_by_value _ Hpos) as (Ppos & Pneg & Pzero).
  do 3 (split; [assumption|]).
  do 3 (split; [assumption|]).
  split; [intros V; apply Ppos; rewrite Vnet; exact V|].
  split; [intros V; apply Pneg; rewrite Vnet; exact V|].
  split; [intros V; apply Pzero; rewrite Vnet; exact V|].
  intros Psr Psp.
  destruct (customer_payments_total_reads_back _ Hcp) as (q_cp & Eq & Pcp).
  rewrite Ecp in Eq. injection Eq as <-.
  destruct (customer_refunds_total_reads_back _ Hcr) as (q_cr & Eq & Pcr).
  rewrite Ecr in Eq. injection Eq as <-.
  rewrite Hin, Hout, Hnet.
  split; [|split].
  - apply reads_as_eq with (q := value (exact_add x_cp x_sr)); [|exact Vin].
    apply format_2f_reads_as. rewrite exact_add_exp. lia.
  - apply reads_as_eq with (q := value (exact_add x_cr x_sp)); [|exact Vout].
    apply format_2f_reads_as. rewrite exact_add_exp. lia.
  - apply reads_as_eq with (q := value (exact_net x_cp x_sr x_cr x_sp));
      [|exact Vnet].
    apply format_2f_reads_as. unfold exact_net.
    rewrite !exact_add_exp, negate_exp, exact_add_exp. lia.
Qed.

End Summary_facts.

(** Where an amount has three decimals the figures shown do not add up.
    With 0.01 received and 0.011 paid to a supplier the summary shows an
    inflow of "0.01", an outflow of "0.01", a net of "-0.00" and the
    position "Negative": the net shown reads as zero, yet the position is
    not "Neutral".  With 0.01 and 0.006 received and 0.012 paid it shows
    "0.02", "0.01", a net of "0.00" and the position "Positive": the net
    shown is not the inflow shown less the outflow shown. *)
Lemma C2_shown_figures_do_not_add_up :
  (exists r,
     get_cashflow_summary json_loads_thousandths from_sequence_examples
       db_net_below_a_cent = Ok r
     /\ Summary.total_inflow (Summary.cash_inflow r) = txt "0.01"
     /\ Summary.total_outflow (Summary.cash_outflow r) = txt "0.01"
     /\ Summary.net_cashflow r = txt "-0.00"
     /\ reads_as (Summary.net_cashflow r) 0
     /\ Summary.cash_position (Summary.summary r) = txt "Negative")
  /\ (exists r,
        get_cashflow_summary json_loads_thousandths from_sequence_examples
          db_net_rounds_to_zero = Ok r
        /\ Summary.total_inflow (Summary.cash_inflow r) = txt "0.02"
        /\ Summary.total_outflow (Summary.cash_outflow r) = txt "0.01"
        /\ Summary.net_cashflow r = txt "0.00"
        /\ reads_as (Summary.total_inflow (Summary.cash_inflow r)) (2 # 100)
        /\ reads_as (Summary.total_outflow (Summary.cash_outflow r))
             (1 # 100)
        /\ reads_as (Summary.net_cashflow r) 0
        /\ ~ ((2 # 100) - (1 # 100) == 0)%Q
        /\ Summary.cash_position (Summary.summary r) = txt "Positive").
Proof.
  split.
  - eexists. split; [vm_compute; reflexivity|].
    do 3 (split; [reflexivity|]).
    split; [|reflexivity].
    eexists. split; [vm_compute; reflexivity|reflexivity].
  - eexists. split; [vm_compute; reflexivity|].
    do 3 (split; [reflexivity|]).
    split; [eexists; split; [vm_compute; reflexivity|reflexivity]|].
    split; [eexists; split; [vm_compute; reflexivity|reflexivity]|].
    split; [eexists; split; [vm_compute; reflexivity|reflexivity]|].
    split; [discriminate|reflexivity].
Qed.

Lemma representable_shop_totals :
  representable (exact_add (money 15550) (money 1500))
  /\ representable (exact_add (money 1700) (money 4000))
  /\ representable
       (exact_net (money 15550) (money 1500) (money 1700) (money 4000)).
Proof. vm_compute. repeat split; discriminate. Qed.

(** On the example store, whose amounts all have two decimals, 155.50 and
    15.00 came in and 17.00 and 40.00 went out: the summary shows an inflow
    of 170.50, an outflow of 57.00, a net of 113.50 that reads as the
    difference of the four totals, and the position "Positive". *)
Lemma C2_witness :
  exists r,
    get_cashflow_summary json_loads_examples from_sequence_examples db_shop
    = Ok r
    /\ Summary.total_inflow (Summary.cash_inflow r) = txt "170.50"
    /\ Summary.total_outflow (Summary.cash_outflow r) = txt "57.00"
    /\ Summary.net_cashflow r = txt "113.50"
    /\ reads_as (Summary.net_cashflow r)
         (value (money 15550) + value (money 1500)
          - (value (money 1700) + value (money 4000)))
    /\ Summary.cash_position (Summary.summary r) = txt "Positive".
Proof.
  destruct (get_cashflow_summary json_loads_examples from_sequence_examples
              db_shop) as [r|e] eqn:E; [|vm_compute in E; discriminate E].
  exists r. split; [reflexivity|].
  destruct (get_supplier_payments json_loads_examples from_sequence_examples
              db_shop) as [sp|e] eqn:Hsp; [|vm_compute in Hsp; discriminate Hsp].
  destruct (get_supplier_receipts db_shop) as [sr|e] eqn:Hsr;
    [|vm_compute in Hsr; discriminate Hsr].
  assert (Hcp : get_customer_payments db_shop = Ok shop_customer_payments)
    by (vm_compute; reflexivity).
  assert (Hcr : get_customer_refunds db_shop = Ok shop_customer_refunds)
    by (vm_compute; reflexivity).
  assert (Ecp : Decimal_of_text
                  (CustomerPayments.total_received shop_customer_payments)
                = Ok (Finite (money 15550))) by (vm_compute; reflexivity).
  assert (Ecr : Decimal_of_text
                  (CustomerRefunds.total_refunded shop_customer_refunds)
                = Ok (Finite (money 1700))) by (vm_compute; reflexivity).
  assert (Esr : Decimal_of_text (SupplierReceipts.total_received sr)
                = Ok (Finite (money 1500))).
  { vm_compute in Hsr. injection Hsr as <-. vm_compute. reflexivity. }
  assert (Esp : Decimal_of_text (SupplierPayments.total_paid sp)
                = Ok (Finite (money 4000))).
  { vm_compute in Hsp. injection Hsp as <-. vm_compute. reflexivity. }
  destruct representable_shop_totals as (Rin & Rout & Rnet).
  destruct (@C2_summary_net_and_position _ _ _ _ _ _ _ _ _ _ _ _
              E Hcp Hsr Hcr Hsp Ecp Esr Ecr Esp Rin Rout Rnet)
    as (Hin & Hout & Hnet & _ & _ & _ & Hpos & _ & _ & Hshown).
  destruct (Hshown ltac:(cbn; lia) ltac:(cbn; lia)) as (_ & _ & Hreads).
  split; [rewrite Hin; vm_compute; reflexivity|].
  split; [rewrite Hout; vm_compute; reflexivity|].
  split; [rewrite Hnet; vm_compute; reflexivity|].
  split; [exact Hreads|].
  apply Hpos. vm_compute. reflexivity.
Defined.

(* ================================================================== *)
(** ** format_decimal: the text it produces and how far it rounds *)

(** The last two digits of a number, as ["%02d"] prints its remainder. *)
Lemma pad_2_mod_100 c :
  pad 2 (c mod 100)
  = [digit_char ((c / 10) mod 10); digit_char (c mod 10)]%N.
Proof.
  assert (Hlt : (c mod 100 < 100)%N) by (apply N.mod_lt; lia).
  assert (Hq : ((c mod 100) / 10 = (c / 10) mod 10)%N).
  { change 100%N with (10 * 10)%N. rewrite (N.Div0.mod_mul_r c 10 10).
    rewrite N.mul_comm, N.div_add by lia.
    rewrite N.div_small by (apply N.mod_lt; lia). reflexivity. }
  assert (Hr : ((c mod 100) mod 10 = c mod 10)%N).
  { change 100%N with (10 * 10)%N. rewrite (N.Div0.mod_mul_r c 10 10).
    rewrite N.mul_comm, N.Div0.mod_add, N.Div0.mod_mod. reflexivity. }
  unfold pad. destruct (N.ltb_spec (c mod 100) 10) as [Hs|Hb].
  - rewrite str_N_small by exact Hs.
    assert (E0 : ((c / 10) mod 10 = 0)%N)
      by (rewrite <- Hq; apply N.div_small; exact Hs).
    rewrite E0. rewrite <- Hr. rewrite (N.mod_small (c mod 100) 10) by exact Hs.
    reflexivity.
  - rewrite str_N_big by exact Hb.
    rewrite str_N_small by (apply N.Div0.div_lt_upper_bound; lia).
    rewrite Hq, Hr. reflexivity.
Qed.

(** The digits of a number of three digits or more: those of its hundreds,
    then its last two. *)
Lemma str_N_hundreds c :
  (100 <= c)%N -> str_N c = str_N (c / 100) ++ pad 2 (c mod 100).
Proof.
  intros H. rewrite pad_2_mod_100.
  rewrite (@str_N_big c) by lia.
  rewrite (@str_N_big (c / 10)).
  2:{ apply N.div_le_lower_bound; lia. }
  rewrite N.Div0.div_div. change (10 * 10)%N with 100%N.
  rewrite <- app_assoc. reflexivity.
Qed.

Lemma format_2f_hundredths sg c :
  format_2f (Finite (mkfinite sg c (-2)))
  = sign_str sg ++ str_N (c / 100) ++ txt "." ++ pad 2 (c mod 100).
Proof.
  unfold format_2f. rewrite (rescale_same_exp sg c (-2)).
  cbn [d_sign d_int d_exp].
  destruct (N.ltb_spec c 100) as [Hsmall|Hbig].
  - rewrite (N.div_small c 100), (N.mod_small c 100) by exact Hsmall.
    destruct (N.ltb_spec c 10) as [H1|H2].
    + unfold pad. rewrite (str_N_small H1). reflexivity.
    + unfold pad. rewrite (str_N_big H2).
      rewrite (@str_N_small (c / 10))
        by (apply N.Div0.div_lt_upper_bound; lia).
      reflexivity.
  - rewrite (str_N_hundreds Hbig).
    pose proof (@str_N_nonempty (c / 100)) as Hne.
    pose proof (ndigits_pos (c / 100)) as Hpos. unfold ndigits in Hpos.
    set (I := str_N (c / 100)) in *.
    assert (Hlen : len (pad 2 (c mod 100)) = 2)
      by (rewrite pad_2_mod_100; reflexivity).
    rewrite len_app, Hlen.
    replace (-2 + (len I + 2)) with (len I) by lia.
    destruct (Z.ltb_spec (len I) 0) as [Hneg|_]; [lia|].
    unfold take, drop, len. rewrite Nat2Z.id.
    rewrite firstn_app, Nat.sub_diag, firstn_all, firstn_O, app_nil_r.
    rewrite skipn_app, Nat.sub_diag, skipn_all, skipn_O, app_nil_l.
    destruct I as [|x xs]; [contradiction|reflexivity].
Qed.

(** Dropping the low digits with half-even rounding moves the coefficient
    by at most half a unit of the digit kept. *)
Lemma round_half_even_near c k :
  let res := fst (round_half_even c k) in
  2 * Z.abs (Z.of_N res * Z.of_N (pow10 k) - Z.of_N c) <= Z.of_N (pow10 k).
Proof.
  unfold round_half_even. cbv zeta.
  pose proof (pow10_pos k) as Hp.
  set (p := pow10 k) in *.
  pose proof (N.Div0.div_mod c p) as Hdm.
  pose proof (N.mod_lt c p ltac:(lia)) as Hr.
  set (q := (c / p)%N) in *. set (r := (c mod p)%N) in *.
  assert (Ec : Z.of_N c = Z.of_N p * Z.of_N q + Z.of_N r) by lia.
  destruct (N.ltb_spec p (2 * r)) as [H1|H1]; cbn [orb fst].
  - rewrite N2Z.inj_add. change (Z.of_N 1) with 1. nia.
  - destruct (N.eqb_spec p (2 * r)) as [H2|H2]; cbn [andb].
    + destruct (N.odd q); cbn [fst].
      * rewrite N2Z.inj_add. change (Z.of_N 1) with 1. nia.
      * nia.
    + nia.
Qed.

(** On an exact tie the digit kept is even. *)
Lemma round_half_even_tie c k :
  let res := fst (round_half_even c k) in
  2 * Z.abs (Z.of_N res * Z.of_N (pow10 k) - Z.of_N c) = Z.of_N (pow10 k) ->
  N.even res = true.
Proof.
  unfold round_half_even. cbv zeta.
  pose proof (pow10_pos k) as Hp.
  set (p := pow10 k) in *.
  pose proof (N.Div0.div_mod c p) as Hdm.
  pose proof (N.mod_lt c p ltac:(lia)) as Hr.
  set (q := (c / p)%N) in *. set (r := (c mod p)%N) in *.
  assert (Ec : Z.of_N c = Z.of_N p * Z.of_N q + Z.of_N r) by lia.
  destruct (N.ltb_spec p (2 * r)) as [H1|H1]; cbn [orb fst].
  - rewrite N2Z.inj_add. change (Z.of_N 1) with 1. intros H. nia.
  - destruct (N.eqb_spec p (2 * r)) as [H2|H2]; cbn [andb].
    + destruct (N.odd q) eqn:Eodd; cbn [fst]; intros _.
      * rewrite N.add_1_r, N.even_succ. exact Eodd.
      * rewrite <- N.negb_odd, Eodd. reflexivity.
    + intros H. exfalso. apply H2. nia.
Qed.

(** The value of a number rounded to two places, next to the value of the
    number: the difference is a whole number of units of the lower
    exponent. *)
Lemma value_rescale_2_diff f :
  d_exp f < -2 -> is_zero f = false ->
  let res := fst (round_half_even (d_int f) (-2 - d_exp f)) in
  let d := Z.of_N res * Z.of_N (pow10 (-2 - d_exp f)) - Z.of_N (d_int f) in
  (Qabs (value (_rescale f (-2)) - value f)
   == inject_Z (Z.abs d) * (10 # 1) ^ d_exp f)%Q.
Proof.
  intros He Hz res d. unfold _rescale. rewrite Hz.
  destruct (Z.leb_spec (-2) (d_exp f)) as [|_]; [lia|].
  fold res. unfold value, signed. cbn [d_sign d_int d_exp].
  assert (Hal : forall z,
    (inject_Z z * (10 # 1) ^ (-2)
     == inject_Z (z * Z.of_N (pow10 (-2 - d_exp f))) * (10 # 1) ^ d_exp f)%Q).
  { intros z. rewrite pow10_Z by lia. symmetry. apply value_align. lia. }
  rewrite Hal.
  assert (Hd : forall a b : Z,
    (inject_Z a * (10 # 1) ^ d_exp f - inject_Z b * (10 # 1) ^ d_exp f
     == inject_Z (a - b) * (10 # 1) ^ d_exp f)%Q).
  { intros a b. unfold Z.sub. rewrite inject_Z_plus, inject_Z_opp. ring. }
  rewrite Hd, Qabs_Qmult.
  rewrite (Qabs_pos ((10 # 1) ^ d_exp f))
    by (apply Qlt_le_weak, ten_pow_pos).
  apply Qmult_comp; [|reflexivity].
  assert (Habs : forall z, (Qabs (inject_Z z) == inject_Z (Z.abs z))%Q)
    by (intros z; symmetry; apply (Zabs_Qabs z 1)).
  rewrite Habs. apply inject_Z_injective.
  destruct (d_sign f).
  - replace (- Z.of_N res * Z.of_N (pow10 (-2 - d_exp f)) - - Z.of_N (d_int f))
      with (- d) by (unfold d; ring).
    rewrite Z.abs_opp. reflexivity.
  - reflexivity.
Qed.

Lemma half_cent e :
  e < -2 ->
  (inject_Z (Z.of_N (pow10 (-2 - e))) * (10 # 1) ^ e == 1 # 100)%Q.
Proof.
  intros He. rewrite pow10_Z by lia.
  rewrite <- (Z.mul_1_l (10 ^ (-2 - e))).
  rewrite value_align by lia. reflexivity.
Qed.

(** X1. [format_decimal] shows a finite decimal as an optional minus sign,
    the whole part without leading zeros, a point and exactly two fraction
    digits: the digits are those of the number rounded to hundredths.  A
    negative number keeps its sign even when it rounds to zero. *)
Theorem format_decimal_two_places (f : finite) :
  let c := d_int (_rescale f (-2)) in
  format_decimal (inl (Finite f))
  = Ok (sign_str (d_sign f) ++ str_N (c / 100) ++ txt "."
        ++ pad 2 (c mod 100))
  /\ len (pad 2 (c mod 100)) = 2
  /\ all_digits (pad 2 (c mod 100)) = true.
Proof.
  intros c. split; [|split].
  - rewrite format_decimal_Decimal, <- format_2f_rescale.
    rewrite (rescale_2_shape f). fold c. f_equal. apply format_2f_hundredths.
  - rewrite pad_2_mod_100. reflexivity.
  - apply pad_all_digits.
Qed.

(** X2. The text [format_decimal] returns for a finite decimal reads back
    as a number with two places that differs from the input by at most
    0.005; it is the input itself when the input has at most two places,
    and on an exact tie the last digit kept is even. *)
Theorem format_decimal_rounds_within_half_cent (f : finite) :
  exists s g,
    format_decimal (inl (Finite f)) = Ok s
    /\ Decimal_of_text s = Ok (Finite g)
    /\ d_exp g = -2
    /\ (Qabs (value g - value f) <= 1 # 200)%Q
    /\ (-2 <= d_exp f -> (value g == value f)%Q)
    /\ ((Qabs (value g - value f) == 1 # 200)%Q -> N.even (d_int g) = true).
Proof.
  exists (format_2f (Finite f)), (_rescale f (-2)).
  split; [apply format_decimal_Decimal|].
  split; [apply (Decimal_of_format_2f (Finite f))|].
  split; [apply rescale_exp|].
  destruct (Z.le_gt_cases (-2) (d_exp f)) as [Hle|Hgt].
  { pose proof (value_rescale_2 f Hle) as Hv.
    split; [|split].
    - rewrite Hv. setoid_replace (value f - value f)%Q with 0%Q by ring.
      discriminate.
    - intros _. exact Hv.
    - intros Habs. exfalso. rewrite Hv in Habs.
      setoid_replace (value f - value f)%Q with 0%Q in Habs by ring.
      discriminate Habs. }
  destruct (is_zero f) eqn:Hz.
  { assert (Hv : (value (_rescale f (-2)) == value f)%Q).
    { unfold _rescale. rewrite Hz. unfold is_zero in Hz.
      apply N.eqb_eq in Hz. unfold value, signed. cbn [d_sign d_int d_exp].
      rewrite Hz. destruct (d_sign f); simpl; ring. }
    split; [|split].
    - rewrite Hv. setoid_replace (value f - value f)%Q with 0%Q by ring.
      discriminate.
    - intros H. lia.
    - intros Habs. exfalso. rewrite Hv in Habs.
      setoid_replace (value f - value f)%Q with 0%Q in Habs by ring.
      discriminate Habs. }
  pose proof (value_rescale_2_diff f ltac:(lia) Hz) as Hdiff. cbv zeta in Hdiff.
  pose proof (round_half_even_near (d_int f) (-2 - d_exp f)) as Hnear.
  pose proof (round_half_even_tie (d_int f) (-2 - d_exp f)) as Htie.
  cbv zeta in Hnear, Htie.
  set (res := fst (round_half_even (d_int f) (-2 - d_exp f))) in *.
  set (d := Z.abs (Z.of_N res * Z.of_N (pow10 (-2 - d_exp f))
                   - Z.of_N (d_int f))) in *.
  pose proof (half_cent Hgt) as Hhalf.
  pose proof (ten_pow_pos (d_exp f)) as Hpos.
  assert (Htwice : forall x : Q,
    (inject_Z (2 * d) * (10 # 1) ^ d_exp f == (2 # 1) * (inject_Z d * (10 # 1) ^ d_exp f))%Q).
  { intros _. rewrite inject_Z_mult. change (inject_Z 2) with (2 # 1). ring. }
  split; [|split].
  - rewrite Hdiff.
    apply (Qmult_le_l _ _ (2 # 1)); [reflexivity|].
    rewrite <- (Htwice 0%Q).
    setoid_replace ((2 # 1) * (1 # 200))%Q with (1 # 100)%Q by reflexivity.
    rewrite <- Hhalf. apply Qmult_le_compat_r; [|apply Qlt_le_weak, Hpos].
    rewrite <- Zle_Qle. exact Hnear.
  - intros H. lia.
  - intros Habs. rewrite Hdiff in Habs.
    assert (E : (inject_Z (2 * d) * (10 # 1) ^ d_exp f
                 == inject_Z (Z.of_N (pow10 (-2 - d_exp f)))
                    * (10 # 1) ^ d_exp f)%Q).
    { rewrite (Htwice 0%Q), Habs, Hhalf. reflexivity. }
    assert (Hnz : ~ ((10 # 1) ^ d_exp f == 0)%Q).
    { intros H0. rewrite H0 in Hpos. discriminate Hpos. }
    apply (proj1 (Qmult_inj_r _ _ _ Hnz)) in E.
    apply (proj1 (inject_Z_injective _ _)) in E.
    assert (Hres : d_int (_rescale f (-2)) = res).
    { unfold _rescale. rewrite Hz.
      destruct (Z.leb_spec (-2) (d_exp f)); [lia|reflexivity]. }
    rewrite Hres. apply Htie. exact E.
Qed.

(** 0.125 is shown as "0.12": the tie goes to the even digit, half a cent
    away. *)
Lemma format_decimal_rounds_within_half_cent_witness :
  format_decimal (inl (Finite (mkfinite false 125 (-3)))) = Ok (txt "0.12")
  /\ exists s g,
       format_decimal (inl (Finite (mkfinite false 125 (-3)))) = Ok s
       /\ Decimal_of_text s = Ok (Finite g)
       /\ (Qabs (value g - value (mkfinite false 125 (-3))) <= 1 # 200)%Q.
Proof.
  split; [vm_compute; reflexivity|].
  destruct (format_decimal_rounds_within_half_cent (mkfinite false 125 (-3)))
    as (s & g & Hs & Hg & _ & Hnear & _).
  exists s, g. repeat split; assumption.
Defined.

(* ================================================================== *)
(** ** get_customer_payments: which payments are listed, and their keys *)

Lemma regular_item_type pc :
  PaymentItem.payment_type (regular_item_of pc) = txt "regular_payment".
Proof. reflexivity. Qed.

Lemma adjustment_item_type db x :
  PaymentItem.payment_type (adjustment_item_of db x) = txt "adjustment_payment".
Proof. reflexivity. Qed.

Lemma same_payment db a b :
  unique_ids (map Payment.id (payments db)) = true ->
  In a (payments db) -> In b (payments db) ->
  Payment.id a = Payment.id b -> a = b.
Proof.
  intros Hu. apply NoDup_map_inj. apply unique_ids_NoDup. exact Hu.
Qed.

(** X3. The regular items of [get_customer_payments] are exactly the
    Payment rows with status "Successful" or "Partially Paid" and
    [amount_paid > 0] whose customer exists, each shown with its own status,
    date and amount; a payment with another status, or with an amount that
    is null, zero or negative, is not listed. *)
Theorem regular_payments_are_the_settled_ones
  (db : Database) (r : CustomerPayments.t) :
  get_customer_payments db = Ok r ->
  (forall item,
     In item (CustomerPayments.customer_payments r) ->
     PaymentItem.payment_type item = txt "regular_payment" ->
     exists payment customer,
       In payment (payments db) /\ In customer (customers db)
       /\ Payment.customer_id payment = Customer.id customer
       /\ in_ (Payment.payment_status payment)
              [txt "Successful"; txt "Partially Paid"] = true
       /\ sql_gt0 (Payment.amount_paid payment) = true
       /\ item = regular_payment_item payment customer
                   (format_2f (Decimal_or_0 (Payment.amount_paid payment))))
  /\ (forall payment customer,
        In payment (payments db) -> In customer (customers db) ->
        Payment.customer_id payment = Customer.id customer ->
        in_ (Payment.payment_status payment)
            [txt "Successful"; txt "Partially Paid"] = true ->
        sql_gt0 (Payment.amount_paid payment) = true ->
        In (regular_payment_item payment customer
              (format_2f (Decimal_or_0 (Payment.amount_paid payment))))
           (CustomerPayments.customer_payments r))
  /\ (forall payment,
        In payment (payments db) ->
        unique_ids (map Payment.id (payments db)) = true ->
        in_ (Payment.payment_status payment)
            [txt "Successful"; txt "Partially Paid"] = false
        \/ sql_gt0 (Payment.amount_paid payment) = false ->
        forall item,
          In item (CustomerPayments.customer_payments r) ->
          PaymentItem.payment_id item <> JInt (Payment.id payment)).
Proof.
  intros Hok.
  destruct (get_customer_payments_Ok _ Hok) as (total & _ & Hitems & _).
  rewrite Hitems. split; [|split].
  - intros item Hin Htype. apply in_app_or in Hin. destruct Hin as [Hin|Hin].
    + apply in_map_iff in Hin. destruct Hin as ([p c] & <- & Hin).
      apply In_query_payments in Hin. cbn [fst snd] in Hin.
      destruct Hin as (Hp & Hc & Hfk & Hst & Hgt).
      exists p, c. repeat (split; [assumption|]). reflexivity.
    + apply in_map_iff in Hin. destruct Hin as (x & <- & _).
      rewrite adjustment_item_type in Htype. discriminate Htype.
  - intros p c Hp Hc Hfk Hst Hgt. apply in_or_app. left.
    apply in_map_iff. exists (p, c). split; [reflexivity|].
    apply In_query_payments. cbn [fst snd]. tauto.
  - intros p Hp Hu Hout item Hin Hid.
    apply in_app_or in Hin. destruct Hin as [Hin|Hin].
    + apply in_map_iff in Hin. destruct Hin as ([p' c'] & <- & Hin).
      apply In_query_payments in Hin. cbn [fst snd] in Hin.
      destruct Hin as (Hp' & _ & _ & Hst & Hgt).
      cbn in Hid. injection Hid as Hid.
      assert (p' = p) by (apply (same_payment db); assumption). subst p'.
      destruct Hout as [Hout|Hout]; congruence.
    + apply in_map_iff in Hin. destruct Hin as (x & <- & _).
      discriminate Hid.
Qed.

(** The store of the examples: the failed payment 102 is not listed, the
    successful payment 100 is. *)
Lemma regular_payments_are_the_settled_ones_witness :
  get_customer_payments db_shop = Ok shop_customer_payments
  /\ In (regular_payment_item payment_march asha (txt "120.50"))
        (CustomerPayments.customer_payments shop_customer_payments)
  /\ forall item,
       In item (CustomerPayments.customer_payments shop_customer_payments) ->
       PaymentItem.payment_id item <> JInt 102.
Proof.
  assert (Hok : get_customer_payments db_shop = Ok shop_customer_payments)
    by (vm_compute; reflexivity).
  destruct (regular_payments_are_the_settled_ones _ Hok) as (_ & Hin & Hout).
  split; [exact Hok|]. split.
  - apply (Hin payment_march asha); vm_compute; auto.
  - apply (Hout payment_failed).
    + vm_compute. auto.
    + reflexivity.
    + left. reflexivity.
Defined.

(* ------------------------------------------------------------------ *)
(** *** Keys through join, filter and sort *)

Lemma NoDup_app_disjoint (A : Type) (a b : list A) :
  NoDup a -> NoDup b -> (forall x, In x a -> In x b -> False) ->
  NoDup (a ++ b).
Proof.
  induction a as [|x a IH]; intros Ha Hb Hd; [exact Hb|].
  inversion Ha as [|? ? Hx Ha']; subst. cbn. constructor.
  - intros Hin. apply in_app_or in Hin. destruct Hin as [Hin|Hin].
    + contradiction.
    + apply (Hd x); [left; reflexivity|exact Hin].
  - apply IH; [exact Ha'|exact Hb|].
    intros y Hya Hyb. apply (Hd y); [right; exact Hya|exact Hyb].
Qed.

(** At most one row of a table with distinct keys carries a given key. *)
Lemma filter_key_unique (B : Type) (key : B -> Z) (k : Z) (r : list B) :
  NoDup (map key r) ->
  filter (fun b => k =? key b) r = []
  \/ exists b, filter (fun b => k =? key b) r = [b].
Proof.
  induction r as [|b r IH]; intros Hnd; [left; reflexivity|].
  cbn [map] in Hnd. inversion Hnd as [|? ? Hb Hr]; subst.
  cbn [filter]. destruct (Z.eqb_spec k (key b)) as [E|E].
  - right. exists b. f_equal.
    assert (Hnone : forall l, ~ In k (map key l) ->
                    filter (fun b0 => k =? key b0) l = []).
    { induction l as [|y l IHl]; intros Hn; [reflexivity|].
      cbn [filter]. destruct (Z.eqb_spec k (key y)) as [Ey|Ey].
      - exfalso. apply Hn. left. symmetry. exact Ey.
      - apply IHl. intros Hin. apply Hn. right. exact Hin. }
    apply Hnone. rewrite E. exact Hb.
  - apply IH. exact Hr.
Qed.

(** Joining on a foreign key against a table with distinct keys keeps the
    keys of the left side distinct. *)
Lemma NoDup_inner_join (A B : Type) (id : A -> Z) (fk : A -> Z) (key : B -> Z)
  (l : list A) (r : list B) :
  NoDup (map id l) -> NoDup (map key r) ->
  NoDup (map (fun ab => id (fst ab))
           (inner_join (fun a b => fk a =? key b) l r)).
Proof.
  intros Hl Hr. unfold inner_join.
  induction l as [|a l IH]; [constructor|].
  cbn [map] in Hl. inversion Hl as [|? ? Ha Hl']; subst.
  cbn [flat_map]. rewrite map_app. apply NoDup_app_disjoint.
  - destruct (filter_key_unique key (fk a) r Hr) as [E|(b & E)]; rewrite E.
    + constructor.
    + cbn. constructor; [intros []|constructor].
  - apply IH. exact Hl'.
  - intros k Hk1 Hk2.
    apply in_map_iff in Hk1. destruct Hk1 as ([a1 b1] & <- & Hin1).
    apply in_map_iff in Hin1. destruct Hin1 as (b1' & E1 & _).
    injection E1 as <- <-.
    apply in_map_iff in Hk2. destruct Hk2 as ([a2 b2] & E2 & Hin2).
    cbn [fst] in E2.
    apply in_flat_map in Hin2. destruct Hin2 as (a3 & Ha3 & Hin2).
    apply in_map_iff in Hin2. destruct Hin2 as (b3 & E3 & _).
    injection E3 as <- <-.
    apply Ha. cbn [fst]. rewrite <- E2. apply in_map. exact Ha3.
Qed.

Lemma NoDup_map_filter (A K : Type) (f : A -> K) (p : A -> bool) l :
  NoDup (map f l) -> NoDup (map f (filter p l)).
Proof.
  induction l as [|a l IH]; intros H; [constructor|].
  cbn [map] in H. inversion H as [|? ? Ha Hl]; subst.
  cbn [filter]. destruct (p a).
  - cbn [map]. constructor; [|apply IH; exact Hl].
    intros Hin. apply Ha. apply in_map_iff in Hin.
    destruct Hin as (y & E & Hy). apply filter_In in Hy.
    rewrite <- E. apply in_map. tauto.
  - apply IH. exact Hl.
Qed.

Lemma insert_desc_Permutation (A : Type) (key : A -> datetime) x l :
  Permutation (insert_desc key x l) (x :: l).
Proof.
  induction l as [|y l IH]; [reflexivity|].
  cbn [insert_desc]. destruct (datetime_leb (key y) (key x)); [reflexivity|].
  rewrite IH. apply perm_swap.
Qed.

(** Sorting rearranges the rows and nothing else. *)
Lemma order_by_desc_Permutation (A : Type) (key : A -> datetime) l :
  Permutation (order_by_desc key l) l.
Proof.
  induction l as [|x l IH]; [reflexivity|].
  unfold order_by_desc in *. cbn [fold_right].
  rewrite insert_desc_Permutation. constructor. exact IH.
Qed.

Lemma NoDup_map_order_by_desc (A K : Type) (f : A -> K)
  (key : A -> datetime) l :
  NoDup (map f l) -> NoDup (map f (order_by_desc key l)).
Proof.
  intros H. eapply Permutation_NoDup; [|exact H].
  apply Permutation_map. symmetry. apply order_by_desc_Permutation.
Qed.

Lemma NoDup_map_injective (A B : Type) (f : A -> B) l :
  (forall a b, f a = f b -> a = b) -> NoDup l -> NoDup (map f l).
Proof.
  intros Hinj H. induction H as [|x l Hx Hl IH]; [constructor|].
  cbn [map]. constructor; [|exact IH].
  intros Hin. apply in_map_iff in Hin. destruct Hin as (y & E & Hy).
  apply Hinj in E. subst y. contradiction.
Qed.

Lemma query_payments_keys db :
  unique_ids (map Payment.id (payments db)) = true ->
  unique_ids (map Customer.id (customers db)) = true ->
  NoDup (map (fun pc => Payment.id (fst pc)) (query_payments db)).
Proof.
  intros Hp Hc. unfold query_payments.
  apply NoDup_map_order_by_desc, NoDup_map_filter.
  apply (NoDup_inner_join Payment.id Payment.customer_id Customer.id);
    apply unique_ids_NoDup; assumption.
Qed.

Lemma join_returns_keys db :
  unique_ids (map ProductReturn.id (product_returns db)) = true ->
  unique_ids (map Customer.id (customers db)) = true ->
  unique_ids (map Product.id (products db)) = true ->
  NoDup (map (fun x => ProductReturn.id (return_of x)) (join_returns db)).
Proof.
  intros Hr Hc Hp. unfold join_returns, return_of.
  apply (NoDup_inner_join
           (fun rc : ProductReturn.row * Customer.row =>
              ProductReturn.id (fst rc))
           (fun rc => ProductReturn.product_id (fst rc)) Product.id).
  - apply (NoDup_inner_join ProductReturn.id ProductReturn.customer_id
             Customer.id); apply unique_ids_NoDup; assumption.
  - apply unique_ids_NoDup. exact Hp.
Qed.

(** X4. In a store whose tables have distinct primary keys, the
    [payment_id] values of the list returned by [get_customer_payments] are
    pairwise distinct: the ids of regular payments are ints, those of
    adjustments are the texts "ADJ-<id>". *)
Theorem payment_ids_are_distinct (db : Database) (r : CustomerPayments.t) :
  unique_ids (map Payment.id (payments db)) = true ->
  unique_ids (map ProductReturn.id (product_returns db)) = true ->
  unique_ids (map Customer.id (customers db)) = true ->
  unique_ids (map Product.id (products db)) = true ->
  get_customer_payments db = Ok r ->
  NoDup (map PaymentItem.payment_id (CustomerPayments.customer_payments r)).
Proof.
  intros Hp Hr Hc Hpr Hok.
  destruct (get_customer_payments_Ok _ Hok) as (total & _ & Hitems & _).
  rewrite Hitems, map_app, !map_map. apply NoDup_app_disjoint.
  - change (NoDup (map (fun pc => JInt (Payment.id (fst pc)))
                     (query_payments db))).
    rewrite <- (map_map (fun pc => Payment.id (fst pc)) JInt).
    apply NoDup_map_injective; [intros a b E; congruence|].
    apply query_payments_keys; assumption.
  - change (NoDup (map (fun x => JStr (txt "ADJ-"
                                       ++ str_Z (ProductReturn.id (return_of x))))
                     (query_adjustments db))).
    rewrite <- (map_map (fun x => ProductReturn.id (return_of x))
                  (fun k => JStr (txt "ADJ-" ++ str_Z k))).
    apply NoDup_map_injective.
    + intros a b E. injection E as E. apply str_Z_inj. exact E.
    + unfold query_adjustments.
      apply NoDup_map_order_by_desc, NoDup_map_filter.
      apply join_returns_keys; assumption.
  - intros k Hk1 Hk2.
    apply in_map_iff in Hk1. destruct Hk1 as (pc & <- & _).
    apply in_map_iff in Hk2. destruct Hk2 as (x & E & _).
    discriminate E.
Qed.

Lemma payment_ids_are_distinct_witness :
  get_customer_payments db_shop = Ok shop_customer_payments
  /\ NoDup (map PaymentItem.payment_id
              (CustomerPayments.customer_payments shop_customer_payments)).
Proof.
  assert (Hok : get_customer_payments db_shop = Ok shop_customer_payments)
    by (vm_compute; reflexivity).
  split; [exact Hok|].
  apply (@payment_ids_are_distinct db_shop shop_customer_payments);
    [reflexivity|reflexivity|reflexivity|reflexivity|exact Hok].
Defined.

(* ================================================================== *)
(** ** get_customer_refunds: total, order and labels *)

(** X5. The [total_refunded] returned by [get_customer_refunds] is the
    formatted running sum of the refund amounts of exactly the returned
    items, [count] is their number, and the running sum is the exact sum of
    the amounts whenever that fits the decimal context. *)
Theorem total_refunded_is_sum_of_items (db : Database) (r : CustomerRefunds.t) :
  get_customer_refunds db = Ok r ->
  let amounts := customer_refund_amounts db in
  map RefundItem.refund_amount (CustomerRefunds.customer_refunds r)
  = map (fun a => format_2f (Finite a)) amounts
  /\ CustomerRefunds.count r = len (CustomerRefunds.customer_refunds r)
  /\ CustomerRefunds.count r = len amounts
  /\ exists total,
       Decimal_sum Decimal_0 (map Finite amounts) = Ok total
       /\ CustomerRefunds.total_refunded r = format_2f total
       /\ (representable (exact_sum finite_0 amounts) ->
           exists t, total = Finite t /\ (value t == sum_values amounts)%Q).
Proof.
  intros H amounts.
  pose proof H as H'. rewrite get_customer_refunds_closed in H'.
  destruct (get_customer_refunds_Ok _ H) as (total & Hsum & Hitems & Htotal).
  rewrite customer_refund_amounts_Decimal in H'.
  fold amounts in Hsum. unfold amounts in Hsum. rewrite Hsum in H'.
  injection H' as <-. cbn [CustomerRefunds.customer_refunds CustomerRefunds.count].
  split; [|split; [|split]].
  - unfold amounts, customer_refund_amounts. rewrite !map_map.
    apply map_ext. intros x. rewrite refund_item_amount.
    unfold refund_amount_of. rewrite Decimal_or_0_finite. reflexivity.
  - reflexivity.
  - unfold len, amounts, customer_refund_amounts. rewrite !length_map.
    reflexivity.
  - exists total. split; [exact Hsum|]. split; [reflexivity|].
    intros Hrep.
    destruct (Decimal_sum_nonnegative_exact
                (customer_refund_amounts_nonnegative db) Hrep) as [E V].
    exists (exact_sum finite_0 amounts). split; [|exact V].
    unfold amounts in *. congruence.
Qed.

(** The example store: refunds of 12.00 and 5.00, total 17.00. *)
Lemma total_refunded_is_sum_of_items_witness :
  get_customer_refunds db_shop = Ok shop_customer_refunds
  /\ map RefundItem.refund_amount
       (CustomerRefunds.customer_refunds shop_customer_refunds)
     = [txt "12.00"; txt "5.00"]
  /\ exists total,
       Decimal_sum Decimal_0 (map Finite (customer_refund_amounts db_shop))
       = Ok total
       /\ txt "17.00" = format_2f total.
Proof.
  assert (H : get_customer_refunds db_shop = Ok shop_customer_refunds)
    by (vm_compute; reflexivity).
  split; [exact H|]. split; [reflexivity|].
  destruct (total_refunded_is_sum_of_items db_shop H)
    as (_ & _ & _ & total & Hsum & Htotal & _).
  exists total. split; [exact Hsum|exact Htotal].
Defined.

Lemma refund_item_date db x :
  RefundItem.return_date (refund_item_of db x)
  = isoformat (ProductReturn.return_date (return_of x)).
Proof.
  unfold refund_item_of, refund_item.
  destruct (text_eqb _ _); reflexivity.
Qed.

(** X6. The list returned by [get_customer_refunds] is in descending order
    of return date, from the first item to the last. *)
Theorem refunds_are_latest_first (db : Database) (r : CustomerRefunds.t) :
  get_customer_refunds db = Ok r ->
  dates_descend
    (map RefundItem.return_date (CustomerRefunds.customer_refunds r)).
Proof.
  intros H.
  destruct (get_customer_refunds_Ok _ H) as (total & _ & Hitems & _).
  exists (map (fun x => ProductReturn.return_date (return_of x))
            (query_refunds db)).
  split.
  - rewrite Hitems, !map_map. apply map_ext. intros x.
    apply refund_item_date.
  - apply Sorted_map. apply (order_by_desc_sorted
      (fun x : ProductReturn.row * Customer.row * Product.row =>
         ProductReturn.return_date (return_of x))).
Qed.

(** The example store: the return of 6 March comes before that of
    4 March. *)
Lemma refunds_are_latest_first_witness :
  get_customer_refunds db_shop = Ok shop_customer_refunds
  /\ map RefundItem.return_date
       (CustomerRefunds.customer_refunds shop_customer_refunds)
     = [isoformat (at_noon 2024 3 6); isoformat (at_noon 2024 3 4)]
  /\ dates_descend
       (map RefundItem.return_date
          (CustomerRefunds.customer_refunds shop_customer_refunds)).
Proof.
  assert (H : get_customer_refunds db_shop = Ok shop_customer_refunds)
    by (vm_compute; reflexivity).
  split; [exact H|]. split; [reflexivity|].
  exact (refunds_are_latest_first db_shop H).
Defined.

(** X7. Every item of [get_customer_refunds] stems from a ProductReturn row
    and carries its id, number and quantity.  An exchange is relabelled:
    its [refund_type] is "adjustment_refund" and its [reason] the fixed
    adjustment text; any other row keeps its own [return_type] and
    [reason].  [exchange_product] is the name of the product the exchange
    link points to, and null when the link is null or dangling. *)
Theorem refund_labels (db : Database) (r : CustomerRefunds.t) :
  get_customer_refunds db = Ok r ->
  forall item,
    In item (CustomerRefunds.customer_refunds r) ->
    exists row,
      In row (product_returns db)
      /\ RefundItem.return_id item = ProductReturn.id row
      /\ RefundItem.return_number item = ProductReturn.return_number row
      /\ RefundItem.quantity_returned item
         = ProductReturn.quantity_returned row
      /\ (ProductReturn.return_type row = txt "exchange" ->
          RefundItem.refund_type item = txt "adjustment_refund"
          /\ RefundItem.reason item = adjustment_reason)
      /\ (ProductReturn.return_type row <> txt "exchange" ->
          RefundItem.refund_type item = ProductReturn.return_type row
          /\ RefundItem.reason item = ProductReturn.reason row)
      /\ RefundItem.exchange_product item
         = match ProductReturn.exchange_product_id row with
           | None => None
           | Some k =>
               option_map Product.product_name
                 (find (fun p => Product.id p =? k) (products db))
           end.
Proof.
  intros H item Hin.
  destruct (get_customer_refunds_Ok _ H) as (total & _ & Hitems & _).
  rewrite Hitems in Hin. apply in_map_iff in Hin.
  destruct Hin as ([[row c] p] & <- & Hx).
  apply In_query_refunds in Hx. destruct Hx as (Hj & _ & _).
  apply join_returns_source in Hj. unfold return_of in Hj. cbn [fst] in Hj.
  exists row. split; [exact Hj|].
  unfold refund_item_of, refund_item, return_of. cbn [fst snd].
  destruct (text_eqb (ProductReturn.return_type row) (txt "exchange")) eqn:E;
    cbn [RefundItem.return_id RefundItem.return_number
         RefundItem.quantity_returned RefundItem.refund_type
         RefundItem.reason RefundItem.exchange_product].
  - do 3 (split; [reflexivity|]). split; [intros _; split; reflexivity|].
    split.
    + intros Hne. apply text_eqb_eq in E. contradiction.
    + unfold exchange_product, query_get.
      destruct (ProductReturn.exchange_product_id row); reflexivity.
  - do 3 (split; [reflexivity|]). split.
    + intros He. apply text_eqb_eq in He. congruence.
    + split; [intros _; split; reflexivity|].
      unfold exchange_product, query_get.
      destruct (ProductReturn.exchange_product_id row); reflexivity.
Qed.

(** The example store: the plain return keeps its type and reason, and has
    no exchange product. *)
Lemma refund_labels_witness :
  get_customer_refunds db_shop = Ok shop_customer_refunds
  /\ exists row,
       In row (product_returns db_shop)
       /\ ProductReturn.id row = 52
       /\ ProductReturn.return_type row = txt "return"
       /\ ProductReturn.reason row = txt "defective".
Proof.
  assert (H : get_customer_refunds db_shop = Ok shop_customer_refunds)
    by (vm_compute; reflexivity).
  split; [exact H|].
  destruct (refund_labels db_shop H
              (refund_item_of db_shop (plain_return, asha, widget))
              (or_introl eq_refl))
    as (row & Hin & Hid & _ & _ & _ & Hkeep & _).
  exists row. split; [exact Hin|]. split; [symmetry; exact Hid|].
  assert (Hrow : row = plain_return).
  { cbn in Hin. cbn in Hid.
    destruct Hin as [<-|[<-|[<-|[<-|[]]]]]; try discriminate Hid.
    reflexivity. }
  subst row. split; reflexivity.
Defined.

(* ================================================================== *)
(** ** The order of timestamps is transitive *)

Ltac compare_field f a b c :=
  destruct (N.compare_spec (f a) (f b)), (N.compare_spec (f b) (f c)),
    (N.compare_spec (f a) (f c));
  cbn [then_compare] in *; try discriminate; try reflexivity; try lia.

Lemma datetime_leb_trans a b c :
  datetime_leb a b = true -> datetime_leb b c = true ->
  datetime_leb a c = true.
Proof.
  unfold datetime_leb, datetime_compare. intros H1 H2.
  compare_field year a b c. compare_field month a b c.
  compare_field day a b c. compare_field hour a b c.
  compare_field minute a b c. compare_field second a b c.
  compare_field microsecond a b c.
Qed.

Lemma desc_trans (A : Type) (key : A -> datetime) a b c :
  desc key a b -> desc key b c -> desc key a c.
Proof. unfold desc. intros H1 H2. exact (datetime_leb_trans _ _ _ H2 H1). Qed.

(** Leaving rows out of a sorted list leaves it sorted. *)
Lemma Sorted_desc_filter (A : Type) (key : A -> datetime) (p : A -> bool) l :
  Sorted (desc key) l -> Sorted (desc key) (filter p l).
Proof.
  intros H. apply StronglySorted_Sorted.
  apply Sorted_StronglySorted in H.
  2:{ intros a b c. apply desc_trans. }
  induction H as [|x l Hl IH Hx]; [constructor|].
  cbn [filter]. destruct (p x); [|exact IH].
  constructor; [exact IH|].
  apply Forall_forall. intros y Hy. apply filter_In in Hy.
  rewrite Forall_forall in Hx. apply Hx. tauto.
Qed.

(* ================================================================== *)
(** ** get_supplier_payments: which purchases are listed *)

Lemma Forall2_In_r (A B : Type) (R : A -> B -> Prop) l1 l2 y :
  Forall2 R l1 l2 -> In y l2 -> exists x, In x l1 /\ R x y.
Proof.
  induction 1 as [|a b l1 l2 Hab _ IH]; intros Hin; [contradiction|].
  destruct Hin as [<-|Hin].
  - exists a. split; [left; reflexivity|exact Hab].
  - destruct (IH Hin) as (x & Hx & HR). exists x. split; [right|]; assumption.
Qed.

Lemma Forall2_In_l (A B : Type) (R : A -> B -> Prop) l1 l2 x :
  Forall2 R l1 l2 -> In x l1 -> exists y, In y l2 /\ R x y.
Proof.
  induction 1 as [|a b l1 l2 Hab _ IH]; intros Hin; [contradiction|].
  destruct Hin as [<-|Hin].
  - exists b. split; [left; reflexivity|exact Hab].
  - destruct (IH Hin) as (y & Hy & HR). exists y. split; [right|]; assumption.
Qed.

Lemma Forall2_map_eq (A B C : Type) (R : A -> B -> Prop)
  (f : A -> C) (g : B -> C) l1 l2 :
  (forall a b, R a b -> g b = f a) ->
  Forall2 R l1 l2 -> map g l2 = map f l1.
Proof.
  intros Hfg. induction 1 as [|a b l1 l2 Hab _ IH]; [reflexivity|].
  cbn [map]. rewrite IH, (Hfg _ _ Hab). reflexivity.
Qed.

Section Supplier_payment_facts.

Variable json_loads : text -> option json.
Variable Decimal_from_sequence : list json -> result Decimal.


(** One turn of the loop: the purchase is passed over, or its amount joins
    the total and its item the list. *)
Lemma supplier_payment_step_inv db items total ts items' total' :
  supplier_payment_step json_loads Decimal_from_sequence db (items, total) ts
  = Ok (items', total') ->
  (paying json_loads Decimal_from_sequence ts = false /\ items' = items /\ total' = total)
  \/ (paying json_loads Decimal_from_sequence ts = true
      /\ Decimal_gt0 (purchase_amount json_loads Decimal_from_sequence ts)
         = Ok true
      /\ Decimal_add total
           (purchase_amount json_loads Decimal_from_sequence ts) = Ok total'
      /\ exists item,
           purchase_item json_loads Decimal_from_sequence db ts item
           /\ items' = items ++ [item]).
Proof.
  unfold supplier_payment_step, paying, carries_payment, purchase_amount,
    note_amount, purchase_item.
  destruct ts as [transaction supplier]. cbn [fst snd].
  destruct (extract_payment_info json_loads Decimal_from_sequence
              (StockTransaction.notes transaction))
    as [[[[[amount method] status] reference] info]|]; [|discriminate].
  cbn [bind]. destruct (Decimal_gt0 amount) as [[|]|]; cbn [bind];
    [|intros H; injection H as <- <-; left; repeat split; reflexivity
     |discriminate].
  destruct (Decimal_add total amount) as [t|] eqn:Eadd; [|discriminate].
  cbn [bind]. fold (product_names db transaction info).
  destruct (product_names db transaction info) as [names|] eqn:En;
    [|discriminate].
  cbn [bind]. intros H. injection H as <- <-. right.
  split; [reflexivity|]. split; [reflexivity|]. split; [reflexivity|].
  eexists. split; [|reflexivity].
  exists amount, method, status, reference, info, names.
  split; [reflexivity|]. split; [exact En|reflexivity].
Qed.

(** The loop as a whole: the new items are those of the purchases that
    carry a payment, in the order of the query, and the total grows by
    their amounts. *)
Lemma supplier_payment_loop_items db l : forall items total items' total',
  for_each l (items, total)
    (supplier_payment_step json_loads Decimal_from_sequence db)
  = Ok (items', total') ->
  exists new,
    items' = items ++ new
    /\ Forall2 (purchase_item json_loads Decimal_from_sequence db)
         (filter (paying json_loads Decimal_from_sequence) l) new
    /\ Decimal_sum total
         (map (purchase_amount json_loads Decimal_from_sequence)
            (filter (paying json_loads Decimal_from_sequence) l)) = Ok total'
    /\ Forall (fun ts =>
                 Decimal_gt0
                   (purchase_amount json_loads Decimal_from_sequence ts)
                 = Ok true)
         (filter (paying json_loads Decimal_from_sequence) l).
Proof.
  induction l as [|ts l IH]; intros items total items' total' H.
  - injection H as <- <-. exists []. rewrite app_nil_r.
    split; [reflexivity|]. split; [constructor|].
    split; [reflexivity|constructor].
  - cbn [for_each] in H.
    destruct (supplier_payment_step json_loads Decimal_from_sequence db
                (items, total) ts) as [[items1 total1]|] eqn:Estep;
      [|discriminate H].
    cbn [bind] in H.
    destruct (IH _ _ _ _ H) as (new & -> & Hnew & Hsum & Hpos).
    apply supplier_payment_step_inv in Estep.
    destruct Estep as [(Hp & -> & ->)|(Hp & Hgt & Hadd & item & Hitem & ->)];
      cbn [filter]; rewrite Hp.
    + exists new. repeat split; assumption.
    + exists (item :: new). rewrite <- app_assoc.
      split; [reflexivity|]. split; [constructor; assumption|]. split.
      * unfold Decimal_sum in *. cbn [map for_each]. rewrite Hadd. exact Hsum.
      * constructor; assumption.
Qed.

Lemma get_supplier_payments_Ok db r :
  get_supplier_payments json_loads Decimal_from_sequence db = Ok r ->
  exists total,
    Forall2 (purchase_item json_loads Decimal_from_sequence db)
      (filter (paying json_loads Decimal_from_sequence) (query_purchases db))
      (SupplierPayments.supplier_payments r)
    /\ Decimal_sum Decimal_0
         (map (purchase_amount json_loads Decimal_from_sequence)
            (filter (paying json_loads Decimal_from_sequence) (query_purchases db))) = Ok total
    /\ Forall (fun ts =>
                 Decimal_gt0
                   (purchase_amount json_loads Decimal_from_sequence ts)
                 = Ok true)
         (filter (paying json_loads Decimal_from_sequence) (query_purchases db))
    /\ SupplierPayments.total_paid r = Decimal_str total
    /\ SupplierPayments.count r = len (SupplierPayments.supplier_payments r).
Proof.
  intros H. apply try_except_Ok in H; [|intros e; eexists; reflexivity].
  cbv zeta in H.
  destruct (for_each (query_purchases db) ([], Decimal_0)
              (supplier_payment_step json_loads Decimal_from_sequence db))
    as [[items total]|] eqn:Eloop; [|discriminate H].
  cbn [bind] in H. injection H as <-.
  destruct (supplier_payment_loop_items _ _ _ _ Eloop)
    as (new & E & Hnew & Hsum & Hpos).
  cbn [app] in E. subst new. exists total.
  cbn [SupplierPayments.supplier_payments SupplierPayments.total_paid
       SupplierPayments.count].
  repeat split; assumption.
Qed.

Lemma In_query_purchases db ts :
  In ts (query_purchases db) <->
  In (fst ts) (stock_transactions db) /\ In (snd ts) (suppliers db)
  /\ StockTransaction.supplier_id (fst ts) = Supplier.id (snd ts)
  /\ StockTransaction.transaction_type (fst ts) = txt "Purchase".
Proof.
  unfold query_purchases. rewrite In_order_by_desc, filter_In.
  destruct ts as [t s]. rewrite In_inner_join. cbn [fst snd].
  rewrite Z.eqb_eq, text_eqb_eq. tauto.
Qed.

Lemma purchase_item_fields db ts item :
  purchase_item json_loads Decimal_from_sequence db ts item ->
  SupplierPaymentItem.transaction_id item = StockTransaction.id (fst ts)
  /\ SupplierPaymentItem.supplier_id item = Supplier.id (snd ts)
  /\ SupplierPaymentItem.supplier_name item = Supplier.contact_person (snd ts)
  /\ SupplierPaymentItem.business_name item = Supplier.name (snd ts)
  /\ SupplierPaymentItem.quantity item = StockTransaction.quantity (fst ts)
  /\ SupplierPaymentItem.amount_paid item
     = Decimal_str (purchase_amount json_loads Decimal_from_sequence ts)
  /\ SupplierPaymentItem.transaction_date item
     = isoformat (StockTransaction.transaction_date (fst ts))
  /\ SupplierPaymentItem.reference_number item
     = StockTransaction.reference_number (fst ts).
Proof.
  intros (a & m & s & rf & p & names & He & _ & ->).
  unfold purchase_amount, note_amount. rewrite He.
  repeat split; reflexivity.
Qed.

Lemma same_transaction db a b :
  unique_ids (map StockTransaction.id (stock_transactions db)) = true ->
  In a (stock_transactions db) -> In b (stock_transactions db) ->
  StockTransaction.id a = StockTransaction.id b -> a = b.
Proof.
  intros Hu. apply NoDup_map_inj. apply unique_ids_NoDup. exact Hu.
Qed.

(** X8. [get_supplier_payments] lists exactly the stock transactions of
    type "Purchase" whose supplier exists and whose note yields a
    [payment_amount > 0]; each item carries the ids, the date and
    [str(payment_amount)] of its transaction.  A transaction of another
    type, or one whose note carries no positive amount -- a null, empty or
    non-JSON note among them -- is not listed. *)
Theorem supplier_payments_are_the_paid_purchases
  (db : Database) (r : SupplierPayments.t) :
  get_supplier_payments json_loads Decimal_from_sequence db = Ok r ->
  (forall item,
     In item (SupplierPayments.supplier_payments r) ->
     exists transaction supplier amount,
       In transaction (stock_transactions db) /\ In supplier (suppliers db)
       /\ StockTransaction.supplier_id transaction = Supplier.id supplier
       /\ StockTransaction.transaction_type transaction = txt "Purchase"
       /\ note_amount json_loads Decimal_from_sequence
            (StockTransaction.notes transaction) = Some amount
       /\ Decimal_gt0 amount = Ok true
       /\ SupplierPaymentItem.transaction_id item
          = StockTransaction.id transaction
       /\ SupplierPaymentItem.supplier_id item = Supplier.id supplier
       /\ SupplierPaymentItem.amount_paid item = Decimal_str amount
       /\ SupplierPaymentItem.transaction_date item
          = isoformat (StockTransaction.transaction_date transaction))
  /\ (forall transaction supplier,
        In transaction (stock_transactions db) -> In supplier (suppliers db) ->
        StockTransaction.supplier_id transaction = Supplier.id supplier ->
        StockTransaction.transaction_type transaction = txt "Purchase" ->
        carries_payment json_loads Decimal_from_sequence
          (StockTransaction.notes transaction) = true ->
        exists item,
          In item (SupplierPayments.supplier_payments r)
          /\ SupplierPaymentItem.transaction_id item
             = StockTransaction.id transaction
          /\ SupplierPaymentItem.supplier_id item = Supplier.id supplier)
  /\ (forall transaction,
        In transaction (stock_transactions db) ->
        unique_ids (map StockTransaction.id (stock_transactions db)) = true ->
        StockTransaction.transaction_type transaction <> txt "Purchase"
        \/ carries_payment json_loads Decimal_from_sequence
             (StockTransaction.notes transaction) = false ->
        forall item,
          In item (SupplierPayments.supplier_payments r) ->
          SupplierPaymentItem.transaction_id item
          <> StockTransaction.id transaction)
  /\ carries_payment json_loads Decimal_from_sequence None = false
  /\ carries_payment json_loads Decimal_from_sequence (Some []) = false
  /\ (forall s, json_loads s = None ->
        carries_payment json_loads Decimal_from_sequence (Some s) = false).
Proof.
  intros Hok.
  destruct (get_supplier_payments_Ok _ Hok) as (total & Hitems & _ & _ & _ & _).
  assert (Hfrom : forall item,
    In item (SupplierPayments.supplier_payments r) ->
    exists ts,
      In ts (query_purchases db) /\ paying json_loads Decimal_from_sequence ts = true
      /\ purchase_item json_loads Decimal_from_sequence db ts item).
  { intros item Hin. destruct (@Forall2_In_r _ _ _ _ _ _ Hitems Hin) as (ts & Hts & HR).
    apply filter_In in Hts. exists ts. tauto. }
  split; [|split; [|split; [|split; [|split]]]].
  - intros item Hin. destruct (Hfrom _ Hin) as (ts & Hq & Hp & HR).
    apply In_query_purchases in Hq. destruct Hq as (Ht & Hs & Hfk & Hty).
    destruct (purchase_item_fields HR)
      as (Hid & Hsid & _ & _ & _ & Hamt & Hdate & _).
    exists (fst ts), (snd ts),
      (purchase_amount json_loads Decimal_from_sequence ts).
    do 4 (split; [assumption|]).
    unfold paying, carries_payment in Hp. unfold purchase_amount in *.
    destruct (note_amount json_loads Decimal_from_sequence
                (StockTransaction.notes (fst ts))) as [a|]; [|discriminate Hp].
    split; [reflexivity|]. split.
    + destruct (Decimal_gt0 a) as [[|]|]; [reflexivity|discriminate Hp
                                          |discriminate Hp].
    + repeat split; assumption.
  - intros t s Ht Hs Hfk Hty Hp.
    assert (Hin : In (t, s) (filter (paying json_loads Decimal_from_sequence) (query_purchases db))).
    { apply filter_In. split; [|exact Hp].
      apply In_query_purchases. cbn [fst snd]. tauto. }
    destruct (@Forall2_In_l _ _ _ _ _ _ Hitems Hin) as (item & Hitem & HR).
    destruct (purchase_item_fields HR) as (Hid & Hsid & _).
    exists item. repeat split; assumption.
  - intros t Ht Hu Hout item Hin E.
    destruct (Hfrom _ Hin) as (ts & Hq & Hp & HR).
    apply In_query_purchases in Hq. destruct Hq as (Ht' & _ & _ & Hty).
    destruct (purchase_item_fields HR) as (Hid & _).
    assert (fst ts = t).
    { apply (same_transaction db); [assumption..|congruence]. }
    subst t. unfold paying in Hp. destruct Hout as [Hout|Hout]; congruence.
  - reflexivity.
  - reflexivity.
  - intros s Hj. unfold carries_payment, note_amount, extract_payment_info.
    destruct s as [|c s]; [reflexivity|]. rewrite Hj. reflexivity.
Qed.

(** X9. The list returned by [get_supplier_payments] is in descending order
    of transaction date: the purchases that carry a payment keep the order
    of the query. *)
Theorem supplier_payments_are_latest_first
  (db : Database) (r : SupplierPayments.t) :
  get_supplier_payments json_loads Decimal_from_sequence db = Ok r ->
  dates_descend
    (map SupplierPaymentItem.transaction_date
       (SupplierPayments.supplier_payments r)).
Proof.
  intros Hok.
  destruct (get_supplier_payments_Ok _ Hok) as (total & Hitems & _).
  exists (map (fun ts => StockTransaction.transaction_date (fst ts))
            (filter (paying json_loads Decimal_from_sequence) (query_purchases db))).
  split.
  - rewrite map_map.
    apply (Forall2_map_eq
             (fun ts => isoformat (StockTransaction.transaction_date (fst ts)))
             SupplierPaymentItem.transaction_date) with (2 := Hitems).
    intros ts item HR. apply (purchase_item_fields HR).
  - apply Sorted_map.
    apply Sorted_desc_filter.
    apply (order_by_desc_sorted
             (fun ts : StockTransaction.row * Supplier.row =>
                StockTransaction.transaction_date (fst ts))).
Qed.

End Supplier_payment_facts.

(** The example store: purchase 200 is listed with the amount of its note,
    purchase 201, whose note is not JSON, is not. *)
Lemma supplier_payments_are_the_paid_purchases_witness :
  exists r,
    get_supplier_payments json_loads_examples from_sequence_examples db_shop
    = Ok r
    /\ (exists item,
          In item (SupplierPayments.supplier_payments r)
          /\ SupplierPaymentItem.transaction_id item = 200
          /\ SupplierPaymentItem.supplier_id item = 7)
    /\ forall item,
         In item (SupplierPayments.supplier_payments r) ->
         SupplierPaymentItem.transaction_id item <> 201.
Proof.
  destruct (get_supplier_payments json_loads_examples from_sequence_examples
              db_shop) as [r|e] eqn:E; [|vm_compute in E; discriminate E].
  exists r. split; [reflexivity|].
  destruct (supplier_payments_are_the_paid_purchases _ _ _ E)
    as (_ & Hin & Hout & _).
  split.
  - apply (Hin purchase_paid kumar); vm_compute; auto.
  - apply (Hout purchase_garbage_note).
    + vm_compute. auto.
    + reflexivity.
    + right. reflexivity.
Defined.

Lemma supplier_payments_are_latest_first_witness :
  exists r,
    get_supplier_payments json_loads_examples from_sequence_examples db_shop
    = Ok r
    /\ dates_descend
         (map SupplierPaymentItem.transaction_date
            (SupplierPayments.supplier_payments r)).
Proof.
  destruct (get_supplier_payments json_loads_examples from_sequence_examples
              db_shop) as [r|e] eqn:E; [|vm_compute in E; discriminate E].
  exists r. split; [reflexivity|].
  exact (supplier_payments_are_latest_first _ _ _ E).
Defined.

(* ================================================================== *)
(** ** get_supplier_payments: failures past the inner handler *)

Lemma product_names_of_raises v :
  truthy v = true ->
  match v with
  | JList l => Exists (fun p => ~ is_object p) l
  | _ => True
  end ->
  exists e, product_names_of v = Raise e.
Proof.
  intros Ht Hv. destruct v as [|b|z|d|s|l|kv]; cbn [product_names_of];
    try (eexists; reflexivity).
  apply Exists_exists in Hv. destruct Hv as (p & Hin & Hp).
  apply (@for_each_raises _ _ _ p l Hin).
  intros acc. destruct p; try (eexists; reflexivity).
  exfalso. apply Hp. exact I.
Qed.

Section Supplier_payment_failures.

Variable json_loads : text -> option json.
Variable Decimal_from_sequence : list json -> result Decimal.

Lemma nan_amount_raises db st transaction supplier s :
  StockTransaction.notes transaction = Some s -> s <> [] ->
  nan_amount json_loads Decimal_from_sequence s ->
  supplier_payment_step json_loads Decimal_from_sequence db st
    (transaction, supplier) = Raise InvalidOperation.
Proof.
  intros Hn Hs (kv & sg & g & p & Hj & Hd). unfold supplier_payment_step.
  destruct st as [items total]. rewrite Hn. unfold extract_payment_info.
  destruct s as [|c s]; [congruence|]. rewrite Hj.
  cbn [bind py_get try_except]. rewrite Hd. reflexivity.
Qed.

Lemma malformed_products_raise db st transaction supplier s :
  StockTransaction.notes transaction = Some s -> s <> [] ->
  malformed_products json_loads Decimal_from_sequence s ->
  exists e,
    supplier_payment_step json_loads Decimal_from_sequence db st
      (transaction, supplier) = Raise e.
Proof.
  intros Hn Hs (kv & amount & Hj & Hd & Hgt & Ht & Hv).
  unfold supplier_payment_step.
  destruct st as [items total]. rewrite Hn. unfold extract_payment_info.
  destruct s as [|c s]; [congruence|]. rewrite Hj.
  cbn [bind py_get try_except]. rewrite Hd. cbn [bind py_get try_except].
  rewrite Hgt. cbn [bind].
  destruct (Decimal_add total amount) as [t|e]; [|eexists; reflexivity].
  cbn [bind]. rewrite Ht.
  destruct (product_names_of_raises _ Ht Hv) as (e & ->).
  eexists; reflexivity.
Qed.

(** X10. A Purchase transaction whose note is a JSON object with a
    payment_amount that converts to a NaN (the text "NaN", or the JSON
    number NaN) makes the whole of [get_supplier_payments] raise: the
    conversion succeeds inside the inner handler and the comparison
    [payment_amount > 0] signals outside it. *)
Theorem nan_amount_fails_request (db : Database)
  (ts : StockTransaction.row * Supplier.row) (s : text) :
  In ts (query_purchases db) ->
  StockTransaction.notes (fst ts) = Some s -> s <> [] ->
  nan_amount json_loads Decimal_from_sequence s ->
  exists e,
    get_supplier_payments json_loads Decimal_from_sequence db
    = Raise (Exception (txt "Error fetching supplier payments") e).
Proof.
  intros Hin Hn Hs Hw. unfold get_supplier_payments. cbv zeta.
  destruct ts as [transaction supplier]. cbn [fst] in Hn.
  assert (Hbad : forall st, exists e,
    supplier_payment_step json_loads Decimal_from_sequence db st
      (transaction, supplier) = Raise e).
  { intros st. exists InvalidOperation.
    apply nan_amount_raises with (s := s); assumption. }
  destruct (@for_each_raises _ _ _ _ _ Hin Hbad ([], Decimal_0)) as (e & ->).
  exists e. reflexivity.
Qed.

(** X11. A Purchase transaction whose note carries a positive amount and a
    "products" entry that is truthy but not a list of objects -- a list
    with a bare name in it, a text, a number -- makes the whole of
    [get_supplier_payments] raise: the names are read outside the inner
    handler. *)
Theorem malformed_products_fail_request (db : Database)
  (ts : StockTransaction.row * Supplier.row) (s : text) :
  In ts (query_purchases db) ->
  StockTransaction.notes (fst ts) = Some s -> s <> [] ->
  malformed_products json_loads Decimal_from_sequence s ->
  exists e,
    get_supplier_payments json_loads Decimal_from_sequence db
    = Raise (Exception (txt "Error fetching supplier payments") e).
Proof.
  intros Hin Hn Hs Hw. unfold get_supplier_payments. cbv zeta.
  destruct ts as [transaction supplier]. cbn [fst] in Hn.
  assert (Hbad : forall st, exists e,
    supplier_payment_step json_loads Decimal_from_sequence db st
      (transaction, supplier) = Raise e).
  { intros st. apply malformed_products_raise with (s := s); assumption. }
  destruct (@for_each_raises _ _ _ _ _ Hin Hbad ([], Decimal_0)) as (e & ->).
  exists e. reflexivity.
Qed.

End Supplier_payment_failures.

(** The purchase whose note is [{"payment_amount": "NaN"}]: the request
    fails with InvalidOperation. *)
Lemma nan_amount_fails_request_witness :
  get_supplier_payments json_loads_more from_sequence_examples db_nan_note
  = Raise (Exception (txt "Error fetching supplier payments")
             InvalidOperation).
Proof.
  assert (Hin : In (purchase_nan, kumar) (query_purchases db_nan_note))
    by (vm_compute; auto).
  assert (Hw : nan_amount json_loads_more from_sequence_examples note_nan).
  { exists [(txt "payment_amount", JStr (txt "NaN"))], false, false, 0%N.
    split; reflexivity. }
  assert (Hs : note_nan <> []) by discriminate.
  destruct (@nan_amount_fails_request json_loads_more from_sequence_examples
              db_nan_note (purchase_nan, kumar) note_nan Hin eq_refl Hs Hw)
    as (e & He).
  rewrite He. vm_compute in He. injection He as <-. reflexivity.
Defined.

(** The purchase whose note lists its products as ["Widget"]: the request
    fails with AttributeError. *)
Lemma malformed_products_fail_request_witness :
  get_supplier_payments json_loads_more from_sequence_examples
    db_bare_products
  = Raise (Exception (txt "Error fetching supplier payments")
             AttributeError).
Proof.
  assert (Hin : In (purchase_bare_products, kumar)
                  (query_purchases db_bare_products))
    by (vm_compute; auto).
  assert (Hw : malformed_products json_loads_more from_sequence_examples
                 note_bare_products).
  { exists [(txt "payment_amount", JStr (txt "40.00"));
            (txt "products", JList [JStr (txt "Widget")])],
      (Finite (mkfinite false 4000 (-2))).
    split; [reflexivity|]. split; [reflexivity|]. split; [reflexivity|].
    split; [reflexivity|]. cbn. constructor. intros H. exact H. }
  assert (Hs : note_bare_products <> []) by discriminate.
  destruct (@malformed_products_fail_request json_loads_more
              from_sequence_examples db_bare_products
              (purchase_bare_products, kumar) note_bare_products
              Hin eq_refl Hs Hw) as (e & He).
  rewrite He. vm_compute in He. injection He as <-. reflexivity.
Defined.

(* ================================================================== *)
(** ** get_supplier_payments: an infinite amount *)

Lemma Decimal_add_plus_infinity a b t :
  finite_or_plus_infinity a -> finite_or_plus_infinity b ->
  a = Infinity false \/ b = Infinity false ->
  Decimal_add a b = Ok t -> t = Infinity false.
Proof.
  destruct a as [x|sa|sa ga pa], b as [y|sb|sb gb pb]; cbn;
    try contradiction; intros Ha Hb Hinf H; subst;
    try (injection H as <-; reflexivity).
  destruct Hinf; discriminate.
Qed.

Lemma gt0_is_finite_or_plus_infinity d :
  Decimal_gt0 d = Ok true -> finite_or_plus_infinity d.
Proof.
  destruct d as [f|s|s g p]; cbn; intros H.
  - exact I.
  - injection H as H. destruct s; [discriminate H|reflexivity].
  - discriminate H.
Qed.

Lemma Decimal_add_keeps_shape a b t :
  finite_or_plus_infinity a -> finite_or_plus_infinity b ->
  Decimal_add a b = Ok t -> finite_or_plus_infinity t.
Proof.
  destruct a as [x|sa|sa ga pa], b as [y|sb|sb gb pb]; cbn;
    try contradiction; intros Ha Hb H; subst;
    try (injection H as <-; reflexivity).
  change (Decimal_add (Finite x) (Finite y))
    with (r <- finite_add x y ;; Ok (Finite r)) in H.
  destruct (finite_add x y); [|discriminate H].
  injection H as <-. exact I.
Qed.

(** Once the positive infinity enters a running total of accepted amounts,
    the total is the positive infinity. *)
Lemma Decimal_sum_plus_infinity l : forall start t,
  finite_or_plus_infinity start ->
  Forall (fun a => Decimal_gt0 a = Ok true) l ->
  start = Infinity false \/ In (Infinity false) l ->
  Decimal_sum start l = Ok t -> t = Infinity false.
Proof.
  induction l as [|x l IH]; intros start t Hs Hl Hinf H.
  - injection H as <-. destruct Hinf as [->|[]]. reflexivity.
  - inversion Hl as [|? ? Hx Hl']; subst.
    apply gt0_is_finite_or_plus_infinity in Hx.
    unfold Decimal_sum in *. cbn [for_each] in H.
    destruct (Decimal_add start x) as [s'|] eqn:E; [|discriminate H].
    cbn [bind] in H. apply (IH s' t); [| exact Hl' | | exact H].
    + apply (@Decimal_add_keeps_shape start x s' Hs Hx E).
    + destruct Hinf as [Hstart|[Hhead|Htail]].
      * left. apply (@Decimal_add_plus_infinity start x s' Hs Hx (or_introl Hstart) E).
      * left.
        apply (@Decimal_add_plus_infinity start x s' Hs Hx (or_intror Hhead) E).
      * right. exact Htail.
Qed.

Section Infinite_amount.

Variable json_loads : text -> option json.
Variable Decimal_from_sequence : list json -> result Decimal.

Lemma infinite_amount_total db r ts :
  get_supplier_payments json_loads Decimal_from_sequence db = Ok r ->
  In ts (query_purchases db) ->
  note_amount json_loads Decimal_from_sequence
    (StockTransaction.notes (fst ts)) = Some (Infinity false) ->
  SupplierPayments.total_paid r = txt "Infinity"
  /\ exists item,
       In item (SupplierPayments.supplier_payments r)
       /\ SupplierPaymentItem.transaction_id item
          = StockTransaction.id (fst ts)
       /\ SupplierPaymentItem.amount_paid item = txt "Infinity".
Proof.
  intros Hok Hin Hamt.
  destruct (@get_supplier_payments_Ok _ _ _ _ Hok)
    as (total & Hitems & Hsum & Hpos & Htotal & _).
  assert (Hpay : paying json_loads Decimal_from_sequence ts = true).
  { unfold paying, carries_payment. rewrite Hamt. reflexivity. }
  assert (Hamount : purchase_amount json_loads Decimal_from_sequence ts
                    = Infinity false).
  { unfold purchase_amount. rewrite Hamt. reflexivity. }
  assert (Hlisted : In ts (filter (paying json_loads Decimal_from_sequence)
                             (query_purchases db))).
  { apply filter_In. split; assumption. }
  split.
  - rewrite Htotal.
    assert (total = Infinity false); [|subst total; reflexivity].
    apply (@Decimal_sum_plus_infinity
             (map (purchase_amount json_loads Decimal_from_sequence)
                (filter (paying json_loads Decimal_from_sequence)
                   (query_purchases db))) Decimal_0 total I).
    + apply Forall_forall. intros a Ha. apply in_map_iff in Ha.
      destruct Ha as (x & <- & Hx). rewrite Forall_forall in Hpos.
      apply Hpos. exact Hx.
    + right. rewrite <- Hamount. apply in_map. exact Hlisted.
    + exact Hsum.
  - destruct (@Forall2_In_l _ _ _ _ _ _ Hitems Hlisted) as (item & Hi & HR).
    destruct (@purchase_item_fields _ _ _ _ _ HR)
      as (Hid & _ & _ & _ & _ & Ha & _).
    exists item. split; [exact Hi|]. split; [exact Hid|].
    rewrite Ha, Hamount. reflexivity.
Qed.

(** X12. A Purchase transaction whose note gives the amount as "Infinity"
    is accepted as a payment: when [get_supplier_payments] returns, the
    transaction is listed with [amount_paid] "Infinity" and [total_paid] is
    "Infinity", whatever the other amounts are. *)
Theorem infinite_amount_is_accepted (db : Database) (r : SupplierPayments.t)
  (ts : StockTransaction.row * Supplier.row) :
  get_supplier_payments json_loads Decimal_from_sequence db = Ok r ->
  In ts (query_purchases db) ->
  note_amount json_loads Decimal_from_sequence
    (StockTransaction.notes (fst ts)) = Some (Infinity false) ->
  SupplierPayments.total_paid r = txt "Infinity"
  /\ exists item,
       In item (SupplierPayments.supplier_payments r)
       /\ SupplierPaymentItem.transaction_id item
          = StockTransaction.id (fst ts)
       /\ SupplierPaymentItem.amount_paid item = txt "Infinity".
Proof. apply infinite_amount_total. Qed.

End Infinite_amount.

(** The store with the note [{"payment_amount": "Infinity"}] next to a
    payment of 40.00. *)
Lemma infinite_amount_is_accepted_witness :
  exists r,
    get_supplier_payments json_loads_infinity from_sequence_examples
      db_infinity_note = Ok r
    /\ SupplierPayments.total_paid r = txt "Infinity"
    /\ SupplierPayments.count r = 2.
Proof.
  destruct (get_supplier_payments json_loads_infinity from_sequence_examples
              db_infinity_note) as [r|e] eqn:E;
    [|vm_compute in E; discriminate E].
  exists r. split; [reflexivity|].
  assert (Hin : In (purchase_infinity, kumar)
                  (query_purchases db_infinity_note))
    by (vm_compute; auto).
  destruct (@infinite_amount_is_accepted json_loads_infinity
              from_sequence_examples db_infinity_note r
              (purchase_infinity, kumar) E Hin eq_refl) as (Htotal & _).
  split; [exact Htotal|].
  vm_compute in E. injection E as <-. reflexivity.
Defined.

(* ================================================================== *)
(** ** get_supplier_receipts: which refunds are listed *)

(** The [try] block in closed form. *)
Lemma supplier_receipts_body_closed db :
  supplier_receipts_body db =
  match supplier_returns db with
  | None => Raise ImportError
  | Some table =>
      match Decimal_sum Decimal_0
              (map receipt_amount (query_receipts db table)) with
      | Ok total =>
          let items := map (receipt_item_of db) (query_receipts db table) in
          Ok (SupplierReceipts.mk items (Decimal_str total) (len items))
      | Raise e => Raise e
      end
  end.
Proof.
  unfold supplier_receipts_body.
  destruct (supplier_returns db) as [table|]; [|reflexivity].
  cbn [bind]. rewrite receipt_loop.
  destruct (Decimal_sum Decimal_0
              (map receipt_amount (query_receipts db table))) as [t|e];
    reflexivity.
Qed.

Lemma In_query_receipts db table rs :
  In rs (query_receipts db table) <->
  In (fst rs) table /\ In (snd rs) (suppliers db)
  /\ SupplierReturn.supplier_id (fst rs) = Supplier.id (snd rs)
  /\ sql_gt0 (SupplierReturn.refund_amount (fst rs)) = true
  /\ SupplierReturn.status (fst rs) = txt "Completed".
Proof.
  unfold query_receipts. rewrite In_order_by_desc, filter_In.
  destruct rs as [r s]. rewrite In_inner_join. cbn [fst snd].
  rewrite Z.eqb_eq, andb_true_iff, text_eqb_eq. tauto.
Qed.

(** X13. Every item of [get_supplier_receipts] is the dict of a
    SupplierReturn row with [refund_amount > 0] and status "Completed"
    whose supplier exists, so every item shows the status "Completed"; its
    [product_name] is "Unknown Product" when the damaged-product link is
    null or dangling.  Every such row is listed, unless the operation fell
    back to its empty result. *)
Theorem supplier_receipts_are_the_completed_refunds
  (db : Database) (r : SupplierReceipts.t) :
  get_supplier_receipts db = Ok r ->
  (forall item,
     In item (SupplierReceipts.supplier_receipts r) ->
     ReceiptItem.status item = txt "Completed"
     /\ exists table receipt supplier,
          supplier_returns db = Some table
          /\ In receipt table /\ In supplier (suppliers db)
          /\ SupplierReturn.supplier_id receipt = Supplier.id supplier
          /\ sql_gt0 (SupplierReturn.refund_amount receipt) = true
          /\ SupplierReturn.status receipt = txt "Completed"
          /\ item = receipt_item db receipt supplier
                      (Decimal_or_0 (SupplierReturn.refund_amount receipt))
          /\ (query_get DamagedProduct.id (damaged_products db)
                (SupplierReturn.damaged_product_id receipt) = None ->
              ReceiptItem.product_name item = txt "Unknown Product"))
  /\ (forall table receipt supplier,
        supplier_returns db = Some table ->
        In receipt table -> In supplier (suppliers db) ->
        SupplierReturn.supplier_id receipt = Supplier.id supplier ->
        sql_gt0 (SupplierReturn.refund_amount receipt) = true ->
        SupplierReturn.status receipt = txt "Completed" ->
        In (receipt_item db receipt supplier
              (Decimal_or_0 (SupplierReturn.refund_amount receipt)))
           (SupplierReceipts.supplier_receipts r)
        \/ r = empty_receipts).
Proof.
  unfold get_supplier_receipts, try_except.
  rewrite supplier_receipts_body_closed.
  destruct (supplier_returns db) as [table|] eqn:Et.
  2:{ intros H. injection H as <-. split.
      - intros item [].
      - intros; discriminate. }
  destruct (Decimal_sum Decimal_0
              (map receipt_amount (query_receipts db table))) as [t|e].
  2:{ intros H. injection H as <-. split.
      - intros item [].
      - intros. right. reflexivity. }
  cbv zeta. intros H. injection H as <-.
  cbn [SupplierReceipts.supplier_receipts]. split.
  - intros item Hin. apply in_map_iff in Hin.
    destruct Hin as ([receipt supplier] & <- & Hq).
    apply In_query_receipts in Hq. cbn [fst snd] in Hq.
    destruct Hq as (Hr & Hs & Hfk & Hgt & Hst).
    split; [exact Hst|].
    exists table, receipt, supplier.
    do 6 (split; [reflexivity || assumption|]).
    split; [reflexivity|].
    intros Hnone. unfold receipt_item_of, receipt_item. cbn [fst snd].
    rewrite Hnone. reflexivity.
  - intros table' receipt supplier E Hr Hs Hfk Hgt Hst. left.
    injection E as <-.
    apply in_map_iff. exists (receipt, supplier). split; [reflexivity|].
    apply In_query_receipts. cbn [fst snd]. tauto.
Qed.

(** The example store: the refund SR-70 of 15.00 is listed with the name of
    the product its damaged-product record points to. *)
Lemma supplier_receipts_are_the_completed_refunds_witness :
  exists r,
    get_supplier_receipts db_shop = Ok r
    /\ In (receipt_item db_shop supplier_refund kumar
             (Finite (money 1500)))
          (SupplierReceipts.supplier_receipts r)
    /\ ReceiptItem.product_name
         (receipt_item db_shop supplier_refund kumar (Finite (money 1500)))
       = txt "Widget".
Proof.
  destruct (get_supplier_receipts db_shop) as [r|e] eqn:E;
    [|vm_compute in E; discriminate E].
  exists r. split; [reflexivity|].
  destruct (supplier_receipts_are_the_completed_refunds _ E) as (_ & Hin).
  split; [|reflexivity].
  destruct (Hin [supplier_refund] supplier_refund kumar eq_refl
              (or_introl eq_refl) (or_introl eq_refl) eq_refl eq_refl eq_refl)
    as [H|H].
  - exact H.
  - exfalso. subst r. vm_compute in E. discriminate E.
Defined.

(* ================================================================== *)
(** ** The four operations on empty tables *)

Section Empty_tables.

Variable json_loads : text -> option json.
Variable Decimal_from_sequence : list json -> result Decimal.

Lemma inner_join_nil (A B : Type) (on : A -> B -> bool) r :
  inner_join on [] r = [].
Proof. reflexivity. Qed.

(** X14. On empty tables every operation returns an empty list and the
    count 0, but the totals differ in form: [get_customer_payments] and
    [get_customer_refunds] return "0.00", [get_supplier_payments] and
    [get_supplier_receipts] return "0" -- the latter returns "0.00" only
    when it falls back because the supplier-returns feature is missing. *)
Theorem totals_of_nothing (db : Database) :
  (payments db = [] -> product_returns db = [] ->
   get_customer_payments db = Ok (CustomerPayments.mk [] (txt "0.00") 0))
  /\ (product_returns db = [] ->
      get_customer_refunds db = Ok (CustomerRefunds.mk [] (txt "0.00") 0))
  /\ (stock_transactions db = [] ->
      get_supplier_payments json_loads Decimal_from_sequence db
      = Ok (SupplierPayments.mk [] (txt "0") 0))
  /\ (supplier_returns db = Some [] ->
      get_supplier_receipts db = Ok (SupplierReceipts.mk [] (txt "0") 0))
  /\ (supplier_returns db = None ->
      get_supplier_receipts db = Ok (SupplierReceipts.mk [] (txt "0.00") 0)).
Proof.
  split; [|split; [|split; [|split]]].
  - intros Hp Hr. rewrite get_customer_payments_closed.
    unfold query_payments, query_adjustments, join_returns.
    rewrite Hp, Hr. reflexivity.
  - intros Hr. rewrite get_customer_refunds_closed.
    unfold query_refunds, join_returns. rewrite Hr. reflexivity.
  - intros Ht. unfold get_supplier_payments, query_purchases.
    rewrite Ht. reflexivity.
  - intros Hs. unfold get_supplier_receipts.
    rewrite supplier_receipts_body_closed, Hs. reflexivity.
  - intros Hs. unfold get_supplier_receipts.
    rewrite supplier_receipts_body_closed, Hs. reflexivity.
Qed.

End Empty_tables.

(** A store with a customer, a supplier and a product, and no movement. *)
Lemma totals_of_nothing_witness :
  get_customer_payments db_quiet = Ok (CustomerPayments.mk [] (txt "0.00") 0)
  /\ get_supplier_payments json_loads_examples from_sequence_examples db_quiet
     = Ok (SupplierPayments.mk [] (txt "0") 0)
  /\ get_supplier_receipts db_quiet = Ok (SupplierReceipts.mk [] (txt "0") 0).
Proof.
  destruct (totals_of_nothing json_loads_examples from_sequence_examples
              db_quiet) as (Hcp & _ & Hsp & Hsr & _).
  split; [apply Hcp; reflexivity|].
  split; [apply Hsp; reflexivity|apply Hsr; reflexivity].
Defined.

(* ================================================================== *)
(** ** get_cashflow_summary: what it is made of and how it can fail *)

Lemma Decimal_add_finite_or_plus_infinity a b :
  finite_or_plus_infinity a -> finite_or_plus_infinity b ->
  (exists t, Decimal_add a b = Ok t /\ finite_or_plus_infinity t)
  \/ Decimal_add a b = Raise Overflow.
Proof.
  destruct a as [x|sa|sa ga pa], b as [y|sb|sb gb pb]; cbn;
    try contradiction; intros Ha Hb; subst.
  - change (Decimal_add (Finite x) (Finite y))
      with (r <- finite_add x y ;; Ok (Finite r)).
    destruct (finite_add x y) as [r|e] eqn:E; cbn [bind].
    + left. exists (Finite r). split; [reflexivity|exact I].
    + right. apply finite_add_raise in E. subst e. reflexivity.
  - left. exists (Infinity false). split; reflexivity.
  - left. exists (Infinity false). split; reflexivity.
  - left. exists (Infinity false). split; reflexivity.
Qed.

Lemma Decimal_sum_finite_or_plus_infinity l : forall start,
  finite_or_plus_infinity start ->
  Forall finite_or_plus_infinity l ->
  (exists t, Decimal_sum start l = Ok t /\ finite_or_plus_infinity t)
  \/ Decimal_sum start l = Raise Overflow.
Proof.
  induction l as [|x l IH]; intros start Hs Hl.
  - left. exists start. split; [reflexivity|exact Hs].
  - inversion Hl as [|? ? Hx Hl']; subst.
    unfold Decimal_sum in *. cbn [for_each].
    destruct (Decimal_add_finite_or_plus_infinity _ _ Hs Hx)
      as [(t & -> & Ht)| ->]; cbn [bind].
    + apply IH; assumption.
    + right. reflexivity.
Qed.

(** Subtracting from a finite number: the result is a number or the
    negative infinity, and only an overflow can stop it. *)
Lemma Decimal_sub_from_finite x b :
  finite_or_plus_infinity b ->
  (exists n, Decimal_sub (Finite x) b = Ok n
             /\ match n with NaN _ _ _ => False | _ => True end)
  \/ Decimal_sub (Finite x) b = Raise Overflow.
Proof.
  destruct b as [y|sb|sb gb pb]; cbn [finite_or_plus_infinity];
    try contradiction; intros Hb; subst.
  - change (Decimal_sub (Finite x) (Finite y))
      with (r <- finite_add x (negate y) ;; Ok (Finite r)).
    destruct (finite_add x (negate y)) as [r|e] eqn:E; cbn [bind].
    + left. exists (Finite r). split; [reflexivity|exact I].
    + right. apply finite_add_raise in E. subst e. reflexivity.
  - left. exists (Infinity true). split; [reflexivity|exact I].
Qed.

Lemma classify_returns n :
  match n with NaN _ _ _ => False | _ => True end ->
  exists position, classify n = Ok position.
Proof.
  destruct n as [f|s|s g p]; [| |contradiction]; intros _; unfold classify;
    cbn [Decimal_gt0 Decimal_lt0 bind].
  - destruct (negb (d_sign f) && negb (is_zero f)); [eauto|].
    destruct (d_sign f && negb (is_zero f)); eauto.
  - destruct s; cbn; eauto.
Qed.

Lemma receipt_amounts_finite l :
  map receipt_amount l
  = map Finite
      (map (fun rs => finite_or_0 (SupplierReturn.refund_amount (fst rs))) l).
Proof.
  rewrite map_map. apply map_ext. intros rs. unfold receipt_amount.
  apply Decimal_or_0_finite.
Qed.

(** [get_supplier_receipts] always returns, and its total reads back as a
    finite number. *)
Lemma supplier_receipts_total_reads_back db :
  exists sr t,
    get_supplier_receipts db = Ok sr
    /\ Decimal_of_text (SupplierReceipts.total_received sr) = Ok (Finite t).
Proof.
  unfold get_supplier_receipts, try_except.
  rewrite supplier_receipts_body_closed.
  destruct (supplier_returns db) as [table|].
  2:{ exists empty_receipts, (mkfinite false 0 (-2)). split; reflexivity. }
  destruct (Decimal_sum Decimal_0
              (map receipt_amount (query_receipts db table))) as [t|e] eqn:E.
  2:{ exists empty_receipts, (mkfinite false 0 (-2)). split; reflexivity. }
  rewrite receipt_amounts_finite in E.
  destruct (Decimal_sum_finite _ finite_0 E) as (f & -> & _).
  eexists. exists f. split; [reflexivity|].
  cbn [SupplierReceipts.total_received]. apply Decimal_str_roundtrip.
Qed.

Section Summary_parts.

Variable json_loads : text -> option json.
Variable Decimal_from_sequence : list json -> result Decimal.

Lemma get_supplier_payments_raise db e :
  get_supplier_payments json_loads Decimal_from_sequence db = Raise e ->
  exists cause, e = Exception supplier_payments_error cause.
Proof.
  unfold get_supplier_payments, try_except. cbv zeta.
  destruct (for_each _ _ _) as [[items total]|c]; cbn [bind].
  - discriminate.
  - intros H. injection H as <-. exists c. reflexivity.
Qed.

(** The total [get_supplier_payments] returns reads back as a finite number
    or as the positive infinity. *)
Lemma supplier_payments_total_reads_back db sp :
  get_supplier_payments json_loads Decimal_from_sequence db = Ok sp ->
  exists d,
    Decimal_of_text (SupplierPayments.total_paid sp) = Ok d
    /\ finite_or_plus_infinity d.
Proof.
  intros H.
  destruct (@get_supplier_payments_Ok _ _ _ _ H) as (total & _ & Hsum & Hpos & -> & _).
  exists total. split; [apply Decimal_str_roundtrip|].
  assert (Hall : Forall finite_or_plus_infinity
            (map (purchase_amount json_loads Decimal_from_sequence)
               (filter (paying json_loads Decimal_from_sequence)
                  (query_purchases db)))).
  { apply Forall_forall. intros a Ha. apply in_map_iff in Ha.
    destruct Ha as (ts & <- & Hts). rewrite Forall_forall in Hpos.
    apply gt0_is_finite_or_plus_infinity, Hpos. exact Hts. }
  destruct (@Decimal_sum_finite_or_plus_infinity _ Decimal_0 I Hall)
    as [(t & Ht & Hfpi)|Hr]; congruence.
Qed.

(** The summary in terms of the four results it is built from. *)
Lemma get_cashflow_summary_parts (db : Database) (r : Summary.t) :
  get_cashflow_summary json_loads Decimal_from_sequence db = Ok r ->
  exists cp sr cr sp d_sr d_sp,
    get_customer_payments db = Ok cp
    /\ get_supplier_receipts db = Ok sr
    /\ get_customer_refunds db = Ok cr
    /\ get_supplier_payments json_loads Decimal_from_sequence db = Ok sp
    /\ Decimal_of_text (SupplierReceipts.total_received sr) = Ok d_sr
    /\ Decimal_of_text (SupplierPayments.total_paid sp) = Ok d_sp
    /\ Summary.customer_payments (Summary.cash_inflow r)
       = CustomerPayments.total_received cp
    /\ Summary.customer_refunds (Summary.cash_outflow r)
       = CustomerRefunds.total_refunded cr
    /\ Summary.supplier_refunds (Summary.cash_inflow r) = format_2f d_sr
    /\ Summary.supplier_payments (Summary.cash_outflow r) = format_2f d_sp
    /\ Summary.customer_transactions (Summary.detailed_breakdown r)
       = Summary.mk_customer
           (Summary.mk_entry (CustomerPayments.total_received cp)
              (CustomerPayments.count cp)
              (CustomerPayments.customer_payments cp))
           (Summary.mk_entry (CustomerRefunds.total_refunded cr)
              (CustomerRefunds.count cr)
              (CustomerRefunds.customer_refunds cr))
    /\ Summary.supplier_transactions (Summary.detailed_breakdown r)
       = Summary.mk_supplier
           (Summary.mk_entry (format_2f d_sp)
              (SupplierPayments.count sp)
              (SupplierPayments.supplier_payments sp))
           (Summary.mk_entry (format_2f d_sr)
              (SupplierReceipts.count sr)
              (SupplierReceipts.supplier_receipts sr))
    /\ Summary.total_customer_transactions (Summary.summary r)
       = len (CustomerPayments.customer_payments cp)
         + len (CustomerRefunds.customer_refunds cr)
    /\ Summary.total_supplier_transactions (Summary.summary r)
       = len (SupplierPayments.supplier_payments sp)
         + SupplierReceipts.count sr.
Proof.
  intros H. apply try_except_Ok in H; [|intros e; eexists; reflexivity].
  destruct (get_customer_payments db) as [cp|] eqn:Ecp;
    cbn [bind] in H; [|discriminate H].
  destruct (get_supplier_receipts db) as [sr|] eqn:Esr;
    cbn [bind] in H; [|discriminate H].
  destruct (Decimal_of_text (CustomerPayments.total_received cp))
    as [d_cp|] eqn:Edcp; cbn [bind] in H; [|discriminate H].
  destruct (Decimal_of_text (SupplierReceipts.total_received sr))
    as [d_sr|] eqn:Edsr; cbn [bind] in H; [|discriminate H].
  destruct (Decimal_add d_cp d_sr) as [total_inflow|] eqn:Ein;
    cbn [bind] in H; [|discriminate H].
  destruct (get_customer_refunds db) as [cr|] eqn:Ecr;
    cbn [bind] in H; [|discriminate H].
  destruct (get_supplier_payments json_loads Decimal_from_sequence db)
    as [sp|] eqn:Esp; cbn [bind] in H; [|discriminate H].
  destruct (Decimal_of_text (CustomerRefunds.total_refunded cr))
    as [d_cr|] eqn:Edcr; cbn [bind] in H; [|discriminate H].
  destruct (Decimal_of_text (SupplierPayments.total_paid sp))
    as [d_sp|] eqn:Edsp; cbn [bind] in H; [|discriminate H].
  destruct (Decimal_add d_cr d_sp) as [total_outflow|] eqn:Eout;
    cbn [bind] in H; [|discriminate H].
  destruct (Decimal_sub total_inflow total_outflow) as [net|] eqn:Enet;
    cbn [bind] in H; [|discriminate H].
  rewrite !format_decimal_Decimal in H.
  rewrite (format_decimal_text _ Edsr), (format_decimal_text _ Edsp) in H.
  destruct (get_customer_payments_Ok _ Ecp) as (tcp & _ & _ & Htcp).
  destruct (get_customer_refunds_Ok _ Ecr) as (tcr & _ & _ & Htcr).
  rewrite Htcp, Htcr in H. rewrite !format_decimal_formatted in H.
  cbn [bind] in H.
  destruct (classify net) as [position|] eqn:Epos;
    cbn [bind] in H; [|discriminate H].
  injection H as <-.
  exists cp, sr, cr, sp, d_sr, d_sp.
  do 6 (split; [reflexivity || assumption|]).
  cbn [Summary.cash_inflow Summary.cash_outflow Summary.customer_payments
       Summary.customer_refunds Summary.supplier_refunds
       Summary.supplier_payments Summary.detailed_breakdown
       Summary.customer_transactions Summary.supplier_transactions
       Summary.summary Summary.total_customer_transactions
       Summary.total_supplier_transactions].
  rewrite Htcp, Htcr.
  do 6 (split; [reflexivity|]).
  pose proof Ecp as Ecp'. rewrite get_customer_payments_closed in Ecp'.
  pose proof Ecr as Ecr'. rewrite get_customer_refunds_closed in Ecr'.
  destruct (Decimal_sum Decimal_0
              (map payment_amount (query_payments db)
               ++ map adjustment_amount (query_adjustments db)));
    [|discriminate Ecp'].
  destruct (Decimal_sum Decimal_0 (map refund_amount_of (query_refunds db)));
    [|discriminate Ecr'].
  cbv zeta in Ecp', Ecr'. injection Ecp' as <-. injection Ecr' as <-.
  destruct (@get_supplier_payments_Ok _ _ _ _ Esp) as (tsp & _ & _ & _ & _ & Hcount).
  rewrite Hcount. split; reflexivity.
Qed.

(** X15. Whenever [get_cashflow_summary] returns, its parts are those of
    the four base operations: the customer totals appear as the operations
    returned them, the supplier totals appear rounded to two decimals, the
    breakdown repeats these four figures next to the counts and lists of
    the operations, and the two transaction counts are the sums of the
    counts, that is of the lengths of the lists. *)
Theorem summary_is_made_of_the_four_results (db : Database) (r : Summary.t) :
  get_cashflow_summary json_loads Decimal_from_sequence db = Ok r ->
  exists cp sr cr sp d_sr d_sp,
    get_customer_payments db = Ok cp
    /\ get_supplier_receipts db = Ok sr
    /\ get_customer_refunds db = Ok cr
    /\ get_supplier_payments json_loads Decimal_from_sequence db = Ok sp
    /\ Decimal_of_text (SupplierReceipts.total_received sr) = Ok d_sr
    /\ Decimal_of_text (SupplierPayments.total_paid sp) = Ok d_sp
    /\ Summary.customer_payments (Summary.cash_inflow r)
       = CustomerPayments.total_received cp
    /\ Summary.customer_refunds (Summary.cash_outflow r)
       = CustomerRefunds.total_refunded cr
    /\ Summary.supplier_refunds (Summary.cash_inflow r) = format_2f d_sr
    /\ Summary.supplier_payments (Summary.cash_outflow r) = format_2f d_sp
    /\ Summary.customer_transactions (Summary.detailed_breakdown r)
       = Summary.mk_customer
           (Summary.mk_entry (CustomerPayments.total_received cp)
              (CustomerPayments.count cp)
              (CustomerPayments.customer_payments cp))
           (Summary.mk_entry (CustomerRefunds.total_refunded cr)
              (CustomerRefunds.count cr)
              (CustomerRefunds.customer_refunds cr))
    /\ Summary.supplier_transactions (Summary.detailed_breakdown r)
       = Summary.mk_supplier
           (Summary.mk_entry (format_2f d_sp)
              (SupplierPayments.count sp)
              (SupplierPayments.supplier_payments sp))
           (Summary.mk_entry (format_2f d_sr)
              (SupplierReceipts.count sr)
              (SupplierReceipts.supplier_receipts sr))
    /\ Summary.total_customer_transactions (Summary.summary r)
       = len (CustomerPayments.customer_payments cp)
         + len (CustomerRefunds.customer_refunds cr)
    /\ Summary.total_supplier_transactions (Summary.summary r)
       = len (SupplierPayments.supplier_payments sp)
         + SupplierReceipts.count sr.
Proof. apply get_cashflow_summary_parts. Qed.

(** The ways in which the summary can fail. *)
Lemma get_cashflow_summary_raise (db : Database) (e : exn) :
  get_cashflow_summary json_loads Decimal_from_sequence db = Raise e ->
  (exists cause,
     get_customer_payments db
     = Raise (Exception customer_payments_error cause)
     /\ e = Exception summary_error
              (Exception customer_payments_error cause))
  \/ (exists cause,
        get_customer_refunds db
        = Raise (Exception customer_refunds_error cause)
        /\ (exists cp, get_customer_payments db = Ok cp)
        /\ e = Exception summary_error
                 (Exception customer_refunds_error cause))
  \/ (exists cause,
        get_supplier_payments json_loads Decimal_from_sequence db
        = Raise (Exception supplier_payments_error cause)
        /\ (exists cp, get_customer_payments db = Ok cp)
        /\ (exists cr, get_customer_refunds db = Ok cr)
        /\ e = Exception summary_error
                 (Exception supplier_payments_error cause))
  \/ ((exists cp, get_customer_payments db = Ok cp)
      /\ e = Exception summary_error Overflow).
Proof.
  unfold get_cashflow_summary, try_except.
  match goal with
  | |- match ?body with _ => _ end = _ -> _ =>
      destruct body as [r|c] eqn:Ebody
  end; [discriminate|].
  intros H. injection H as <-.
  destruct (get_customer_payments db) as [cp|c1] eqn:Ecp; cbn [bind] in Ebody.
  2:{ injection Ebody as <-.
      pose proof (get_customer_payments_raise _ Ecp) as Hc. subst c1.
      left. exists Overflow. split; reflexivity. }
  destruct (supplier_receipts_total_reads_back db) as (sr & t_sr & Esr & Edsr).
  rewrite Esr in Ebody. cbn [bind] in Ebody.
  destruct (customer_payments_total_reads_back _ Ecp) as (q_cp & Edcp & _).
  rewrite Edcp, Edsr in Ebody. cbn [bind] in Ebody.
  rewrite Decimal_add_finite in Ebody.
  destruct (finite_add q_cp t_sr) as [tin|c2] eqn:Ein; cbn [bind] in Ebody.
  2:{ injection Ebody as <-. apply finite_add_raise in Ein. subst c2.
      right. right. right. split; [eauto|reflexivity]. }
  destruct (get_customer_refunds db) as [cr|c3] eqn:Ecr; cbn [bind] in Ebody.
  2:{ injection Ebody as <-.
      pose proof (get_customer_refunds_raise _ Ecr) as Hc. subst c3.
      right. left. exists Overflow. split; [reflexivity|].
      split; [eauto|reflexivity]. }
  destruct (get_supplier_payments json_loads Decimal_from_sequence db)
    as [sp|c4] eqn:Esp; cbn [bind] in Ebody.
  2:{ injection Ebody as <-.
      destruct (get_supplier_payments_raise _ Esp) as (cause & ->).
      right. right. left. exists cause. split; [reflexivity|].
      split; [eauto|]. split; [eauto|reflexivity]. }
  destruct (customer_refunds_total_reads_back _ Ecr) as (q_cr & Edcr & _).
  destruct (supplier_payments_total_reads_back _ Esp) as (d_sp & Edsp & Hsp).
  rewrite Edcr, Edsp in Ebody. cbn [bind] in Ebody.
  destruct (@Decimal_add_finite_or_plus_infinity (Finite q_cr) d_sp I Hsp)
    as [(tout & Eout & Htout)|Eout]; rewrite Eout in Ebody;
    cbn [bind] in Ebody.
  2:{ injection Ebody as <-. right. right. right.
      split; [eauto|reflexivity]. }
  destruct (@Decimal_sub_from_finite tin tout Htout) as [(net & Enet & Hnet)|Enet];
    rewrite Enet in Ebody; cbn [bind] in Ebody.
  2:{ injection Ebody as <-. right. right. right.
      split; [eauto|reflexivity]. }
  rewrite !format_decimal_Decimal in Ebody.
  rewrite (format_decimal_text _ Edcp), (format_decimal_text _ Edsr),
    (format_decimal_text _ Edcr), (format_decimal_text _ Edsp) in Ebody.
  cbn [bind] in Ebody.
  destruct (classify_returns _ Hnet) as (position & Epos).
  rewrite Epos in Ebody. discriminate Ebody.
Qed.

(** X16. An amount of "Infinity" in the note of a Purchase transaction
    reaches the summary: whenever [get_cashflow_summary] returns on such a
    store, it shows the supplier payments and the total outflow as
    "Infinity", the net cash flow as "-Infinity" and the position
    "Negative", whatever came in. *)
Theorem infinite_amount_reaches_the_summary (db : Database) (r : Summary.t)
  (ts : StockTransaction.row * Supplier.row) :
  get_cashflow_summary json_loads Decimal_from_sequence db = Ok r ->
  In ts (query_purchases db) ->
  note_amount json_loads Decimal_from_sequence
    (StockTransaction.notes (fst ts)) = Some (Infinity false) ->
  Summary.supplier_payments (Summary.cash_outflow r) = txt "Infinity"
  /\ Summary.total_outflow (Summary.cash_outflow r) = txt "Infinity"
  /\ Summary.net_cashflow r = txt "-Infinity"
  /\ Summary.cash_position (Summary.summary r) = txt "Negative".
Proof.
  intros Hok Hin Hamt.
  destruct (@get_cashflow_summary_net _ _ _ _ Hok)
    as (cp & sr & cr & sp & d_cp & d_sr & d_cr & d_sp & tin & tout & net
        & Hcp & Hsr & Hcr & Hsp & Edcp & Edsr & Edcr & Edsp & Ein & Eout
        & Enet & _ & Hout & Hspf & Hnet & Hpos).
  destruct (@infinite_amount_total _ _ _ _ _ Hsp Hin Hamt) as (Htotal & _).
  rewrite Htotal in Edsp.
  assert (d_sp = Infinity false) by (vm_compute in Edsp; congruence).
  subst d_sp.
  destruct (customer_refunds_total_reads_back _ Hcr) as (q_cr & Eq & _).
  rewrite Eq in Edcr. injection Edcr as <-.
  assert (tout = Infinity false) by (cbn in Eout; congruence). subst tout.
  destruct (customer_payments_total_reads_back _ Hcp) as (q_cp & Eqp & _).
  rewrite Eqp in Edcp. injection Edcp as <-.
  destruct (supplier_receipts_total_reads_back db) as (sr' & t_sr & Esr' & Et).
  rewrite Hsr in Esr'. injection Esr' as <-.
  rewrite Et in Edsr. injection Edsr as <-.
  rewrite Decimal_add_finite in Ein.
  destruct (finite_add q_cp t_sr) as [fin|] eqn:Efin; [|discriminate Ein].
  injection Ein as <-.
  assert (net = Infinity true) by (cbn in Enet; congruence). subst net.
  rewrite Hspf, Hout, Hnet. cbn in Hpos. injection Hpos as <-.
  repeat split; reflexivity.
Qed.

(** X17. When [get_cashflow_summary] fails, it fails under the prefix
    "Error generating cash flow summary" with one of these: the failure of
    [get_customer_payments]; the failure of [get_customer_refunds], after
    [get_customer_payments] returned; the failure of
    [get_supplier_payments], after the two customer operations returned;
    or, [get_customer_payments] having returned, a decimal overflow in its
    own additions.  The failure of a base operation arrives wrapped in
    that operation's own prefix.  A failure of [get_supplier_receipts]
    never reaches the summary, a total that was returned never fails to
    read back, and the sign test never meets a NaN. *)
Theorem summary_failures (db : Database) (e : exn) :
  get_cashflow_summary json_loads Decimal_from_sequence db = Raise e ->
  (exists cause,
     get_customer_payments db
     = Raise (Exception customer_payments_error cause)
     /\ e = Exception summary_error
              (Exception customer_payments_error cause))
  \/ (exists cause,
        get_customer_refunds db
        = Raise (Exception customer_refunds_error cause)
        /\ (exists cp, get_customer_payments db = Ok cp)
        /\ e = Exception summary_error
                 (Exception customer_refunds_error cause))
  \/ (exists cause,
        get_supplier_payments json_loads Decimal_from_sequence db
        = Raise (Exception supplier_payments_error cause)
        /\ (exists cp, get_customer_payments db = Ok cp)
        /\ (exists cr, get_customer_refunds db = Ok cr)
        /\ e = Exception summary_error
                 (Exception supplier_payments_error cause))
  \/ ((exists cp, get_customer_payments db = Ok cp)
      /\ e = Exception summary_error Overflow).
Proof. apply get_cashflow_summary_raise. Qed.

End Summary_parts.

(** The example store: the summary repeats the totals 155.50 and 17.00 of
    the customer operations and counts 3 + 2 customer transactions. *)
Lemma summary_is_made_of_the_four_results_witness :
  exists r,
    get_cashflow_summary json_loads_examples from_sequence_examples db_shop
    = Ok r
    /\ Summary.customer_payments (Summary.cash_inflow r) = txt "155.50"
    /\ Summary.customer_refunds (Summary.cash_outflow r) = txt "17.00"
    /\ Summary.total_customer_transactions (Summary.summary r) = 5.
Proof.
  destruct (get_cashflow_summary json_loads_examples from_sequence_examples
              db_shop) as [r|e] eqn:E; [|vm_compute in E; discriminate E].
  exists r. split; [reflexivity|].
  destruct (summary_is_made_of_the_four_results _ _ _ E)
    as (cp & sr & cr & sp & d_sr & d_sp & Hcp & _ & Hcr & _ & _ & _
        & H1 & H2 & _ & _ & _ & _ & H3 & _).
  assert (Ecp : get_customer_payments db_shop = Ok shop_customer_payments)
    by (vm_compute; reflexivity).
  assert (Ecr : get_customer_refunds db_shop = Ok shop_customer_refunds)
    by (vm_compute; reflexivity).
  rewrite Ecp in Hcp. injection Hcp as <-.
  rewrite Ecr in Hcr. injection Hcr as <-.
  rewrite H1, H2, H3. repeat split; reflexivity.
Defined.

(** The store with a note whose amount is not a number: the summary fails
    with the failure of [get_supplier_payments] under both prefixes. *)
Lemma summary_failures_witness :
  get_cashflow_summary json_loads_examples from_sequence_examples db_bad_note
  = Raise (Exception summary_error
             (Exception supplier_payments_error InvalidOperation)).
Proof.
  destruct (get_cashflow_summary json_loads_examples from_sequence_examples
              db_bad_note) as [r|e] eqn:E; [vm_compute in E; discriminate E|].
  destruct (summary_failures _ _ _ E)
    as [(c & _ & H)|[(c & _ & _ & H)|[(c & Hsp & _ & _ & H)|(_ & H)]]];
    subst e; vm_compute in E; try discriminate E.
  vm_compute in Hsp. injection Hsp as <-. reflexivity.
Defined.

(* ================================================================== *)
(** ** The summary without supplier returns *)

Lemma finite_add_zero_places q :
  d_exp q = -2 ->
  finite_add q (mkfinite false 0 (-2)) = finite_add q (mkfinite false 0 0).
Proof.
  intros Hq. unfold finite_add. cbn [d_exp d_int d_sign is_zero].
  rewrite Hq. reflexivity.
Qed.

Section Summary_without_supplier_returns.

Variable json_loads : text -> option json.
Variable Decimal_from_sequence : list json -> result Decimal.

(** X18. The summary cannot tell a store whose supplier-returns feature is
    missing from one whose supplier-returns table is empty: the fallback
    total "0.00" and the total "0" of an empty table lead to the same
    result, field by field. *)
Theorem summary_cannot_tell_missing_from_empty (db : Database) :
  get_cashflow_summary json_loads Decimal_from_sequence
    (with_supplier_returns db None)
  = get_cashflow_summary json_loads Decimal_from_sequence
      (with_supplier_returns db (Some [])).
Proof.
  unfold get_cashflow_summary.
  set (db0 := with_supplier_returns db None).
  set (db1 := with_supplier_returns db (Some [])).
  assert (Hcp : get_customer_payments db0 = get_customer_payments db1)
    by reflexivity.
  assert (Hcr : get_customer_refunds db0 = get_customer_refunds db1)
    by reflexivity.
  assert (Hsp : get_supplier_payments json_loads Decimal_from_sequence db0
                = get_supplier_payments json_loads Decimal_from_sequence db1)
    by reflexivity.
  assert (Hsr0 : get_supplier_receipts db0 = Ok empty_receipts)
    by reflexivity.
  assert (Hsr1 : get_supplier_receipts db1
                 = Ok (SupplierReceipts.mk [] (txt "0") 0)) by reflexivity.
  rewrite Hcp, Hcr, Hsp, Hsr0, Hsr1. f_equal.
  destruct (get_customer_payments db1) as [cp|e] eqn:Ecp; cbn [bind];
    [|reflexivity].
  destruct (customer_payments_total_reads_back _ Ecp) as (q & Eq & Hexp).
  rewrite Eq. cbn [bind].
  change (Decimal_of_text (SupplierReceipts.total_received empty_receipts))
    with (Ok (Finite (mkfinite false 0 (-2)))).
  change (Decimal_of_text
            (SupplierReceipts.total_received
               (SupplierReceipts.mk [] (txt "0") 0)))
    with (Ok (Finite (mkfinite false 0 0))).
  cbn [bind]. rewrite !Decimal_add_finite, (finite_add_zero_places _ Hexp).
  change (format_decimal
            (inr (SupplierReceipts.total_received empty_receipts)))
    with (Ok (txt "0.00")).
  change (format_decimal
            (inr (SupplierReceipts.total_received
                    (SupplierReceipts.mk [] (txt "0") 0))))
    with (Ok (txt "0.00")).
  reflexivity.
Qed.

(** X19. On a store in which no money moved -- no payments, returns or
    stock transactions, and no supplier returns or no such feature -- the
    summary shows "0.00" in every figure, zero counts, empty lists and the
    position "Neutral", whatever customers, suppliers and products the
    store holds. *)
Theorem summary_of_an_idle_store (db : Database) :
  payments db = [] -> product_returns db = [] ->
  stock_transactions db = [] ->
  supplier_returns db = None \/ supplier_returns db = Some [] ->
  get_cashflow_summary json_loads Decimal_from_sequence db
  = Ok summary_of_nothing.
Proof.
  destruct db as [cs ss ps pays rets dps sts srs]. cbn.
  intros -> -> -> [->| ->]; vm_compute; reflexivity.
Qed.

End Summary_without_supplier_returns.

Lemma summary_of_an_idle_store_witness :
  get_cashflow_summary json_loads_examples from_sequence_examples db_quiet
  = Ok summary_of_nothing.
Proof.
  apply summary_of_an_idle_store; try reflexivity. right. reflexivity.
Defined.

(** The store with the note [{"payment_amount": "Infinity"}]: 120.50 came
    in, and the summary shows a net of "-Infinity". *)
Lemma infinite_amount_reaches_the_summary_witness :
  exists r,
    get_cashflow_summary json_loads_infinity from_sequence_examples
      db_infinity_note = Ok r
    /\ Summary.total_inflow (Summary.cash_inflow r) = txt "120.50"
    /\ Summary.net_cashflow r = txt "-Infinity"
    /\ Summary.cash_position (Summary.summary r) = txt "Negative".
Proof.
  destruct (get_cashflow_summary json_loads_infinity from_sequence_examples
              db_infinity_note) as [r|e] eqn:E;
    [|vm_compute in E; discriminate E].
  exists r. split; [reflexivity|].
  assert (Hin : In (purchase_infinity, kumar)
                  (query_purchases db_infinity_note))
    by (vm_compute; auto).
  destruct (@infinite_amount_reaches_the_summary json_loads_infinity
              from_sequence_examples db_infinity_note r
              (purchase_infinity, kumar) E Hin eq_refl)
    as (_ & _ & Hnet & Hpos).
  split; [|split; assumption].
  vm_compute in E. injection E as <-. reflexivity.
Defined.

(* ================================================================== *)
(** ** The view functions *)

Lemma adjustment_refund_loop db l items total :
  for_each l (items, total) (cashflow_routes.adjustment_refund_step db) =
  (t <- Decimal_sum total (map refund_amount_of l) ;;
   Ok (items ++ map (adjustment_refund_item_of db) l, t)).
Proof.
  apply accumulate_loop. intros its tot [[adjustment customer] product].
  unfold cashflow_routes.adjustment_refund_step, adjustment_refund_item_of,
    refund_amount_of, return_of, cashflow_routes.CashFlowService.format_decimal.
  cbn [fst snd]. rewrite format_decimal_Decimal. reflexivity.
Qed.

(** The [try] block of the view [get_customer_refunds] in closed form. *)
Lemma customer_refunds_body_closed db :
  cashflow_routes.customer_refunds_body db =
  match Decimal_sum Decimal_0
          (map refund_amount_of (cashflow_routes.query_exchange_refunds db))
  with
  | Ok total =>
      let items := map (adjustment_refund_item_of db)
                     (cashflow_routes.query_exchange_refunds db) in
      Ok (CustomerAdjustmentRefunds.mk items (format_2f total) (len items))
  | Raise e => Raise e
  end.
Proof.
  unfold cashflow_routes.customer_refunds_body. cbv zeta.
  rewrite adjustment_refund_loop.
  destruct (Decimal_sum Decimal_0
              (map refund_amount_of
                 (cashflow_routes.query_exchange_refunds db)))
    as [t|e]; simpl; [|reflexivity].
  unfold cashflow_routes.CashFlowService.format_decimal.
  rewrite format_decimal_Decimal. reflexivity.
Qed.

Lemma In_query_exchange_refunds db x :
  In x (cashflow_routes.query_exchange_refunds db) <->
  In x (join_returns db)
  /\ ProductReturn.return_type (return_of x) = txt "exchange"
  /\ sql_gt0 (ProductReturn.refund_amount (return_of x)) = true.
Proof.
  unfold cashflow_routes.query_exchange_refunds.
  rewrite In_order_by_desc, filter_In, andb_true_iff, text_eqb_eq. tauto.
Qed.

Lemma adjustment_refund_amounts_Decimal db :
  map refund_amount_of (cashflow_routes.query_exchange_refunds db)
  = map Finite (adjustment_refund_amounts db).
Proof.
  unfold adjustment_refund_amounts. rewrite map_map. apply map_ext.
  intros x. unfold refund_amount_of. apply Decimal_or_0_finite.
Qed.

Lemma adjustment_refund_amounts_nonnegative db :
  Forall nonnegative (adjustment_refund_amounts db).
Proof.
  unfold adjustment_refund_amounts. apply Forall_forall. intros a Ha.
  apply in_map_iff in Ha. destruct Ha as (x & <- & Hx).
  apply In_query_exchange_refunds in Hx. destruct Hx as (_ & _ & Hgt).
  destruct (sql_gt0_amount _ Hgt) as (f & _ & -> & Hf). exact Hf.
Qed.

(** X20. Whenever the view [get_customer_refunds] answers with a result,
    the status is 200, the amounts listed are those of the exchanges with a
    refund, each shown with two decimals, the count is the number of items,
    and [total_paid] is the formatted running sum of the amounts, none of
    which is negative: the exact sum whenever that fits the decimal
    context. *)
Theorem adjustment_refunds_view_total (db : Database)
  (body : CustomerAdjustmentRefunds.t) (status : Z) :
  cashflow_routes.get_customer_refunds db = (Json body, status) ->
  status = 200
  /\ map AdjustmentRefundItem.amount_paid
       (CustomerAdjustmentRefunds.customer_adjustment_refunds body)
     = map (fun a => format_2f (Finite a)) (adjustment_refund_amounts db)
  /\ CustomerAdjustmentRefunds.count body
     = len (CustomerAdjustmentRefunds.customer_adjustment_refunds body)
  /\ Forall nonnegative (adjustment_refund_amounts db)
  /\ exists total,
       Decimal_sum Decimal_0 (map Finite (adjustment_refund_amounts db))
       = Ok total
       /\ CustomerAdjustmentRefunds.total_paid body = format_2f total
       /\ (representable (exact_sum finite_0 (adjustment_refund_amounts db)) ->
           exists t,
             total = Finite t
             /\ (value t == sum_values (adjustment_refund_amounts db))%Q).
Proof.
  unfold cashflow_routes.get_customer_refunds.
  rewrite customer_refunds_body_closed, adjustment_refund_amounts_Decimal.
  destruct (Decimal_sum Decimal_0 (map Finite (adjustment_refund_amounts db)))
    as [total|e] eqn:E; cbn [respond]; [|discriminate].
  intros H. injection H as <- <-.
  cbn [CustomerAdjustmentRefunds.customer_adjustment_refunds
       CustomerAdjustmentRefunds.count CustomerAdjustmentRefunds.total_paid].
  split; [reflexivity|]. split.
  { unfold adjustment_refund_amounts. rewrite !map_map.
    apply map_ext. intros x. unfold adjustment_refund_item_of.
    cbn [AdjustmentRefundItem.amount_paid
         cashflow_routes.adjustment_refund_item].
    unfold refund_amount_of. rewrite Decimal_or_0_finite. reflexivity. }
  split; [reflexivity|].
  split; [apply adjustment_refund_amounts_nonnegative|].
  exists total. split; [reflexivity|]. split; [reflexivity|].
  intros Hrep.
  destruct (Decimal_sum_nonnegative_exact
              (adjustment_refund_amounts_nonnegative db) Hrep) as [E' V].
  exists (exact_sum finite_0 (adjustment_refund_amounts db)).
  split; [congruence|exact V].
Qed.

(** The example store: the view lists the refunds of 7.00 and 5.00 of the
    two exchanges and their total 12.00. *)
Lemma adjustment_refunds_view_total_witness :
  exists body,
    cashflow_routes.get_customer_refunds db_shop = (Json body, 200)
    /\ map AdjustmentRefundItem.amount_paid
         (CustomerAdjustmentRefunds.customer_adjustment_refunds body)
       = [txt "7.00"; txt "5.00"]
    /\ CustomerAdjustmentRefunds.total_paid body = txt "12.00".
Proof.
  destruct (cashflow_routes.get_customer_refunds db_shop)
    as [[body|e] status] eqn:E; [|vm_compute in E; discriminate E].
  destruct (@adjustment_refunds_view_total db_shop body status E)
    as (-> & Hamounts & _ & _ & total & Hsum & Htotal & _).
  exists body. split; [reflexivity|].
  split; [rewrite Hamounts; vm_compute; reflexivity|].
  rewrite Htotal. vm_compute in Hsum. injection Hsum as <-.
  vm_compute. reflexivity.
Defined.

(** X21. The items of [get_supplier_receipts] and those of the view
    [get_customer_refunds] are in descending order of return date, from
    the first to the last. *)
Theorem receipts_and_adjustment_refunds_are_latest_first (db : Database) :
  (forall r,
     get_supplier_receipts db = Ok r ->
     dates_descend
       (map ReceiptItem.return_date (SupplierReceipts.supplier_receipts r)))
  /\ (forall body,
        cashflow_routes.get_customer_refunds db = (Json body, 200) ->
        dates_descend
          (map AdjustmentRefundItem.adjustment_date
             (CustomerAdjustmentRefunds.customer_adjustment_refunds body))).
Proof.
  split.
  - intros r. unfold get_supplier_receipts, try_except.
    rewrite supplier_receipts_body_closed.
    assert (Hempty : dates_descend
              (map ReceiptItem.return_date
                 (SupplierReceipts.supplier_receipts empty_receipts))).
    { exists []. split; [reflexivity|constructor]. }
    destruct (supplier_returns db) as [table|];
      [|intros H; injection H as <-; exact Hempty].
    destruct (Decimal_sum Decimal_0
                (map receipt_amount (query_receipts db table))) as [t|e];
      [|intros H; injection H as <-; exact Hempty].
    cbv zeta. intros H. injection H as <-.
    cbn [SupplierReceipts.supplier_receipts].
    exists (map (fun rs => SupplierReturn.return_date (fst rs))
              (query_receipts db table)).
    split; [rewrite !map_map; reflexivity|].
    apply Sorted_map. apply (order_by_desc_sorted
      (fun rs : SupplierReturn.row * Supplier.row =>
         SupplierReturn.return_date (fst rs))).
  - intros body. unfold cashflow_routes.get_customer_refunds.
    rewrite customer_refunds_body_closed.
    destruct (Decimal_sum Decimal_0
                (map refund_amount_of
                   (cashflow_routes.query_exchange_refunds db)))
      as [t|e]; [|discriminate].
    cbv zeta. intros H. injection H as <-.
    cbn [CustomerAdjustmentRefunds.customer_adjustment_refunds].
    exists (map (fun x => ProductReturn.return_date (return_of x))
              (cashflow_routes.query_exchange_refunds db)).
    split; [rewrite !map_map; reflexivity|].
    apply Sorted_map. apply (order_by_desc_sorted
      (fun x : ProductReturn.row * Customer.row * Product.row =>
         ProductReturn.return_date (return_of x))).
Qed.

(** The example store: the view shows the exchange of 7 March before that
    of 4 March. *)
Lemma receipts_and_adjustment_refunds_are_latest_first_witness :
  exists body,
    cashflow_routes.get_customer_refunds db_shop = (Json body, 200)
    /\ map AdjustmentRefundItem.adjustment_date
         (CustomerAdjustmentRefunds.customer_adjustment_refunds body)
       = [isoformat (at_noon 2024 3 7); isoformat (at_noon 2024 3 4)]
    /\ dates_descend
         (map AdjustmentRefundItem.adjustment_date
            (CustomerAdjustmentRefunds.customer_adjustment_refunds body)).
Proof.
  destruct (cashflow_routes.get_customer_refunds db_shop) as [[body|e] st]
    eqn:E; [|vm_compute in E; discriminate E].
  assert (Hst : st = 200) by (vm_compute in E; congruence). subst st.
  exists body. split; [reflexivity|].
  destruct (receipts_and_adjustment_refunds_are_latest_first db_shop)
    as (_ & Hview).
  split; [|apply Hview; exact E].
  vm_compute in E. injection E as <-. reflexivity.
Defined.

Lemma adjustment_refund_item_id db x :
  AdjustmentRefundItem.adjustment_id (adjustment_refund_item_of db x)
  = ProductReturn.id (return_of x).
Proof. reflexivity. Qed.

(** X22. The view [get_customer_refunds] and the operation
    [get_customer_refunds] of the service select differently.  Of the
    ProductReturn rows with [refund_amount > 0] whose customer and product
    exist, the service lists those whose status is Pending, Processed or
    Completed, whatever their type; the view lists the exchanges, whatever
    their status, and shows that status.  They differ on cancelled
    exchanges and on every return that is not an exchange. *)
Theorem refund_views_select_differently
  (db : Database) (cr : CustomerRefunds.t)
  (body : CustomerAdjustmentRefunds.t) (row : ProductReturn.row) :
  get_customer_refunds db = Ok cr ->
  cashflow_routes.get_customer_refunds db = (Json body, 200) ->
  unique_ids (map ProductReturn.id (product_returns db)) = true ->
  In row (product_returns db) -> links_resolve db row = true ->
  sql_gt0 (ProductReturn.refund_amount row) = true ->
  ((exists item,
      In item (CustomerRefunds.customer_refunds cr)
      /\ RefundItem.return_id item = ProductReturn.id row)
   <-> in_ (ProductReturn.status row) refund_statuses = true)
  /\ ((exists item,
         In item (CustomerAdjustmentRefunds.customer_adjustment_refunds body)
         /\ AdjustmentRefundItem.adjustment_id item = ProductReturn.id row)
      <-> ProductReturn.return_type row = txt "exchange")
  /\ (ProductReturn.return_type row = txt "exchange" ->
      exists item,
        In item (CustomerAdjustmentRefunds.customer_adjustment_refunds body)
        /\ AdjustmentRefundItem.adjustment_id item = ProductReturn.id row
        /\ AdjustmentRefundItem.status item = ProductReturn.status row
        /\ AdjustmentRefundItem.amount_paid item
           = format_2f (Decimal_or_0 (ProductReturn.refund_amount row))).
Proof.
  intros Hcr Hview Hu Hin Hlinks Hgt.
  destruct (get_customer_refunds_Ok _ Hcr) as (total & _ & Hitems & _).
  unfold cashflow_routes.get_customer_refunds in Hview.
  rewrite customer_refunds_body_closed in Hview.
  destruct (Decimal_sum Decimal_0
              (map refund_amount_of
                 (cashflow_routes.query_exchange_refunds db)))
    as [t|e]; [|discriminate Hview].
  cbv zeta in Hview. injection Hview as <-.
  cbn [CustomerAdjustmentRefunds.customer_adjustment_refunds].
  destruct (links_resolve_join _ _ Hin Hlinks) as (c & p & Hjoin).
  assert (Hsame : forall x,
    In x (join_returns db) -> ProductReturn.id (return_of x)
                              = ProductReturn.id row -> return_of x = row).
  { intros x Hx E. apply same_return with (db := db);
      [exact Hu|apply join_returns_source; exact Hx|exact Hin|exact E]. }
  split; [|split].
  - split.
    + intros (item & Hi & E). rewrite Hitems in Hi. apply in_map_iff in Hi.
      destruct Hi as (x & <- & Hx). rewrite refund_item_return_id in E.
      apply In_query_refunds in Hx. destruct Hx as (Hj & _ & Hst).
      rewrite (Hsame _ Hj E) in Hst. exact Hst.
    + intros Hst. exists (refund_item_of db (row, c, p)). split.
      * rewrite Hitems. apply in_map. apply In_query_refunds.
        unfold return_of. cbn [fst]. tauto.
      * apply refund_item_return_id.
  - split.
    + intros (item & Hi & E). apply in_map_iff in Hi.
      destruct Hi as (x & <- & Hx). rewrite adjustment_refund_item_id in E.
      apply In_query_exchange_refunds in Hx. destruct Hx as (Hj & Hty & _).
      rewrite (Hsame _ Hj E) in Hty. exact Hty.
    + intros Hty. exists (adjustment_refund_item_of db (row, c, p)). split.
      * apply in_map. apply In_query_exchange_refunds.
        unfold return_of. cbn [fst]. tauto.
      * reflexivity.
  - intros Hty. exists (adjustment_refund_item_of db (row, c, p)). split.
    + apply in_map. apply In_query_exchange_refunds.
      unfold return_of. cbn [fst]. tauto.
    + repeat split; reflexivity.
Qed.

(** The example store: the cancelled exchange 53 with its refund of 7.00 is
    shown by the view and not by the service. *)
Lemma refund_views_select_differently_witness :
  exists body,
    cashflow_routes.get_customer_refunds db_shop = (Json body, 200)
    /\ (exists item,
          In item (CustomerAdjustmentRefunds.customer_adjustment_refunds body)
          /\ AdjustmentRefundItem.adjustment_id item = 53
          /\ AdjustmentRefundItem.status item = txt "Cancelled")
    /\ ~ (exists item,
            In item (CustomerRefunds.customer_refunds shop_customer_refunds)
            /\ RefundItem.return_id item = 53).
Proof.
  assert (Hcr : get_customer_refunds db_shop = Ok shop_customer_refunds)
    by (vm_compute; reflexivity).
  destruct (cashflow_routes.get_customer_refunds db_shop) as [[body|e] st]
    eqn:E; [|vm_compute in E; discriminate E].
  assert (Hst : st = 200) by (vm_compute in E; congruence). subst st.
  exists body. split; [reflexivity|].
  assert (Hin : In cancelled_exchange (product_returns db_shop))
    by (cbn; tauto).
  destruct (@refund_views_select_differently db_shop shop_customer_refunds
              body cancelled_exchange Hcr E eq_refl Hin eq_refl eq_refl)
    as (Hservice & _ & Hview).
  split.
  - destruct (Hview eq_refl) as (item & Hi & Hid & Hs & _).
    exists item. repeat split; assumption.
  - intros Hex. apply Hservice in Hex. discriminate Hex.
Defined.

Section View_facts.

Variable json_loads : text -> option json.
Variable Decimal_from_sequence : list json -> result Decimal.
Variable message : exn -> text.

(** X23. The view [get_supplier_receipts] always answers 200: whatever the
    store holds, and whether or not the supplier-returns feature exists,
    no error response is ever produced. *)
Theorem supplier_receipts_view_always_answers (db : Database) :
  exists r,
    cashflow_routes.get_supplier_receipts db = (Json r, 200)
    /\ get_supplier_receipts db = Ok r
    /\ error_text message (cashflow_routes.get_supplier_receipts db) = None.
Proof.
  unfold cashflow_routes.get_supplier_receipts,
    cashflow_routes.CashFlowService.get_supplier_receipts.
  destruct (supplier_receipts_total_reads_back db) as (sr & _ & -> & _).
  exists sr. repeat split; reflexivity.
Qed.

(** X24. The view [get_detailed_cashflow] answers 200 exactly when
    [get_customer_payments], [get_customer_refunds] and
    [get_supplier_payments] all return, and its body then holds their
    results and that of [get_supplier_receipts] under the key
    "supplier_refunds"; otherwise it answers 500 with the failure of the
    first of the three, in that order, that failed. *)
Theorem detailed_view_answers (db : Database) :
  match cashflow_routes.get_detailed_cashflow json_loads
          Decimal_from_sequence db with
  | (Json d, status) =>
      status = 200
      /\ get_customer_payments db = Ok (Detailed.customer_payments d)
      /\ get_customer_refunds db = Ok (Detailed.customer_refunds d)
      /\ get_supplier_payments json_loads Decimal_from_sequence db
         = Ok (Detailed.supplier_payments d)
      /\ get_supplier_receipts db = Ok (Detailed.supplier_refunds d)
  | (ErrorBody e, status) =>
      status = 500
      /\ (get_customer_payments db = Raise e
          \/ ((exists cp, get_customer_payments db = Ok cp)
              /\ get_customer_refunds db = Raise e)
          \/ ((exists cp, get_customer_payments db = Ok cp)
              /\ (exists cr, get_customer_refunds db = Ok cr)
              /\ get_supplier_payments json_loads Decimal_from_sequence db
                 = Raise e))
  end.
Proof.
  unfold cashflow_routes.get_detailed_cashflow,
    cashflow_routes.CashFlowService.get_customer_payments,
    cashflow_routes.CashFlowService.get_customer_refunds,
    cashflow_routes.CashFlowService.get_supplier_payments,
    cashflow_routes.CashFlowService.get_supplier_receipts.
  destruct (get_customer_payments db) as [cp|e] eqn:Ecp; cbn [bind respond].
  2:{ split; [reflexivity|]. left. reflexivity. }
  destruct (get_customer_refunds db) as [cr|e] eqn:Ecr; cbn [bind respond].
  2:{ split; [reflexivity|]. right. left. split; [eauto|reflexivity]. }
  destruct (get_supplier_payments json_loads Decimal_from_sequence db)
    as [sp|e] eqn:Esp; cbn [bind respond].
  2:{ split; [reflexivity|]. right. right. repeat split; eauto. }
  destruct (supplier_receipts_total_reads_back db) as (sr & _ & -> & _).
  cbn [bind respond]. repeat split; reflexivity.
Qed.

(** X25. Whenever the view [get_cashflow_summary] answers 200, so does the
    view [get_detailed_cashflow], and the lists and counts in the
    breakdown of the summary are those of the detailed body.  Conversely,
    when the detailed view answers 200 the summary view answers 200 or
    fails on a decimal overflow in its own additions. *)
Theorem summary_and_detailed_views_agree (db : Database) :
  (forall s,
     cashflow_routes.get_cashflow_summary json_loads Decimal_from_sequence db
     = (Json s, 200) ->
     exists d,
       cashflow_routes.get_detailed_cashflow json_loads
         Decimal_from_sequence db = (Json d, 200)
       /\ Summary.transactions
            (Summary.payments_received
               (Summary.customer_transactions (Summary.detailed_breakdown s)))
          = CustomerPayments.customer_payments (Detailed.customer_payments d)
       /\ Summary.transactions
            (Summary.refunds_given
               (Summary.customer_transactions (Summary.detailed_breakdown s)))
          = CustomerRefunds.customer_refunds (Detailed.customer_refunds d)
       /\ Summary.transactions
            (Summary.payments_made
               (Summary.supplier_transactions (Summary.detailed_breakdown s)))
          = SupplierPayments.supplier_payments (Detailed.supplier_payments d)
       /\ Summary.transactions
            (Summary.refunds_received
               (Summary.supplier_transactions (Summary.detailed_breakdown s)))
          = SupplierReceipts.supplier_receipts (Detailed.supplier_refunds d))
  /\ (forall d,
        cashflow_routes.get_detailed_cashflow json_loads
          Decimal_from_sequence db = (Json d, 200) ->
        (exists s,
           cashflow_routes.get_cashflow_summary json_loads
             Decimal_from_sequence db = (Json s, 200))
        \/ cashflow_routes.get_cashflow_summary json_loads
             Decimal_from_sequence db
           = (ErrorBody (Exception summary_error Overflow), 500)).
Proof.
  unfold cashflow_routes.get_cashflow_summary,
    cashflow_routes.get_detailed_cashflow,
    cashflow_routes.CashFlowService.get_cashflow_summary,
    cashflow_routes.CashFlowService.get_customer_payments,
    cashflow_routes.CashFlowService.get_customer_refunds,
    cashflow_routes.CashFlowService.get_supplier_payments,
    cashflow_routes.CashFlowService.get_supplier_receipts.
  split.
  - intros s Hs.
    destruct (get_cashflow_summary json_loads Decimal_from_sequence db)
      as [s'|e] eqn:E; [|discriminate Hs].
    injection Hs as ->.
    destruct (@get_cashflow_summary_parts _ _ _ _ E)
      as (cp & sr & cr & sp & d_sr & d_sp & Hcp & Hsr & Hcr & Hsp & _ & _
          & _ & _ & _ & _ & Hcust & Hsupp & _).
    rewrite Hcp, Hcr, Hsp, Hsr. cbn [bind respond].
    eexists. split; [reflexivity|].
    rewrite Hcust, Hsupp. repeat split; reflexivity.
  - intros d Hd.
    destruct (get_customer_payments db) as [cp|] eqn:Ecp;
      cbn [bind respond] in Hd; [|discriminate Hd].
    destruct (get_customer_refunds db) as [cr|] eqn:Ecr;
      cbn [bind respond] in Hd; [|discriminate Hd].
    destruct (get_supplier_payments json_loads Decimal_from_sequence db)
      as [sp|] eqn:Esp; cbn [bind respond] in Hd; [|discriminate Hd].
    destruct (get_cashflow_summary json_loads Decimal_from_sequence db)
      as [s|e] eqn:E; cbn [respond].
    + left. exists s. reflexivity.
    + right.
      destruct (@get_cashflow_summary_raise _ _ _ _ E)
        as [(c & Hc & H)|[(c & Hc & _ & H)|[(c & Hc & _ & _ & H)|(_ & H)]]];
        subst e.
      * congruence.
      * congruence.
      * congruence.
      * reflexivity.
Qed.

(** X26. An error response of the view [get_cashflow_summary] has status
    500 and a text starting with "Error generating cash flow summary: ",
    followed by one of these: the prefix of [get_customer_payments] and
    the text of what that operation failed on; the prefix of
    [get_customer_refunds] and the text of what it failed on; the prefix
    of [get_supplier_payments] and the text of what it failed on; or the
    text of a decimal overflow alone. *)
Theorem summary_view_error_texts (db : Database) (t : text) :
  error_text message
    (cashflow_routes.get_cashflow_summary json_loads Decimal_from_sequence db)
  = Some t ->
  snd (cashflow_routes.get_cashflow_summary json_loads Decimal_from_sequence
         db) = 500
  /\ starts_with (summary_error ++ txt ": ") t
  /\ ((exists cause,
         get_customer_payments db
         = Raise (Exception customer_payments_error cause)
         /\ t = summary_error ++ txt ": " ++ customer_payments_error
                ++ txt ": " ++ str_exn message cause)
      \/ (exists cause,
            get_customer_refunds db
            = Raise (Exception customer_refunds_error cause)
            /\ t = summary_error ++ txt ": " ++ customer_refunds_error
                   ++ txt ": " ++ str_exn message cause)
      \/ (exists cause,
            get_supplier_payments json_loads Decimal_from_sequence db
            = Raise (Exception supplier_payments_error cause)
            /\ t = summary_error ++ txt ": " ++ supplier_payments_error
                   ++ txt ": " ++ str_exn message cause)
      \/ t = summary_error ++ txt ": " ++ message Overflow).
Proof.
  unfold cashflow_routes.get_cashflow_summary,
    cashflow_routes.CashFlowService.get_cashflow_summary, error_text.
  destruct (get_cashflow_summary json_loads Decimal_from_sequence db)
    as [s|e] eqn:E; cbn [respond fst snd]; [discriminate|].
  intros H. injection H as <-. split; [reflexivity|].
  destruct (@get_cashflow_summary_raise _ _ _ _ E)
    as [(c & Hc & ->)|[(c & Hc & _ & ->)|[(c & Hc & _ & _ & ->)|(_ & ->)]]];
    cbn [str_exn].
  - split; [eexists; rewrite <- app_assoc; reflexivity|].
    left. exists c. split; [exact Hc|reflexivity].
  - split; [eexists; rewrite <- app_assoc; reflexivity|].
    right. left. exists c. split; [exact Hc|reflexivity].
  - split; [eexists; rewrite <- app_assoc; reflexivity|].
    right. right. left. exists c. split; [exact Hc|reflexivity].
  - split; [eexists; rewrite <- app_assoc; reflexivity|].
    right. right. right. reflexivity.
Qed.

(** X27. The error responses of the other views have status 500.  That of
    [get_customer_payments] carries "Error fetching customer payments: "
    followed by the text of what the operation failed on, that of
    [get_supplier_payments] carries "Error fetching supplier payments: "
    followed by the text of what that operation failed on; the view
    [get_customer_refunds], which runs its own query, carries the text of
    what its own block failed on, with no prefix. *)
Theorem view_error_texts (db : Database) (t : text) :
  (error_text message (cashflow_routes.get_customer_payments db) = Some t ->
   snd (cashflow_routes.get_customer_payments db) = 500
   /\ exists cause,
        get_customer_payments db
        = Raise (Exception customer_payments_error cause)
        /\ t = customer_payments_error ++ txt ": " ++ str_exn message cause)
  /\ (error_text message
        (cashflow_routes.get_supplier_payments json_loads
           Decimal_from_sequence db) = Some t ->
      snd (cashflow_routes.get_supplier_payments json_loads
             Decimal_from_sequence db) = 500
      /\ exists cause,
           get_supplier_payments json_loads Decimal_from_sequence db
           = Raise (Exception supplier_payments_error cause)
           /\ t = supplier_payments_error ++ txt ": "
                  ++ str_exn message cause)
  /\ (error_text message (cashflow_routes.get_customer_refunds db) = Some t ->
      snd (cashflow_routes.get_customer_refunds db) = 500
      /\ exists e,
           cashflow_routes.customer_refunds_body db = Raise e
           /\ t = message e).
Proof.
  unfold cashflow_routes.get_customer_payments,
    cashflow_routes.get_supplier_payments,
    cashflow_routes.get_customer_refunds,
    cashflow_routes.CashFlowService.get_customer_payments,
    cashflow_routes.CashFlowService.get_supplier_payments, error_text.
  split; [|split].
  - destruct (get_customer_payments db) as [r|e] eqn:E; cbn [respond fst snd];
      [discriminate|].
    intros H. injection H as <-. split; [reflexivity|].
    rewrite (get_customer_payments_raise _ E). exists Overflow.
    split; reflexivity.
  - destruct (get_supplier_payments json_loads Decimal_from_sequence db)
      as [r|e] eqn:E; cbn [respond fst snd]; [discriminate|].
    intros H. injection H as <-. split; [reflexivity|].
    destruct (@get_supplier_payments_raise _ _ _ _ E) as (cause & ->).
    exists cause. split; reflexivity.
  - rewrite customer_refunds_body_closed, adjustment_refund_amounts_Decimal.
    destruct (Decimal_sum Decimal_0
                (map Finite (adjustment_refund_amounts db))) as [total|e] eqn:E;
      cbn [respond fst snd]; [discriminate|].
    intros H. injection H as <-. split; [reflexivity|].
    apply Decimal_sum_finite_raise in E. subst e.
    exists Overflow. split; reflexivity.
Qed.

End View_facts.

(** The example store: the detailed view answers 200 with the results of
    the operations. *)
Lemma detailed_view_answers_witness :
  exists d,
    cashflow_routes.get_detailed_cashflow json_loads_examples
      from_sequence_examples db_shop = (Json d, 200)
    /\ get_customer_payments db_shop = Ok (Detailed.customer_payments d)
    /\ get_supplier_receipts db_shop = Ok (Detailed.supplier_refunds d).
Proof.
  pose proof (detailed_view_answers json_loads_examples
                from_sequence_examples db_shop) as H.
  destruct (cashflow_routes.get_detailed_cashflow json_loads_examples
              from_sequence_examples db_shop) as [[d|e] st] eqn:E;
    [|vm_compute in E; discriminate E].
  destruct H as (-> & Hcp & _ & _ & Hsr).
  exists d. repeat split; assumption.
Defined.

Lemma summary_and_detailed_views_agree_witness :
  exists s d,
    cashflow_routes.get_cashflow_summary json_loads_examples
      from_sequence_examples db_shop = (Json s, 200)
    /\ cashflow_routes.get_detailed_cashflow json_loads_examples
         from_sequence_examples db_shop = (Json d, 200)
    /\ Summary.transactions
         (Summary.payments_received
            (Summary.customer_transactions (Summary.detailed_breakdown s)))
       = CustomerPayments.customer_payments (Detailed.customer_payments d).
Proof.
  destruct (cashflow_routes.get_cashflow_summary json_loads_examples
              from_sequence_examples db_shop) as [[s|e] st] eqn:E;
    [|vm_compute in E; discriminate E].
  assert (Hst : st = 200) by (vm_compute in E; congruence). subst st.
  destruct (summary_and_detailed_views_agree json_loads_examples
              from_sequence_examples db_shop) as (Hsd & _).
  destruct (Hsd s E) as (d & Hd & Hcp & _).
  exists s, d. repeat split; assumption.
Defined.

(** The store with a note whose amount is not a number, with "invalid" as
    the text of every runtime exception: the summary view answers 500 with
    both prefixes in front of that text. *)
Lemma summary_view_error_texts_witness :
  error_text (fun _ => txt "invalid")
    (cashflow_routes.get_cashflow_summary json_loads_examples
       from_sequence_examples db_bad_note)
  = Some (txt "Error generating cash flow summary: Error fetching supplier payments: invalid")
  /\ starts_with (summary_error ++ txt ": ")
       (txt "Error generating cash flow summary: Error fetching supplier payments: invalid").
Proof.
  assert (E : error_text (fun _ => txt "invalid")
                (cashflow_routes.get_cashflow_summary json_loads_examples
                   from_sequence_examples db_bad_note)
              = Some (txt "Error generating cash flow summary: Error fetching supplier payments: invalid"))
    by (vm_compute; reflexivity).
  split; [exact E|].
  apply (summary_view_error_texts json_loads_examples from_sequence_examples
           (fun _ => txt "invalid") db_bad_note E).
Defined.

Lemma view_error_texts_witness :
  error_text (fun _ => txt "invalid")
    (cashflow_routes.get_supplier_payments json_loads_examples
       from_sequence_examples db_bad_note)
  = Some (txt "Error fetching supplier payments: invalid")
  /\ snd (cashflow_routes.get_supplier_payments json_loads_examples
            from_sequence_examples db_bad_note) = 500.
Proof.
  assert (E : error_text (fun _ => txt "invalid")
                (cashflow_routes.get_supplier_payments json_loads_examples
                   from_sequence_examples db_bad_note)
              = Some (txt "Error fetching supplier payments: invalid"))
    by (vm_compute; reflexivity).
  split; [exact E|].
  destruct (view_error_texts json_loads_examples from_sequence_examples
              (fun _ => txt "invalid") db_bad_note
              (txt "Error fetching supplier payments: invalid"))
    as (_ & Hsp & _).
  apply (Hsp E).
Defined.
